(** * Credit scoring pipeline: a shallow embedding of
      [server/ml/credit_scoring.py]

    The two stages of the script, [analyze_data] and [train_models], are
    embedded as computations in a small state-and-exception monad over a
    world made of the file system and the line-oriented event stream that
    [log_output] appends to.

    Modelling conventions:
    - float64 values are extended rationals: exact arithmetic on finite
      values, the IEEE rules for infinities and NaN; rounding and the sign
      of zero are abstracted;
    - a pandas DataFrame is an ordered list of named, typed columns plus
      its row count; [df.copy()] is a deep copy, so the copy is a value of
      its own and assignments to it never reach the original;
    - strings are byte strings (UTF-8), whose byte order is the code point
      order Python compares by;
    - scikit-learn's estimators, splitters and metrics are an interface
      ([Sklearn.api]); every call may raise;
    - [log_output] renders the record with [json.dumps] and prints it;
      the rendering is not modelled beyond whether it succeeds: it fails
      on a [dataset_summary] record, whose [missingValues] is a numpy
      integer, and on no other (see [serializable]);
    - a CSV or Excel file holds a frame: what [to_csv] writes is what
      [read_csv] reads back;
    - a file is known by the spelling of its path: two spellings of one
      location count as two files, so nothing is stated about paths that
      reach a project's files under another spelling;
    - the messages of exceptions raised inside pandas and the file system
      are placeholders: only the messages the script itself writes, and
      the one of [json.dumps], are meant literally;
    - [astype(str)] turns a missing text cell into [nan], as pandas before
      version 3 does. *)

From Stdlib Require Import QArith Qabs Ascii String Lqa.
From stdpp Require Import gmap strings list sorting.

Local Open Scope list_scope.

(** ** Python string operations *)
Module Py.

(** [c.lower()] on one byte: ASCII capitals move down by 32, every other
    byte (also the bytes of a multi-byte code point) is left alone. *)
Definition lower_ascii (c : ascii) : ascii :=
  let n := nat_of_ascii c in
  if (65 <=? n)%nat && (n <=? 90)%nat then ascii_of_nat (n + 32) else c.

(** [s.lower()] *)
Fixpoint lower (s : string) : string :=
  match s with
  | EmptyString => EmptyString
  | String c s' => String (lower_ascii c) (lower s')
  end.

(** [sub in s] *)
Fixpoint contains (sub s : string) : bool :=
  String.prefix sub s ||
  match s with
  | EmptyString => false
  | String _ s' => contains sub s'
  end.

(** [s.endswith(suffix)] *)
Definition endswith (s suffix : string) : bool :=
  let n := String.length s in
  let k := String.length suffix in
  (k <=? n)%nat && String.eqb (String.substring (n - k) k s) suffix.

(** [x in l] for a list of strings *)
Definition mem (x : string) (l : list string) : bool :=
  existsb (String.eqb x) l.

(** A Python dict with string keys, in insertion order: [d[k] = v]
    replaces the value of a present key in place and appends a new key. *)
Fixpoint dict_set {V} (d : list (string * V)) (k : string) (v : V)
  : list (string * V) :=
  match d with
  | [] => [(k, v)]
  | (k', v') :: d' =>
      if String.eqb k' k then (k, v) :: d' else (k', v') :: dict_set d' k v
  end.

Definition keys {V} (d : list (string * V)) : list string := d.*1.

End Py.

(** ** float64 as extended rationals *)
Module Float.

Inductive float64 :=
| NaN
| Inf (negative : bool)
| Fin (q : Q).

Definition Qsign (q : Q) : comparison := (0 ?= q)%Q.

Definition of_nat (n : nat) : float64 := Fin (inject_Z (Z.of_nat n)).
Definition of_Z (z : Z) : float64 := Fin (inject_Z z).

Definition add (x y : float64) : float64 :=
  match x, y with
  | NaN, _ | _, NaN => NaN
  | Inf a, Inf b => if Bool.eqb a b then Inf a else NaN
  | Inf a, Fin _ | Fin _, Inf a => Inf a
  | Fin a, Fin b => Fin (a + b)
  end.

Definition opp (x : float64) : float64 :=
  match x with
  | NaN => NaN
  | Inf a => Inf (negb a)
  | Fin a => Fin (- a)
  end.

Definition sub (x y : float64) : float64 := add x (opp y).

Definition mul (x y : float64) : float64 :=
  match x, y with
  | NaN, _ | _, NaN => NaN
  | Inf a, Inf b => Inf (xorb a b)
  | Inf a, Fin q | Fin q, Inf a =>
      match Qsign q with
      | Eq => NaN
      | Lt => Inf a
      | Gt => Inf (negb a)
      end
  | Fin a, Fin b => Fin (a * b)
  end.

(** numpy division: a zero divisor yields an infinity (or NaN for 0/0)
    and a warning, never an exception. *)
Definition div (x y : float64) : float64 :=
  match x, y with
  | NaN, _ | _, NaN => NaN
  | Inf _, Inf _ => NaN
  | Inf a, Fin q => if Qle_bool 0 q then Inf a else Inf (negb a)
  | Fin _, Inf _ => Fin 0
  | Fin a, Fin b =>
      match Qsign b with
      | Eq => match Qsign a with
              | Eq => NaN
              | Lt => Inf false
              | Gt => Inf true
              end
      | _ => Fin (a / b)
      end
  end.

(** [x > y]; every comparison with NaN is false. *)
Definition gtb (x y : float64) : bool :=
  match x, y with
  | NaN, _ | _, NaN => false
  | Inf a, Inf b => negb a && b
  | Inf a, Fin _ => negb a
  | Fin _, Inf b => b
  | Fin a, Fin b => negb (Qle_bool a b)
  end.

Definition isnan (x : float64) : bool :=
  match x with NaN => true | _ => false end.

(** Equality of values (finite ones up to the fraction's representation). *)
Definition eqb (x y : float64) : bool :=
  match x, y with
  | NaN, NaN => true
  | Inf a, Inf b => Bool.eqb a b
  | Fin a, Fin b => Qeq_bool a b
  | _, _ => false
  end.

End Float.

(** ** Results of calls that may raise *)
Module Exn.

(** An exception is carried by its message, [str(e)]. *)
Definition exn := string.

Inductive result (A : Type) :=
| Ok (a : A)
| Raise (e : exn).
Arguments Ok {A} a.
Arguments Raise {A} e.

End Exn.

(** ** The part of pandas the script uses *)
Module Pandas.
Import Float Exn.

(** The values of a column, by inferred dtype: [int64] (no missing value),
    [float64] (NaN is the missing value) and [object] (text, [None] is the
    missing value). *)
Inductive data :=
| Ints (l : list Z)
| Floats (l : list float64)
| Objects (l : list (option string)).

Record Series := { name : string; values : data }.

(** [index] is the number of rows, [len(df)]. *)
Record DataFrame := { index : nat; series : list Series }.

Definition len (df : DataFrame) : nat := index df.

(** [df.columns] *)
Definition columns (df : DataFrame) : list string := name <$> series df.

(** [df.dtypes.astype(str)] of one column *)
Definition dtype_str (d : data) : string :=
  match d with
  | Ints _ => "int64"
  | Floats _ => "float64"
  | Objects _ => "object"
  end.

Definition is_number (d : data) : bool :=
  match d with Objects _ => false | _ => true end.

Definition is_object (d : data) : bool :=
  match d with Objects _ => true | _ => false end.

(** [df[col]] for [col in df.columns]: the first column of that name. *)
Fixpoint getitem (cols : list Series) (col : string) : option Series :=
  match cols with
  | [] => None
  | s :: cols' => if String.eqb (name s) col then Some s else getitem cols' col
  end.

(** [df[col] = d]: a present column keeps its position and takes the new
    values, a new one is appended on the right. *)
Fixpoint setitem_series (cols : list Series) (col : string) (d : data)
  : list Series :=
  match cols with
  | [] => [ {| name := col; values := d |} ]
  | s :: cols' =>
      if String.eqb (name s) col
      then {| name := col; values := d |} :: cols'
      else s :: setitem_series cols' col d
  end.

Definition setitem (df : DataFrame) (col : string) (d : data) : DataFrame :=
  {| index := index df; series := setitem_series (series df) col d |}.

(** [df.drop(columns=[col])] *)
Definition drop (df : DataFrame) (col : string) : DataFrame :=
  {| index := index df;
     series := List.filter (fun s => negb (String.eqb (name s) col)) (series df) |}.

(** [df.select_dtypes(include=[np.number]).columns.tolist()] *)
Definition numerical_cols (df : DataFrame) : list string :=
  name <$> List.filter (fun s => is_number (values s)) (series df).

(** [df.select_dtypes(include=['object']).columns] *)
Definition categorical_cols (df : DataFrame) : list string :=
  name <$> List.filter (fun s => is_object (values s)) (series df).

(** [df.dtypes.astype(str).to_dict()] *)
Definition dtypes_dict (df : DataFrame) : list (string * string) :=
  foldl (fun d s => Py.dict_set d (name s) (dtype_str (values s))) [] (series df).

(** Number of missing cells of a column, [s.isnull().sum()]. *)
Definition isnull_sum (d : data) : nat :=
  match d with
  | Ints _ => 0
  | Floats l => length (List.filter isnan l)
  | Objects l => length (List.filter (fun o => negb (bool_decide (is_Some o))) l)
  end.

(** [df.isnull().sum().sum()] *)
Definition isnull_sum_sum (df : DataFrame) : nat :=
  foldr (fun s n => isnull_sum (values s) + n) 0 (series df).

(** The float view of a numeric column; text has none. *)
Definition to_floats (d : data) : option (list float64) :=
  match d with
  | Ints l => Some (of_Z <$> l)
  | Floats l => Some l
  | Objects _ => None
  end.

(** [a / b] on two Series over the same index; text operands raise
    TypeError. *)
Definition truediv (a b : data) : result data :=
  match to_floats a, to_floats b with
  | Some xs, Some ys => Ok (Floats (zip_with div xs ys))
  | _, _ => Raise "unsupported operand type(s) for /: 'str' and 'str'"
  end.

Definition sum_floats (l : list float64) : float64 :=
  foldl add (Fin 0) l.

(** Mean of the values that are not NaN; NaN when there is none. *)
Definition mean_skipna (l : list float64) : float64 :=
  let present := List.filter (fun x => negb (isnan x)) l in
  match present with
  | [] => NaN
  | _ => div (sum_floats present) (of_nat (length present))
  end.

(** [s.mean()]: a text column raises TypeError, unless it has no cell at
    all, when there is nothing to convert and the mean is NaN. *)
Definition series_mean (d : data) : result float64 :=
  match to_floats d with
  | Some xs => Ok (mean_skipna xs)
  | None =>
      match d with
      | Objects [] => Ok NaN
      | _ => Raise "Could not convert string to numeric"
      end
  end.

(** [df[cols]]: the named columns, in the order of [cols]. *)
Definition select (df : DataFrame) (cols : list string) : list Series :=
  omap (getitem (series df)) cols.

Fixpoint all_floats (cols : list Series) : option (list (list float64)) :=
  match cols with
  | [] => Some []
  | s :: cols' =>
      match to_floats (values s), all_floats cols' with
      | Some xs, Some rest => Some (xs :: rest)
      | _, _ => None
      end
  end.

(** Row [i] of a block of columns. *)
Definition row (cols : list (list float64)) (i : nat) : list float64 :=
  (fun c => nth i c NaN) <$> cols.

(** [df[cols].mean(axis=1)]: per row, the mean of the cells that are not
    NaN; a text column among them raises TypeError. *)
Definition mean_axis1 (df : DataFrame) (cols : list string) : result data :=
  match all_floats (select df cols) with
  | Some cs => Ok (Floats ((fun i => mean_skipna (row cs i)) <$> seq 0 (len df)))
  | None => Raise "unsupported operand type(s) for +: 'float' and 'str'"
  end.

(** [s.astype(str)] on a text column: a missing value prints as [nan]. *)
Definition astype_str (l : list (option string)) : list string :=
  (fun o => match o with Some s => s | None => "nan" end) <$> l.

End Pandas.

(** ** The part of scikit-learn the script uses *)
Module Sklearn.
Import Float Exn Pandas.

(** *** [LabelEncoder]

    [fit] stores the distinct labels in sorted order ([classes_]);
    [transform] replaces a label by its position in [classes_]. *)
Module LabelEncoder.

Definition classes_ (y : list string) : list string :=
  merge_sort String.le (remove_dups y).

(** Position of [v] in [cls] (the length when absent). *)
Fixpoint position (v : string) (cls : list string) : nat :=
  match cls with
  | [] => 0
  | c :: cls' => if String.eqb c v then 0 else S (position v cls')
  end.

Definition transform (cls : list string) (y : list string) : list Z :=
  (fun v => Z.of_nat (position v cls)) <$> y.

Definition fit_transform (y : list string) : list Z :=
  transform (classes_ y) y.

End LabelEncoder.

(** *** Estimators, search and metrics: an interface *)

Definition matrix := list (list float64).

(** What an estimator is fitted on and predicts from: the DataFrame
    itself or the array the scaler returns. *)
Inductive features :=
| Frame (df : DataFrame)
| Array (m : matrix).

Inductive estimator :=
| LogisticRegression (random_state : Z)
| DecisionTreeClassifier (random_state : Z)
| RandomForestClassifier (random_state : Z).

(** A value in a hyperparameter grid. *)
Inductive pval :=
| PNum (q : Q)
| PStr (s : string)
| PNone.

Definition grid := list (string * list pval).

Record Split := {
  X_train : DataFrame;
  X_test : DataFrame;
  y_train : data;
  y_test : data
}.

(** A fitted estimator: the attributes the script looks for and the two
    prediction methods. *)
Record Fitted := {
  feature_importances_ : option (list float64);
  coef_ : option matrix;
  predict : features -> result (list float64);
  predict_proba : features -> result matrix
}.

Record GridSearchCV := {
  best_estimator_ : Fitted;
  best_params_ : list (string * pval)
}.

(** [StandardScaler] after [fit]: per column mean and scale. *)
Definition StandardScaler := list (float64 * float64).

Record api := {
  (** [train_test_split(X, y, test_size, random_state, stratify=y)] *)
  train_test_split : DataFrame -> data -> Q -> Z -> result Split;
  (** [StandardScaler().fit_transform(X)] *)
  fit_transform : DataFrame -> result (StandardScaler * matrix);
  (** [scaler.transform(X)] *)
  transform : StandardScaler -> DataFrame -> result matrix;
  (** [GridSearchCV(model, params, cv, scoring, n_jobs=-1).fit(X, y)] *)
  grid_search_fit :
    estimator -> grid -> nat -> string -> features -> data -> result GridSearchCV;
  accuracy_score : data -> list float64 -> result float64;
  (** the three scores take [average] *)
  precision_score : data -> list float64 -> string -> result float64;
  recall_score : data -> list float64 -> string -> result float64;
  f1_score : data -> list float64 -> string -> result float64;
  roc_auc_score : data -> list float64 -> result float64;
  (** [roc_curve(y_true, y_score)]: fpr, tpr, thresholds *)
  roc_curve :
    data -> list float64 -> result (list float64 * list float64 * list float64)
}.

End Sklearn.

(** ** The records the script prints *)
Module Events.
Import Float Pandas.

Record Summary := {
  columns : list string;
  dtypes : list (string * string);
  numerical_cols : list string;
  categorical_cols : list string;
  target_column : option string
}.

Record DatasetSummary := {
  totalRecords : nat;
  features : nat;
  missingValues : nat;
  defaultRate : float64;
  dataQuality : string;
  summary : Summary
}.

Record FeatureImportance := {
  fi_features : list string;
  importance : list float64
}.

Record Completed := {
  accuracy : float64;
  precision : float64;
  recall : float64;
  f1Score : float64;
  rocAuc : float64;
  featureImportance : option FeatureImportance;
  hyperparameters : list (string * Sklearn.pval);
  trainingTime : Z
}.

(** The [data] of a [model_update] record after its [modelType]: either
    [status = 'training'] with a progress, or [status = 'completed'] with
    the metrics. *)
Inductive ModelStatus :=
| training (progress : Z)
| completed (c : Completed).

Record RocCurve := {
  fpr : list float64;
  tpr : list float64;
  auc : float64
}.

(** One constructor per value of the record's [type] key. *)
Inductive Event :=
| feature_engineering (feature status : string)
| dataset_summary (data : DatasetSummary)
| model_update (modelType : string) (status : ModelStatus)
| roc_data (data : list (string * RocCurve))
| best_model (modelType : option string) (score : float64)
| error (message : string).


Definition is_error (ev : Event) : bool :=
  match ev with error _ => true | _ => false end.

Definition is_model_update (ev : Event) : bool :=
  match ev with model_update _ _ => true | _ => false end.

Definition is_feature_engineering (ev : Event) : bool :=
  match ev with feature_engineering _ _ => true | _ => false end.

End Events.

(** ** The world the script runs in *)
Module World.
Import Float Exn Pandas Events.

Inductive file :=
| CsvFile (df : DataFrame)
| ExcelFile (df : DataFrame)
| JoblibFile (model : Sklearn.Fitted).

(** [stdout] holds the records printed so far, oldest first. [clock]
    holds the readings [time.time()] will return, next one first.
    [uploads_dir] tells whether the directory [server/uploads] exists.
    [handed] holds the arguments of the calls of [log_output] so far,
    oldest first, printed or not: it is what the stages computed for
    output, and no operation reads it. A file is known by the spelling of
    its path. *)
Record world := {
  fs : gmap string file;
  uploads_dir : bool;
  clock : list Q;
  stdout : list Event;
  handed : list Event
}.

(** State and exceptions: what was printed and written before an exception
    stays printed and written. *)
Definition M (A : Type) : Type := world -> result A * world.

#[global] Instance M_ret : MRet M := fun A a w => (Ok a, w).

#[global] Instance M_bind : MBind M := fun A B k m w =>
  match m w with
  | (Ok a, w') => k a w'
  | (Raise e, w') => (Raise e, w')
  end.

(** [raise e] *)
Definition raise {A} (e : exn) : M A := fun w => (Raise e, w).

(** A call into a library that may raise and touches nothing else. *)
Definition call {A} (r : result A) : M A := fun w => (r, w).

(** [try: body  except Exception as e: handler(e)] *)
Definition try_except {A} (body : M A) (handler : exn -> M A) : M A :=
  fun w =>
    match body w with
    | (Ok a, w') => (Ok a, w')
    | (Raise e, w') => handler e w'
    end.

(** A record that is handed over and printed. *)
Definition emit (ev : Event) (w : world) : world :=
  {| fs := fs w; uploads_dir := uploads_dir w;
     clock := clock w; stdout := stdout w ++ [ev];
     handed := handed w ++ [ev] |}.

(** A record that is handed over and cannot be printed. *)
Definition refuse (ev : Event) (w : world) : world :=
  {| fs := fs w; uploads_dir := uploads_dir w;
     clock := clock w; stdout := stdout w;
     handed := handed w ++ [ev] |}.

(** [os.path.exists(path)] *)
Definition path_exists (path : string) : M bool :=
  fun w => (Ok (bool_decide (is_Some (fs w !! path))), w).

Definition no_such_file (path : string) : exn :=
  "[Errno 2] No such file or directory: '" +:+ path +:+ "'".

(** [pd.read_csv(path)] *)
Definition read_csv (path : string) : M DataFrame :=
  fun w =>
    match fs w !! path with
    | Some (CsvFile df) => (Ok df, w)
    | Some _ => (Raise "Error tokenizing data", w)
    | None => (Raise (no_such_file path), w)
    end.

(** [pd.read_excel(path)] *)
Definition read_excel (path : string) : M DataFrame :=
  fun w =>
    match fs w !! path with
    | Some (ExcelFile df) => (Ok df, w)
    | Some _ => (Raise "Excel file format cannot be determined", w)
    | None => (Raise (no_such_file path), w)
    end.

Definition write (path : string) (f : file) : M unit :=
  fun w =>
    if uploads_dir w
    then (Ok tt, {| fs := <[path := f]> (fs w); uploads_dir := uploads_dir w;
                    clock := clock w; stdout := stdout w;
                    handed := handed w |})
    else (Raise (no_such_file path), w).

(** [df.to_csv(path, index=False)]; reading the file back gives the frame
    again. *)
Definition to_csv (df : DataFrame) (path : string) : M unit :=
  write path (CsvFile df).

(** [joblib.dump(model, path)] *)
Definition joblib_dump (model : Sklearn.Fitted) (path : string) : M unit :=
  write path (JoblibFile model).

(** [time.time()] *)
Definition time_time : M Q :=
  fun w =>
    match clock w with
    | [] => (Ok 0%Q, w)
    | t :: rest => (Ok t, {| fs := fs w; uploads_dir := uploads_dir w;
                             clock := rest; stdout := stdout w;
                             handed := handed w |})
    end.

End World.

(** ** [server/ml/credit_scoring.py] *)
Module CreditScoring.
Import Float Exn Events Pandas World.

(** Whether [json.dumps] accepts the record. The values of every record
    but one are str, int, float (numpy.float64 is a float), None, and
    lists and dicts of these. The [missingValues] of a [dataset_summary]
    record is [df.isnull().sum().sum()] (line 39), a numpy.int64, which
    the encoder rejects with TypeError. *)
Definition serializable (data : Event) : bool :=
  match data with
  | dataset_summary _ => false
  | _ => true
  end.

Definition not_serializable : exn :=
  "Object of type int64 is not JSON serializable".

(** [log_output(data)]: [json.dumps(data)] comes first, so a record it
    rejects raises before anything is printed; an accepted record goes to
    the end of the stream. *)
Definition log_output (data : Event) : M unit :=
  fun w =>
    if serializable data then (Ok tt, emit data w)
    else (Raise not_serializable, refuse data w).

(** Python truthiness of a name that may be [None]: [if target_col:] runs
    its first branch on a non-empty string. *)
Definition if_truthy {A} (o : option string) (yes : string -> A) (no : A) : A :=
  match o with
  | Some s => if String.eqb s "" then no else yes s
  | None => no
  end.

(** [df[col]] as values; a name that is no column raises KeyError. *)
Definition column (df : DataFrame) (col : string) : result data :=
  match getitem (series df) col with
  | Some s => Ok (values s)
  | None => Raise ("'" +:+ col +:+ "'")
  end.

Definition potential_targets : list string :=
  ["default"; "target"; "bad_loan"; "delinquent"; "class"].

(** The loop of lines 73-78 and, word for word, of lines 141-146:
    [target_col = None], then the first [col] of [df.columns] with
    [col.lower() in potential_targets] is taken and the loop left. *)
Fixpoint find_target (cols : list string) : option string :=
  match cols with
  | [] => None
  | col :: cols' =>
      if Py.mem (Py.lower col) potential_targets then Some col
      else find_target cols'
  end.

(** [[col for col in df.columns if 'payment_delay' in col.lower()]] *)
Definition payment_delay_cols (df : DataFrame) : list string :=
  List.filter (fun col => Py.contains "payment_delay" (Py.lower col)) (columns df).

(** [(1 - missing_values / (total_records * features)) * 100] *)
Definition completeness (missing_values total_records features : nat) : float64 :=
  mul (sub (Fin 1)
           (div (of_nat missing_values) (of_nat (total_records * features))))
      (Fin 100).

(** Lines 87-94. *)
Definition data_quality (completeness : float64) : string :=
  if gtb completeness (Fin 95) then "Excellent"
  else if gtb completeness (Fin 85) then "Good"
  else if gtb completeness (Fin 70) then "Fair"
  else "Poor".

Definition processed_path (project_id : string) : string :=
  "server/uploads/processed_" +:+ project_id +:+ ".csv".

(** Lines 44-70: the three conditional derivations, each followed by its
    record. [df] is the frame as loaded, [df_processed] its copy. *)
Definition derive_debt_to_income (df df_processed : DataFrame) : M DataFrame :=
  if Py.mem "debt_payments" (columns df) && Py.mem "income" (columns df) then
    a ← call (column df "debt_payments");
    b ← call (column df "income");
    ratio ← call (truediv a b);
    log_output (feature_engineering "debt_to_income_ratio" "completed");;
    mret (setitem df_processed "debt_to_income_ratio" ratio)
  else mret df_processed.

Definition derive_credit_utilization (df df_processed : DataFrame) : M DataFrame :=
  if Py.mem "credit_used" (columns df) && Py.mem "credit_limit" (columns df) then
    a ← call (column df "credit_used");
    b ← call (column df "credit_limit");
    ratio ← call (truediv a b);
    log_output (feature_engineering "credit_utilization_rate" "completed");;
    mret (setitem df_processed "credit_utilization_rate" ratio)
  else mret df_processed.

Definition derive_avg_payment_delays (df df_processed : DataFrame) : M DataFrame :=
  match payment_delay_cols df with
  | [] => mret df_processed
  | cols =>
      avg ← call (mean_axis1 df cols);
      log_output (feature_engineering "avg_payment_delays" "completed");;
      mret (setitem df_processed "avg_payment_delays" avg)
  end.

(** Lines 29-34: the reader is chosen by the extension. *)
Definition load_dataset (file_path : string) : M DataFrame :=
  if Py.endswith file_path ".csv" then read_csv file_path
  else if Py.endswith file_path ".xlsx" || Py.endswith file_path ".xls"
       then read_excel file_path
  else raise "Unsupported file format".

(** The [try] block of [analyze_data]. *)
Definition analyze_body (file_path project_id : string)
  : M (option DataFrame * option string) :=
  df ← load_dataset file_path;
  let total_records := len df in
  let features := length (columns df) in
  let missing_values := isnull_sum_sum df in
  let df_processed := df in
  df_processed ← derive_debt_to_income df df_processed;
  df_processed ← derive_credit_utilization df df_processed;
  df_processed ← derive_avg_payment_delays df df_processed;
  let target_col := find_target (columns df) in
  default_rate ← if_truthy target_col
      (fun target_col =>
         y ← call (column df target_col);
         m ← call (series_mean y);
         mret (mul m (Fin 100)))
      (mret (Fin 0));
  let completeness := completeness missing_values total_records features in
  let data_quality := data_quality completeness in
  let processed_file := processed_path project_id in
  to_csv df_processed processed_file;;
  log_output (dataset_summary {|
    totalRecords := total_records;
    features := features;
    missingValues := missing_values;
    defaultRate := default_rate;
    dataQuality := data_quality;
    summary := {|
      Events.columns := columns df;
      Events.dtypes := dtypes_dict df;
      Events.numerical_cols := numerical_cols df;
      Events.categorical_cols := categorical_cols df;
      target_column := target_col
    |}
  |});;
  mret (Some df_processed, target_col).

(** [analyze_data(file_path, project_id)] *)
Definition analyze_data (file_path project_id : string)
  : M (option DataFrame * option string) :=
  try_except (analyze_body file_path project_id)
    (fun e =>
       log_output (error ("Error analyzing data: " +:+ e));;
       mret (None, None)).


(** *** [train_models] *)

Record ModelConfig := {
  model : Sklearn.estimator;
  params : Sklearn.grid
}.

Definition num (z : Z) : Sklearn.pval := Sklearn.PNum (inject_Z z).

(** The [models] dict of lines 179-204, in insertion order. *)
Definition models : list (string * ModelConfig) :=
  [ ("logistic_regression",
     {| model := Sklearn.LogisticRegression 42;
        params := [ ("C", [Sklearn.PNum (1 # 10); num 1; num 10]);
                    ("penalty", [Sklearn.PStr "l1"; Sklearn.PStr "l2"]);
                    ("solver", [Sklearn.PStr "liblinear"]) ] |});
    ("decision_tree",
     {| model := Sklearn.DecisionTreeClassifier 42;
        params := [ ("max_depth", [num 3; num 5; num 10; Sklearn.PNone]);
                    ("min_samples_split", [num 2; num 5; num 10]);
                    ("min_samples_leaf", [num 1; num 2; num 4]) ] |});
    ("random_forest",
     {| model := Sklearn.RandomForestClassifier 42;
        params := [ ("n_estimators", [num 50; num 100; num 200]);
                    ("max_depth", [num 3; num 5; num 10; Sklearn.PNone]);
                    ("min_samples_split", [num 2; num 5; num 10]) ] |}) ].

(** An entry of the [results] dict. *)
Record Result := {
  r_accuracy : float64;
  r_precision : float64;
  r_recall : float64;
  r_f1 : float64;
  r_roc_auc : float64;
  r_y_pred_proba : list float64;
  r_y_test : data
}.

(** The variables the loop over [models] assigns. *)
Record Best := {
  best_model : option string;
  best_score : float64;
  results : list (string * Result)
}.

(** [best_model = None; best_score = 0; results = {}] *)
Definition init : Best :=
  {| best_model := None; best_score := Fin 0; results := [] |}.

(** Lines 281-284. *)
Definition track_best (model_name : string) (roc_auc : float64) (st : Best)
  : option string * float64 :=
  if gtb roc_auc (best_score st) then (Some model_name, roc_auc)
  else (best_model st, best_score st).

(** [int(x)]: truncation towards zero. *)
Definition int (x : Q) : Z := Z.quot (Qnum x) (Zpos (Qden x)).

(** [m[:, 1]] *)
Fixpoint column1 (m : Sklearn.matrix) : result (list float64) :=
  match m with
  | [] => Ok []
  | r :: m' =>
      match r !! 1%nat, column1 m' with
      | Some x, Ok xs => Ok (x :: xs)
      | None, _ => Raise "index 1 is out of bounds for axis 1"
      | _, Raise e => Raise e
      end
  end.

Definition fabs (x : float64) : float64 :=
  match x with
  | NaN => NaN
  | Inf _ => Inf false
  | Fin q => Fin (Qabs q)
  end.

(** [np.abs(coef_[0]).tolist()] *)
Definition abs_coef0 (coef : Sklearn.matrix) : result (list float64) :=
  match coef with
  | [] => Raise "index 0 is out of bounds for axis 0"
  | r :: _ => Ok (fabs <$> r)
  end.

(** Lines 160-166 for one column: a fresh encoder is fitted on the
    column's own values and the column takes the codes. *)
Definition encode_column (X : DataFrame) (col : string)
  : result (DataFrame * list string) :=
  match getitem (series X) col with
  | Some {| values := Objects l |} =>
      let y := astype_str l in
      Ok (setitem X col (Ints (Sklearn.LabelEncoder.fit_transform y)),
          Sklearn.LabelEncoder.classes_ y)
  | _ => Raise "y should be a 1d array"
  end.

(** The loop over [categorical_cols]; the second component is the
    [label_encoders] dict. *)
Fixpoint encode_columns (X : DataFrame) (label_encoders : list (string * list string))
    (cols : list string) : result (DataFrame * list (string * list string)) :=
  match cols with
  | [] => Ok (X, label_encoders)
  | col :: cols' =>
      match encode_column X col with
      | Ok (X', le) => encode_columns X' (Py.dict_set label_encoders col le) cols'
      | Raise e => Raise e
      end
  end.

Definition model_path (project_id model_name : string) : string :=
  "server/uploads/model_" +:+ project_id +:+ "_" +:+ model_name +:+ ".joblib".

Section Train.
Variable sk : Sklearn.api.

(** Lines 254-265. *)
Definition feature_importance_of (X : DataFrame) (best : Sklearn.Fitted)
  : result (option FeatureImportance) :=
  match Sklearn.feature_importances_ best with
  | Some imp => Ok (Some {| fi_features := columns X; importance := imp |})
  | None =>
      match Sklearn.coef_ best with
      | Some coef =>
          match abs_coef0 coef with
          | Ok imp => Ok (Some {| fi_features := columns X; importance := imp |})
          | Raise e => Raise e
          end
      | None => Ok None
      end
  end.

(** The body of the loop of lines 210-300. *)
Definition train_model (project_id : string) (X : DataFrame) (sp : Sklearn.Split)
    (X_train_scaled X_test_scaled : Sklearn.matrix)
    (st : Best) (model_name : string) (model_config : ModelConfig) : M Best :=
  log_output (model_update model_name (training 0));;
  start_time ← time_time;
  let X_fit :=
    if String.eqb model_name "logistic_regression"
    then Sklearn.Array X_train_scaled else Sklearn.Frame (Sklearn.X_train sp) in
  let X_test_model :=
    if String.eqb model_name "logistic_regression"
    then Sklearn.Array X_test_scaled else Sklearn.Frame (Sklearn.X_test sp) in
  grid_search ← call (Sklearn.grid_search_fit sk (model model_config)
                        (params model_config) 3 "roc_auc" X_fit (Sklearn.y_train sp));
  let best_model_instance := Sklearn.best_estimator_ grid_search in
  let y_test := Sklearn.y_test sp in
  y_pred ← call (Sklearn.predict best_model_instance X_test_model);
  proba ← call (Sklearn.predict_proba best_model_instance X_test_model);
  y_pred_proba ← call (column1 proba);
  accuracy ← call (Sklearn.accuracy_score sk y_test y_pred);
  precision ← call (Sklearn.precision_score sk y_test y_pred "weighted");
  recall ← call (Sklearn.recall_score sk y_test y_pred "weighted");
  f1 ← call (Sklearn.f1_score sk y_test y_pred "weighted");
  roc_auc ← call (Sklearn.roc_auc_score sk y_test y_pred_proba);
  end_time ← time_time;
  let training_time := int ((end_time - start_time) * 1000) in
  feature_importance ← call (feature_importance_of X best_model_instance);
  joblib_dump best_model_instance (model_path project_id model_name);;
  let results := Py.dict_set (results st) model_name
    {| r_accuracy := accuracy; r_precision := precision; r_recall := recall;
       r_f1 := f1; r_roc_auc := roc_auc; r_y_pred_proba := y_pred_proba;
       r_y_test := y_test |} in
  let '(best_model, best_score) := track_best model_name roc_auc st in
  log_output (model_update model_name (completed {|
    accuracy := accuracy;
    precision := precision;
    recall := recall;
    f1Score := f1;
    rocAuc := roc_auc;
    featureImportance := feature_importance;
    hyperparameters := Sklearn.best_params_ grid_search;
    trainingTime := training_time
  |}));;
  mret {| best_model := best_model; best_score := best_score; results := results |}.

(** [for model_name, model_config in models.items(): ...] *)
Fixpoint train_loop (project_id : string) (X : DataFrame) (sp : Sklearn.Split)
    (X_train_scaled X_test_scaled : Sklearn.matrix)
    (ms : list (string * ModelConfig)) (st : Best) : M Best :=
  match ms with
  | [] => mret st
  | (model_name, model_config) :: ms' =>
      st' ← train_model project_id X sp X_train_scaled X_test_scaled
              st model_name model_config;
      train_loop project_id X sp X_train_scaled X_test_scaled ms' st'
  end.

(** Lines 303-310. *)
Fixpoint roc_loop (rs : list (string * Result)) (roc : list (string * RocCurve))
  : M (list (string * RocCurve)) :=
  match rs with
  | [] => mret roc
  | (model_name, r) :: rs' =>
      '(fpr, tpr, _) ← call (Sklearn.roc_curve sk (r_y_test r) (r_y_pred_proba r));
      roc_loop rs' (Py.dict_set roc model_name
                      {| fpr := fpr; tpr := tpr; auc := r_roc_auc r |})
  end.

(** Lines 155-323: training once the target column is known. *)
Definition train_on (project_id : string) (df : DataFrame) (target_col : string)
  : M unit :=
  let X := drop df target_col in
  y ← call (column df target_col);
  '(X, label_encoders) ← call (encode_columns X [] (categorical_cols X));
  sp ← call (Sklearn.train_test_split sk X y (2 # 10) 42);
  '(scaler, X_train_scaled) ← call (Sklearn.fit_transform sk (Sklearn.X_train sp));
  X_test_scaled ← call (Sklearn.transform sk scaler (Sklearn.X_test sp));
  st ← train_loop project_id X sp X_train_scaled X_test_scaled models init;
  roc ← roc_loop (results st) [];
  log_output (roc_data roc);;
  log_output (Events.best_model (best_model st) (best_score st)).

(** The [try] block of [train_models]. A [return] ends the block. *)
Definition train_body (file_path project_id : string) : M unit :=
  let processed_file := processed_path project_id in
  found ← path_exists processed_file;
  df ← (if found : bool then df ← read_csv processed_file; mret (Some df)
        else '(df, target_col) ← analyze_data file_path project_id; mret df);
  match df with
  | None => mret tt
  | Some df =>
      let target_col := find_target (columns df) in
      if_truthy target_col
        (fun target_col => train_on project_id df target_col)
        (log_output (error "No target column found for training"))
  end.

(** [train_models(file_path, project_id)] *)
Definition train_models (file_path project_id : string) : M unit :=
  try_except (train_body file_path project_id)
    (fun e => log_output (error ("Error training models: " +:+ e))).

End Train.

End CreditScoring.

(** ** Concrete inputs *)
Module Examples.
Import Float Exn Events Pandas World CreditScoring.

(** A stand-in for scikit-learn in which nothing raises: the split keeps
    every row on both sides, the scaler returns empty arrays, and a fitted
    candidate scores the ROC-AUC that [auc] gives its estimator. *)
Definition toy_fitted (auc : Sklearn.estimator -> float64) (e : Sklearn.estimator)
  : Sklearn.Fitted :=
  {| Sklearn.feature_importances_ :=
       match e with Sklearn.LogisticRegression _ => None | _ => Some [] end;
     Sklearn.coef_ :=
       match e with Sklearn.LogisticRegression _ => Some [[]] | _ => None end;
     Sklearn.predict := fun _ => Ok [];
     Sklearn.predict_proba := fun _ => Ok [[Fin 0; auc e]] |}.

Definition toy (auc : Sklearn.estimator -> float64) : Sklearn.api :=
  {| Sklearn.train_test_split := fun X y _ _ =>
       Ok {| Sklearn.X_train := X; Sklearn.X_test := X;
             Sklearn.y_train := y; Sklearn.y_test := y |};
     Sklearn.fit_transform := fun _ => Ok ([], []);
     Sklearn.transform := fun _ _ => Ok [];
     Sklearn.grid_search_fit := fun e _ _ _ _ _ =>
       Ok {| Sklearn.best_estimator_ := toy_fitted auc e;
             Sklearn.best_params_ := [] |};
     Sklearn.accuracy_score := fun _ _ => Ok (Fin 1);
     Sklearn.precision_score := fun _ _ _ => Ok (Fin 1);
     Sklearn.recall_score := fun _ _ _ => Ok (Fin 1);
     Sklearn.f1_score := fun _ _ _ => Ok (Fin 1);
     Sklearn.roc_auc_score := fun _ proba => Ok (hd NaN proba);
     Sklearn.roc_curve := fun _ _ => Ok ([Fin 0; Fin 1], [Fin 0; Fin 1], []) |}.

(** ROC-AUC 0.7, 0.9 and 0.8 for the three candidates. *)
Definition auc_mixed (e : Sklearn.estimator) : float64 :=
  match e with
  | Sklearn.LogisticRegression _ => Fin (7 # 10)
  | Sklearn.DecisionTreeClassifier _ => Fin (9 # 10)
  | Sklearn.RandomForestClassifier _ => Fin (8 # 10)
  end.

(** Every candidate ranks every positive below every negative. *)
Definition auc_zero (e : Sklearn.estimator) : float64 := Fin 0.

(** The dataset of the end-to-end scenario: 1000 rows, seven columns. *)
Definition scenario_df : DataFrame :=
  {| index := 1000;
     series :=
       [ {| name := "debt_payments"; values := Floats (replicate 1000 (Fin 300)) |};
         {| name := "income"; values := Floats (replicate 1000 (Fin 3000)) |};
         {| name := "credit_used"; values := Floats (replicate 1000 (Fin 500)) |};
         {| name := "credit_limit"; values := Floats (replicate 1000 (Fin 2000)) |};
         {| name := "payment_delay_1"; values := Ints (replicate 1000 1%Z) |};
         {| name := "payment_delay_2"; values := Ints (replicate 1000 3%Z) |};
         {| name := "default";
            values := Ints (replicate 500 0%Z ++ replicate 500 1%Z) |} ] |}.

(** A world whose only file is [path], holding [df] as CSV. *)
Definition world_with (path : string) (df : DataFrame) : world :=
  {| fs := {[ path := CsvFile df ]}; uploads_dir := true;
     clock := []; stdout := []; handed := [] |}.

(** A world holding one Excel file with the frame [df]. *)
Definition excel_world (path : string) (df : DataFrame) : world :=
  {| fs := {[ path := ExcelFile df ]}; uploads_dir := true;
     clock := []; stdout := []; handed := [] |}.

(** A world whose processed file for project [p1] is not CSV. *)
Definition broken_world : world :=
  {| fs := {[ processed_path "p1" := ExcelFile scenario_df ]};
     uploads_dir := true; clock := []; stdout := []; handed := [] |}.

(** A small dataset without any of the target names. *)
Definition no_target_df : DataFrame :=
  {| index := 2;
     series :=
       [ {| name := "income"; values := Floats [Fin 10; Fin 20] |};
         {| name := "city"; values := Objects [Some "b"; Some "a"] |} ] |}.

(** A dataset that already has an [avg_payment_delays] column. *)
Definition reprocessed_df : DataFrame :=
  {| index := 1;
     series :=
       [ {| name := "payment_delay_1"; values := Floats [Fin 0] |};
         {| name := "avg_payment_delays"; values := Floats [Fin 10] |} ] |}.

(** A dataset whose target column holds text. *)
Definition text_target_df : DataFrame :=
  {| index := 2;
     series :=
       [ {| name := "income"; values := Floats [Fin 10; Fin 20] |};
         {| name := "Default"; values := Objects [Some "yes"; Some "no"] |} ] |}.

(** A dataset without any of the target names whose payment-delay
    column holds text. *)
Definition text_delay_df : DataFrame :=
  {| index := 2;
     series :=
       [ {| name := "income"; values := Floats [Fin 10; Fin 20] |};
         {| name := "payment_delay_1";
            values := Objects [Some "late"; Some "none"] |} ] |}.

(** A dataset that was never processed. *)
Definition fresh_df : DataFrame :=
  {| index := 2;
     series :=
       [ {| name := "payment_delay_1"; values := Floats [Fin 0; NaN] |};
         {| name := "payment_delay_2"; values := Ints [3; 4]%Z |} ] |}.

(** Twenty rows in one column, one cell missing: 95% of the cells are
    present. *)
Definition boundary_df : DataFrame :=
  {| index := 20;
     series := [ {| name := "income";
                    values := Floats (NaN :: replicate 19 (Fin 1)) |} ] |}.

(** A stand-in in which fitting the decision tree raises. *)
Definition toy_failing : Sklearn.api :=
  {| Sklearn.train_test_split := Sklearn.train_test_split (toy auc_mixed);
     Sklearn.fit_transform := Sklearn.fit_transform (toy auc_mixed);
     Sklearn.transform := Sklearn.transform (toy auc_mixed);
     Sklearn.grid_search_fit := fun e g cv scoring X y =>
       match e with
       | Sklearn.DecisionTreeClassifier _ => Raise "Input contains NaN"
       | _ => Sklearn.grid_search_fit (toy auc_mixed) e g cv scoring X y
       end;
     Sklearn.accuracy_score := Sklearn.accuracy_score (toy auc_mixed);
     Sklearn.precision_score := Sklearn.precision_score (toy auc_mixed);
     Sklearn.recall_score := Sklearn.recall_score (toy auc_mixed);
     Sklearn.f1_score := Sklearn.f1_score (toy auc_mixed);
     Sklearn.roc_auc_score := Sklearn.roc_auc_score (toy auc_mixed);
     Sklearn.roc_curve := Sklearn.roc_curve (toy auc_mixed) |}.

End Examples.

(** ** Vocabulary of the statements *)
Module Spec.
Import Float Exn Events Pandas World CreditScoring.

(** The record printed after a derivation. *)
Definition fe (feature : string) : Event :=
  feature_engineering feature "completed".

Definition derived_features : list string :=
  ["debt_to_income_ratio"; "credit_utilization_rate"; "avg_payment_delays"].

(** The derivations whose source columns [df] has, in the order of the
    script. *)
Definition applicable (df : DataFrame) : list string :=
  (if Py.mem "debt_payments" (columns df) && Py.mem "income" (columns df)
   then ["debt_to_income_ratio"] else []) ++
  (if Py.mem "credit_used" (columns df) && Py.mem "credit_limit" (columns df)
   then ["credit_utilization_rate"] else []) ++
  (match payment_delay_cols df with [] => [] | _ => ["avg_payment_delays"] end).

(** Column names after [df[c] = ...]. *)
Definition add_column (cols : list string) (c : string) : list string :=
  if Py.mem c cols then cols else cols ++ [c].

(** The summary of the frame [df] as loaded, for a given default rate. *)
Definition summary_of (df : DataFrame) (default_rate : float64) : DatasetSummary :=
  {| totalRecords := len df;
     features := length (columns df);
     missingValues := isnull_sum_sum df;
     defaultRate := default_rate;
     dataQuality :=
       data_quality (completeness (isnull_sum_sum df) (len df) (length (columns df)));
     summary := {|
       Events.columns := columns df;
       Events.dtypes := dtypes_dict df;
       Events.numerical_cols := numerical_cols df;
       Events.categorical_cols := categorical_cols df;
       target_column := find_target (columns df)
     |} |}.

(** The column names a summary mentions, over all its fields. *)
Definition names_in (d : DatasetSummary) : list string :=
  Events.columns (summary d) ++ (Events.dtypes (summary d)).*1 ++
  Events.numerical_cols (summary d) ++ Events.categorical_cols (summary d) ++
  option_list (target_column (summary d)).

(** [t] is the first name of [cols], left to right, whose lower-case form
    is one of the five target names. *)
Definition first_match (cols : list string) (t : string) : Prop :=
  exists pre post,
    cols = pre ++ t :: post /\
    Py.lower t ∈ potential_targets /\
    forall x, x ∈ pre -> Py.lower x ∉ potential_targets.

(** The world [w] after a run that left the files [fs'], printed [evs]
    and handed [hs] to [log_output]. *)
Definition after_with (w : world) (fs' : gmap string file)
    (evs hs : list Event) : world :=
  {| fs := fs'; uploads_dir := uploads_dir w; clock := clock w;
     stdout := stdout w ++ evs; handed := handed w ++ hs |}.

(** The world [w] after a run that printed [evs], all it handed to
    [log_output], and left the files [fs']. *)
Definition after (w : world) (fs' : gmap string file) (evs : list Event) : world :=
  after_with w fs' evs evs.

(** [df[a] / df[b]] *)
Definition ratio (df : DataFrame) (a b : string) : result data :=
  match column df a, column df b with
  | Ok x, Ok y => truediv x y
  | Raise e, _ | _, Raise e => Raise e
  end.

(** Lines 44-70 as one computation. *)
Definition derive_phase (df : DataFrame) : M DataFrame :=
  df_processed ← derive_debt_to_income df df;
  df_processed ← derive_credit_utilization df df_processed;
  derive_avg_payment_delays df df_processed.


(** The two records of a candidate that completes. *)
Definition candidate_events (model_name : string) (c : Completed) : list Event :=
  [model_update model_name (training 0); model_update model_name (completed c)].

(** Lines 206-207 and 281-284 over the candidates' ROC-AUC scores, in the
    order of the loop. *)
Definition select_best (b : option string * float64)
    (scores : list (string * float64)) : option string * float64 :=
  foldl (fun b '(model_name, roc_auc) =>
           if gtb roc_auc b.2 then (Some model_name, roc_auc) else b)
        b scores.

(** The frame the train stage works on when it gets one without an
    exception: the processed file of the project when there is one, else
    what the analyze stage returns. *)
Definition training_frame (file_path project_id : string) (w : world)
  : option DataFrame :=
  match fs w !! processed_path project_id with
  | Some (CsvFile df) => Some df
  | Some _ => None
  | None =>
      match (analyze_data file_path project_id w).1 with
      | Ok (df, _) => df
      | Raise _ => None
      end
  end.

(** The keys of [models]. *)
Definition model_names : list string :=
  ["logistic_regression"; "decision_tree"; "random_forest"].

(** Lines 140-323: the train stage once it holds its frame. *)
Definition train_rest (sk : Sklearn.api) (project_id : string) (df : DataFrame)
  : M unit :=
  if_truthy (find_target (columns df))
    (fun target_col => train_on sk project_id df target_col)
    (log_output (error "No target column found for training")).

(** The [except] clause of [train_models]. *)
Definition train_handler (e : exn) : M unit :=
  log_output (error ("Error training models: " +:+ e)).

(** The world in which the train stage holds its frame: the one it starts
    in when the processed file is there, else the one the analyze stage
    leaves. *)
Definition training_start (file_path project_id : string) (w : world) : world :=
  match fs w !! processed_path project_id with
  | Some _ => w
  | None => (analyze_data file_path project_id w).2
  end.


(** The records a run prints: what [stdout] holds after it beyond what it
    held before. *)
Definition printed (w w' : world) : list Event :=
  skipn (length (stdout w)) (stdout w').

(** The records a run hands to [log_output], printed or not. *)
Definition handed_over (w w' : world) : list Event :=
  skipn (length (handed w)) (handed w').




(** Codes in order of first occurrence: the first distinct value gets 0,
    the next new one 1, and so on. [first_seen seen y] lists the values of
    [y] not in [seen], each once, in the order they first occur. *)
Fixpoint first_seen (seen y : list string) : list string :=
  match y with
  | [] => []
  | v :: y' =>
      if Py.mem v seen then first_seen seen y' else v :: first_seen (v :: seen) y'
  end.

Definition first_seen_codes (y : list string) : list Z :=
  Sklearn.LabelEncoder.transform (first_seen [] y) y.


(** Training without a target as it is described: whenever the dataset
    given to the train stage has none of the five target names, the one
    [error] record printed carries the message of the target check, and
    no [model_update] record is printed. *)
Definition train_without_target_as_described : Prop :=
  forall (sk : Sklearn.api) (file_path project_id : string) (w : world)
         (df : DataFrame),
    load_dataset file_path w = (Ok df, w) ->
    find_target (columns df) = None ->
    List.filter is_error (printed w (train_models sk file_path project_id w).2) =
      [error "No target column found for training"] /\
    List.filter is_model_update
      (printed w (train_models sk file_path project_id w).2) = [].

(** No field of any summary record the analyze stage hands to
    [log_output] names one of the three derived columns. *)
Definition summary_never_names_derived : Prop :=
  forall (file_path project_id : string) (w : world) (d : DatasetSummary)
         (n : string),
    dataset_summary d ∈ handed_over w (analyze_data file_path project_id w).2 ->
    n ∈ derived_features ->
    n ∉ names_in d.

(** The frame in the processed file after the analyze stage ran on a
    file that holds [df], in a project that had no processed file. *)
Definition processed_of (df : DataFrame) : option DataFrame :=
  match fs (analyze_data "data.csv" "p" (Examples.world_with "data.csv" df)).2
          !! processed_path "p" with
  | Some (CsvFile dfp) => Some dfp
  | _ => None
  end.

(** The values of the column [avg_payment_delays], as floats. *)
Definition avg_payment_delays_of (df : DataFrame) : list float64 :=
  match getitem (series df) "avg_payment_delays" with
  | Some s => default [] (to_floats (values s))
  | None => []
  end.

(** Two columns hold the same numbers. *)
Fixpoint same_floats (a b : list float64) : bool :=
  match a, b with
  | [], [] => true
  | x :: a', y :: b' => Float.eqb x y && same_floats a' b'
  | _, _ => false
  end.

(** The label encoder as it is described: codes in order of first
    occurrence. *)
Definition encoder_codes_first_seen : Prop :=
  forall (X : DataFrame) (col n : string) (l : list (option string)),
    getitem (series X) col = Some {| name := n; values := Objects l |} ->
    exists cls,
      encode_column X col =
      Ok (setitem X col (Ints (first_seen_codes (astype_str l))), cls).

(** A column after the encoding loop: a text column holds the codes of
    an encoder fitted on its own values, any other column is as it was. *)
Definition encode_series (s : Series) : Series :=
  match values s with
  | Objects l =>
      {| name := name s;
         values := Ints (Sklearn.LabelEncoder.fit_transform (astype_str l)) |}
  | _ => s
  end.

End Spec.

(** ** The command line *)
Module Cli.
Import Float Exn Events Pandas World CreditScoring.

Definition usage : string :=
  "Usage: python credit_scoring.py <command> <file_path> <project_id>".

(** [main()], lines 331-345. [argv] is [sys.argv], the script's own name
    first. The result holds the plain lines [main] prints itself; the
    records of the stages go to [stdout] of the world. *)
Definition main (sk : Sklearn.api) (argv : list string) : M (list string) :=
  if (length argv <? 4)%nat then mret [usage]
  else
    let command := nth 1 argv "" in
    let file_path := nth 2 argv "" in
    let project_id := nth 3 argv "" in
    if String.eqb command "analyze" then
      analyze_data file_path project_id;; mret []
    else if String.eqb command "train" then
      train_models sk file_path project_id;; mret []
    else mret ["Unknown command: " +:+ command].

End Cli.

(** ** Vocabulary of the further statements *)
Module More.
Import Float Exn Events Pandas World CreditScoring Spec.

(** The derivations the analyze stage attempts on [df], in order, each
    with the values it computes or the exception it raises. *)
Definition derivations (df : DataFrame) : list (string * result data) :=
  (if Py.mem "debt_payments" (columns df) && Py.mem "income" (columns df)
   then [("debt_to_income_ratio", ratio df "debt_payments" "income")] else []) ++
  (if Py.mem "credit_used" (columns df) && Py.mem "credit_limit" (columns df)
   then [("credit_utilization_rate", ratio df "credit_used" "credit_limit")]
   else []) ++
  (match payment_delay_cols df with
   | [] => []
   | cols => [("avg_payment_delays", mean_axis1 df cols)]
   end).

(** Carrying out derivations one after the other on the copy: the frame
    reached (or the first exception) and the features completed. *)
Fixpoint apply_derivations (df_processed : DataFrame)
    (ds : list (string * result data)) : result DataFrame * list string :=
  match ds with
  | [] => (Ok df_processed, [])
  | (feature, Ok d) :: ds' =>
      let '(r, done) := apply_derivations (setitem df_processed feature d) ds' in
      (r, feature :: done)
  | (_, Raise e) :: _ => (Raise e, [])
  end.

(** Lines 80-83. *)
Definition default_rate_of (df : DataFrame) : result float64 :=
  if_truthy (find_target (columns df))
    (fun target_col =>
       match column df target_col with
       | Ok y =>
           match series_mean y with
           | Ok m => Ok (mul m (Fin 100))
           | Raise e => Raise e
           end
       | Raise e => Raise e
       end)
    (Ok (Fin 0)).

(** The [error] record of a run of the analyze stage whose summary
    [json.dumps] rejected. *)
Definition summary_refused : Event :=
  error ("Error analyzing data: " +:+ not_serializable).

(** Neither a derivation nor the default rate raises on [df]. *)
Definition computable (df : DataFrame) : Prop :=
  (forall feature r, (feature, r) ∈ derivations df -> exists d, r = Ok d) /\
  exists rate, default_rate_of df = Ok rate.

(** How a run of the analyze stage that raised [e] after completing the
    features [done] ends. *)
Definition analyze_failed (w : world) (done : list string) (e : exn)
  : result (option DataFrame * option string) * world :=
  (Ok (None, None),
   after w (fs w) ((fe <$> done) ++ [error ("Error analyzing data: " +:+ e)])).

(** The analyze stage on a frame that was loaded. *)
Definition analyze_loaded (project_id : string) (df : DataFrame) (w : world)
  : result (option DataFrame * option string) * world :=
  match apply_derivations df (derivations df) with
  | (Raise e, done) => analyze_failed w done e
  | (Ok dfp, done) =>
      match default_rate_of df with
      | Raise e => analyze_failed w done e
      | Ok rate =>
          if uploads_dir w then
            (Ok (None, None),
             after_with w (<[processed_path project_id := CsvFile dfp]> (fs w))
               ((fe <$> done) ++ [summary_refused])
               ((fe <$> done) ++
                [dataset_summary (summary_of df rate); summary_refused]))
          else analyze_failed w done (no_such_file (processed_path project_id))
      end
  end.

(** Every column of the frame has one cell per row. *)
Definition well_formed (df : DataFrame) : Prop :=
  Forall (fun s =>
            match values s with
            | Ints l => length l = index df
            | Floats l => length l = index df
            | Objects l => length l = index df
            end) (series df).

(** No column of the frame is text. *)
Definition all_numeric (df : DataFrame) : Prop :=
  Forall (fun s => is_number (values s) = true) (series df).

(** The values of the column [col], when there is one. *)
Definition values_of (df : DataFrame) (col : string) : option data :=
  values <$> getitem (series df) col.

(** The quality labels from worst to best. *)
Definition quality_rank (label : string) : nat :=
  if String.eqb label "Excellent" then 3
  else if String.eqb label "Good" then 2
  else if String.eqb label "Fair" then 1
  else 0.

(** The records only the analyze stage prints. *)
Definition is_analyze_record (ev : Event) : bool :=
  match ev with
  | feature_engineering _ _ | dataset_summary _ => true
  | _ => false
  end.

(** The files of a project after the candidates [names] were fitted and
    dumped one after the other. *)
Definition written (project_id : string) (m : gmap string file)
    (names : list string) (fitted : list Sklearn.Fitted) : gmap string file :=
  foldl (fun m nb => <[model_path project_id nb.1 := JoblibFile nb.2]> m) m
    (zip names fitted).

(** The records of candidates that completed, in the order of the loop. *)
Definition progress (names : list string) (cs : list Completed) : list Event :=
  concat (zip_with candidate_events names cs).

(** Assigning to the keys of a dict one after the other. *)
Definition dict_fill {V} (d : list (string * V)) (kvs : list (string * V))
  : list (string * V) :=
  foldl (fun d kv => Py.dict_set d kv.1 kv.2) d kvs.

(** The feature names a [completed] record carries, when it carries any,
    are [cols]. *)
Definition names_features (cols : list string) (c : Completed) : Prop :=
  forall fi, featureImportance c = Some fi -> fi_features fi = cols.

(** The files the stages keep for a project: its processed file and its
    three model files. *)
Definition project_files (project_id : string) : list string :=
  processed_path project_id :: (model_path project_id <$> model_names).

(** Writing files one after the other. *)
Definition write_all (m : gmap string file) (writes : list (string * file))
  : gmap string file :=
  foldl (fun m pf => <[pf.1 := pf.2]> m) m writes.

(** No [error] record among the records. *)
Definition no_error (evs : list Event) : Prop :=
  Forall (fun ev => is_error ev = false) evs.

(** A [completed] record carries, when it carries feature names at all,
    the names [cols]; any other record passes. *)
Definition record_features (cols : list string) (ev : Event) : Prop :=
  match ev with
  | model_update _ (completed c) => names_features cols c
  | _ => True
  end.

End More.

(** * Properties *)

Import Float Exn Events Pandas World CreditScoring Spec More.

(** ** Strings and lists *)

Lemma mem_true (x : string) (l : list string) : Py.mem x l = true <-> x ∈ l.
Proof.
  unfold Py.mem. rewrite existsb_exists, list_elem_of_In. split.
  - intros (y & Hy & Heq). apply String.eqb_eq in Heq. by subst.
  - intros H. exists x. split; [done|]. apply String.eqb_refl.
Qed.

Lemma mem_false (x : string) (l : list string) : Py.mem x l = false <-> x ∉ l.
Proof.
  rewrite <- mem_true. destruct (Py.mem x l); split; intros; congruence.
Qed.

(** ** The target column *)

Lemma find_target_some (cols : list string) (t : string) :
  find_target cols = Some t <-> first_match cols t.
Proof.
  unfold first_match. split.
  - induction cols as [|c cols IH]; cbn [find_target]; [done|].
    destruct (Py.mem (Py.lower c) potential_targets) eqn:Hc.
    + intros [= ->]. exists [], cols. split_and!; [done|by apply mem_true|].
      intros x Hx. by apply elem_of_nil in Hx.
    + intros H. destruct (IH H) as (pre & post & -> & Ht & Hpre).
      exists (c :: pre), post. split_and!; [done..|].
      intros x [->|Hx]%elem_of_cons; [by apply mem_false|auto].
  - intros (pre & post & -> & Ht & Hpre).
    induction pre as [|c pre IH]; cbn [find_target app].
    + apply mem_true in Ht. by rewrite Ht.
    + assert (Py.mem (Py.lower c) potential_targets = false) as ->.
      { apply mem_false, Hpre. by left. }
      apply IH. intros x Hx. apply Hpre. by right.
Qed.

Lemma find_target_none (cols : list string) :
  find_target cols = None <->
  forall x, x ∈ cols -> Py.lower x ∉ potential_targets.
Proof.
  induction cols as [|c cols IH]; cbn [find_target].
  - split; [|done]. intros _ x Hx. by apply elem_of_nil in Hx.
  - destruct (Py.mem (Py.lower c) potential_targets) eqn:Hc.
    + split; [done|]. intros H. apply mem_true in Hc.
      exfalso. apply (H c); [by left|done].
    + rewrite IH. apply mem_false in Hc. split.
      * intros H x [->|Hx]%elem_of_cons; auto.
      * intros H x Hx. apply H. by right.
Qed.

(** A name that is chosen is not the empty string, so [if target_col:]
    and [if not target_col:] test for [None]. *)
Lemma find_target_truthy {A} (cols : list string) (yes : string -> A) (no : A) :
  if_truthy (find_target cols) yes no =
  match find_target cols with Some t => yes t | None => no end.
Proof.
  unfold if_truthy. destruct (find_target cols) as [t|] eqn:Ht; [|done].
  apply find_target_some in Ht as (_ & _ & _ & Hin & _).
  destruct t; [|done]. vm_compute in Hin. by repeat (apply elem_of_cons in Hin as [?|Hin]; [done|]); apply elem_of_nil in Hin.
Qed.

(** ** Running the monad *)

Lemma after_nil (w : world) : after w (fs w) [] = w.
Proof. destruct w. unfold after, after_with. simpl. by rewrite !app_nil_r. Qed.

Lemma emit_after (w : world) (ev : Event) : emit ev w = after w (fs w) [ev].
Proof. done. Qed.

Lemma after_with_after_with (w : world) fs1 fs2 (l1 l2 h1 h2 : list Event) :
  after_with (after_with w fs1 l1 h1) fs2 l2 h2 =
  after_with w fs2 (l1 ++ l2) (h1 ++ h2).
Proof. unfold after_with. simpl. by rewrite <- !app_assoc. Qed.

Lemma after_after (w : world) fs1 fs2 (l1 l2 : list Event) :
  after (after w fs1 l1) fs2 l2 = after w fs2 (l1 ++ l2).
Proof. unfold after. apply after_with_after_with. Qed.

Lemma printed_after_with (w : world) fs' (evs hs : list Event) :
  printed w (after_with w fs' evs hs) = evs.
Proof. unfold printed, after_with. simpl. by rewrite drop_app_length. Qed.

Lemma printed_after (w : world) fs' (evs : list Event) :
  printed w (after w fs' evs) = evs.
Proof. apply printed_after_with. Qed.

Lemma handed_after_with (w : world) fs' (evs hs : list Event) :
  handed_over w (after_with w fs' evs hs) = hs.
Proof. unfold handed_over, after_with. simpl. by rewrite drop_app_length. Qed.

Lemma handed_after (w : world) fs' (evs : list Event) :
  handed_over w (after w fs' evs) = evs.
Proof. apply handed_after_with. Qed.

Lemma bind_run {A B} (m : M A) (k : A -> M B) (w : world) :
  (m ≫= k) w =
  match m w with
  | (Ok a, w') => k a w'
  | (Raise e, w') => (Raise e, w')
  end.
Proof. done. Qed.

Lemma log_output_run (ev : Event) (w : world) :
  serializable ev = true ->
  log_output ev w = (Ok tt, after w (fs w) [ev]).
Proof. unfold log_output. by intros ->. Qed.

(** A [dataset_summary] record is handed over and raises; nothing is
    printed. *)
Lemma log_output_refused (d : DatasetSummary) (w : world) :
  log_output (dataset_summary d) w =
  (Raise not_serializable, after_with w (fs w) [] [dataset_summary d]).
Proof.
  unfold log_output, refuse, after_with. simpl. by rewrite app_nil_r.
Qed.

Lemma handler_run_with {A} (ev : Event) (a : A) (w : world) fs'
    (evs hs : list Event) :
  serializable ev = true ->
  (log_output ev;; mret a) (after_with w fs' evs hs) =
  (Ok a, after_with w fs' (evs ++ [ev]) (hs ++ [ev])).
Proof.
  intros H. rewrite bind_run, log_output_run by done.
  unfold after. by rewrite after_with_after_with.
Qed.

Lemma handler_run {A} (ev : Event) (a : A) (w : world) fs' (evs : list Event) :
  serializable ev = true ->
  (log_output ev;; mret a) (after w fs' evs) = (Ok a, after w fs' (evs ++ [ev])).
Proof. intros H. unfold after. by apply handler_run_with. Qed.

Lemma load_dataset_world (file_path : string) (w : world) :
  (load_dataset file_path w).2 = w.
Proof.
  unfold load_dataset, read_csv, read_excel, raise.
  repeat case_match; done.
Qed.

(** ** The analyze stage, step by step *)

Lemma fs_after (w : world) fs' (evs : list Event) : fs (after w fs' evs) = fs'.
Proof. done. Qed.

Lemma derive_debt_to_income_run (df dfp : DataFrame) (w : world) :
  derive_debt_to_income df dfp w =
  if Py.mem "debt_payments" (columns df) && Py.mem "income" (columns df) then
    match ratio df "debt_payments" "income" with
    | Ok d => (Ok (setitem dfp "debt_to_income_ratio" d),
               after w (fs w) [fe "debt_to_income_ratio"])
    | Raise e => (Raise e, after w (fs w) [])
    end
  else (Ok dfp, after w (fs w) []).
Proof.
  rewrite after_nil.
  unfold derive_debt_to_income, ratio.
  destruct (_ && _); [|done].
  unfold mbind, M_bind, call.
  destruct (column df "debt_payments"); [|done].
  destruct (column df "income"); [|done].
  by destruct (truediv _ _).
Qed.

Lemma derive_credit_utilization_run (df dfp : DataFrame) (w : world) :
  derive_credit_utilization df dfp w =
  if Py.mem "credit_used" (columns df) && Py.mem "credit_limit" (columns df) then
    match ratio df "credit_used" "credit_limit" with
    | Ok d => (Ok (setitem dfp "credit_utilization_rate" d),
               after w (fs w) [fe "credit_utilization_rate"])
    | Raise e => (Raise e, after w (fs w) [])
    end
  else (Ok dfp, after w (fs w) []).
Proof.
  rewrite after_nil.
  unfold derive_credit_utilization, ratio.
  destruct (_ && _); [|done].
  unfold mbind, M_bind, call.
  destruct (column df "credit_used"); [|done].
  destruct (column df "credit_limit"); [|done].
  by destruct (truediv _ _).
Qed.

Lemma derive_avg_payment_delays_run (df dfp : DataFrame) (w : world) :
  derive_avg_payment_delays df dfp w =
  match payment_delay_cols df with
  | [] => (Ok dfp, after w (fs w) [])
  | _ =>
      match mean_axis1 df (payment_delay_cols df) with
      | Ok d => (Ok (setitem dfp "avg_payment_delays" d),
                 after w (fs w) [fe "avg_payment_delays"])
      | Raise e => (Raise e, after w (fs w) [])
      end
  end.
Proof.
  rewrite after_nil.
  unfold derive_avg_payment_delays.
  destruct (payment_delay_cols df); [done|].
  unfold mbind, M_bind, call. by destruct (mean_axis1 _ _).
Qed.

Lemma columns_setitem (df : DataFrame) (c : string) (d : data) :
  columns (setitem df c d) = add_column (columns df) c.
Proof.
  unfold columns, setitem, add_column. simpl.
  induction (series df) as [|s l IH]; [done|].
  cbn [setitem_series fmap list_fmap Py.mem existsb].
  rewrite (String.eqb_sym c). destruct (String.eqb (name s) c) eqn:E.
  - apply String.eqb_eq in E. by subst.
  - rewrite fmap_cons, IH. unfold Py.mem. simpl.
    by destruct (existsb _ _).
Qed.

Ltac solve_sublist :=
  split; [unfold derived_features; repeat first [apply sublist_nil | apply sublist_skip | apply sublist_cons]
         | reflexivity].

Lemma derive_phase_cases (df : DataFrame) (w : world) :
  (exists dfp,
      columns dfp = foldl add_column (columns df) (applicable df) /\
      derive_phase df w = (Ok dfp, after w (fs w) (fe <$> applicable df)))
  \/
  (exists l e,
      l `sublist_of` derived_features /\
      derive_phase df w = (Raise e, after w (fs w) (fe <$> l))).
Proof.
  unfold derive_phase, applicable.
  rewrite bind_run, derive_debt_to_income_run.
  destruct (Py.mem "debt_payments" _ && _);
    [destruct (ratio df "debt_payments" "income") as [d1|e1]|].
  2:{ right. exists [], e1. split; [apply sublist_nil_l|done]. }
  all: rewrite bind_run, derive_credit_utilization_run.
  all: destruct (Py.mem "credit_used" _ && _);
    [destruct (ratio df "credit_used" "credit_limit") as [d2|e2]|].
  all: try rewrite derive_avg_payment_delays_run.
  all: try (destruct (payment_delay_cols df) as [|c cs] eqn:Hpd;
    [|destruct (mean_axis1 df (c :: cs)) as [d3|e3]]).
  all: rewrite ?after_after, ?fs_after.
  all: try (left; eexists; split; [|reflexivity];
            cbn [foldl app]; by rewrite ?columns_setitem).
  all: right.
  all: first
    [ by exists [], e2; solve_sublist
    | by exists [], e3; solve_sublist
    | by exists ["debt_to_income_ratio"], e2; solve_sublist
    | by exists ["debt_to_income_ratio"], e3; solve_sublist
    | by exists ["credit_utilization_rate"], e3; solve_sublist
    | by exists ["debt_to_income_ratio"; "credit_utilization_rate"], e3;
         solve_sublist ].
Qed.

Lemma applicable_sublist (df : DataFrame) :
  applicable df `sublist_of` derived_features.
Proof.
  unfold applicable, derived_features.
  destruct (_ && _), (_ && _), (payment_delay_cols df); simpl;
    repeat first [apply sublist_nil | apply sublist_skip | apply sublist_cons].
Qed.

Lemma analyze_body_phases (file_path project_id : string) (w : world) :
  analyze_body file_path project_id w =
  (df ← load_dataset file_path;
   df_processed ← derive_phase df;
   default_rate ← if_truthy (find_target (columns df))
      (fun target_col =>
         y ← call (column df target_col);
         m ← call (series_mean y);
         mret (mul m (Fin 100)))
      (mret (Fin 0));
   to_csv df_processed (processed_path project_id);;
   log_output (dataset_summary (summary_of df default_rate));;
   mret (Some df_processed, find_target (columns df))) w.
Proof.
  unfold analyze_body, derive_phase. rewrite !bind_run.
  destruct (load_dataset file_path w) as [[df|e] w0]; [|done].
  rewrite !bind_run.
  destruct (derive_debt_to_income df df w0) as [[df1|e] w1]; [|done].
  rewrite !bind_run.
  destruct (derive_credit_utilization df df1 w1) as [[df2|e] w2]; [|done].
  rewrite !bind_run.
  by destruct (derive_avg_payment_delays df df2 w2) as [[df3|e] w3].
Qed.

Lemma default_rate_world (df : DataFrame) (w : world) :
  exists r : result float64,
    if_truthy (find_target (columns df))
      (fun target_col =>
         y ← call (column df target_col);
         m ← call (series_mean y);
         mret (mul m (Fin 100)))
      (mret (Fin 0)) w = (r, w).
Proof.
  unfold if_truthy. destruct (find_target _) as [t|]; [|by eexists].
  destruct (String.eqb t ""); [by eexists|].
  unfold mbind, M_bind, call.
  destruct (column df t) as [y|e]; [|by eexists].
  destruct (series_mean y); by eexists.
Qed.

Lemma to_csv_run (df : DataFrame) (path : string) (w : world) :
  to_csv df path w =
  if uploads_dir w then (Ok tt, after w (<[path := CsvFile df]> (fs w)) [])
  else (Raise (no_such_file path), w).
Proof.
  unfold to_csv, write, after, after_with.
  destruct (uploads_dir w) eqn:E; [|done].
  by rewrite !app_nil_r.
Qed.

(** Every run of [analyze_data] returns [(None, None)] and ends in one
    of two ways. Either the frame was loaded, every applicable derivation
    printed its record and the processed file was written; the summary
    was then handed to [log_output], which raised, and the handler printed
    the [error] record. Or an exception was raised before the file was
    written, after some of the derivation records, and the handler
    printed the [error] record. *)
Lemma analyze_data_cases (file_path project_id : string) (w : world) :
  (exists df dfp rate,
      load_dataset file_path w = (Ok df, w) /\
      uploads_dir w = true /\
      columns dfp = foldl add_column (columns df) (applicable df) /\
      analyze_data file_path project_id w =
        (Ok (None, None),
         after_with w (<[processed_path project_id := CsvFile dfp]> (fs w))
           ((fe <$> applicable df) ++ [summary_refused])
           ((fe <$> applicable df) ++
            [dataset_summary (summary_of df rate); summary_refused])))
  \/
  (exists l e,
      l `sublist_of` derived_features /\
      analyze_data file_path project_id w =
        (Ok (None, None),
         after w (fs w) ((fe <$> l) ++ [error ("Error analyzing data: " +:+ e)]))).
Proof.
  unfold analyze_data, try_except.
  rewrite analyze_body_phases, bind_run.
  pose proof (load_dataset_world file_path w) as Hw.
  destruct (load_dataset file_path w) as [[df|e] w0]; simpl in Hw; subst w0.
  2:{ right. exists [], e. split; [apply sublist_nil_l|reflexivity]. }
  rewrite bind_run.
  destruct (derive_phase_cases df w) as [(dfp & Hcols & ->)|(l & e & Hl & ->)].
  2:{ right. exists l, e. by rewrite handler_run. }
  rewrite bind_run.
  destruct (default_rate_world df (after w (fs w) (fe <$> applicable df)))
    as [[rate|e] ->].
  2:{ right. exists (applicable df), e. rewrite handler_run by done.
      split; [apply applicable_sublist|done]. }
  rewrite bind_run, to_csv_run. simpl uploads_dir.
  destruct (uploads_dir w) eqn:Hup.
  2:{ right. exists (applicable df), (no_such_file (processed_path project_id)).
      rewrite handler_run by done. split; [apply applicable_sublist|done]. }
  left. exists df, dfp, rate. split_and!; try done.
  rewrite after_after, fs_after, app_nil_r, bind_run, log_output_refused.
  unfold after. rewrite after_with_after_with, handler_run_with by done.
  unfold summary_refused. simpl. by rewrite app_nil_r, <- !app_assoc.
Qed.

(** ** The train stage, step by step *)

Lemma bind_call {A B} (r : result A) (k : A -> M B) (w : world) :
  (call r ≫= k) w =
  match r with
  | Ok a => k a w
  | Raise e => (Raise e, w)
  end.
Proof. rewrite bind_run. unfold call. by destruct r. Qed.

Lemma time_time_run (w : world) :
  exists t w', time_time w = (Ok t, w') /\ stdout w' = stdout w.
Proof. unfold time_time. destruct (clock w); by eexists _, _. Qed.

Lemma joblib_dump_cases (m : Sklearn.Fitted) (path : string) (w : world) :
  (exists w', joblib_dump m path w = (Ok tt, w') /\ stdout w' = stdout w) \/
  (exists e, joblib_dump m path w = (Raise e, w)).
Proof.
  unfold joblib_dump, write. destruct (uploads_dir w); [left|right]; by eexists.
Qed.

Lemma keys_dict_set {V} (d : list (string * V)) (k : string) (v : V) :
  Py.keys (Py.dict_set d k v) = add_column (Py.keys d) k.
Proof.
  unfold Py.keys, add_column.
  induction d as [|[k' v'] d IH]; [done|].
  cbn [Py.dict_set fmap list_fmap Py.mem existsb fst].
  rewrite (String.eqb_sym k). destruct (String.eqb k' k) eqn:E.
  - apply String.eqb_eq in E. by subst.
  - rewrite fmap_cons, IH. unfold Py.mem. simpl.
    by destruct (existsb _ _).
Qed.

Ltac raise_after H :=
  eexists; right; eexists; split; [reflexivity | by rewrite H].

Lemma train_model_cases (sk : Sklearn.api) (project_id : string) (X : DataFrame)
    (sp : Sklearn.Split) (Xs Xt : Sklearn.matrix) (st : Best)
    (model_name : string) (model_config : ModelConfig) (w : world) :
  exists w',
    (exists st' c,
        train_model sk project_id X sp Xs Xt st model_name model_config w =
          (Ok st', w') /\
        stdout w' = stdout w ++ candidate_events model_name c /\
        (best_model st', best_score st') =
          select_best (best_model st, best_score st) [(model_name, rocAuc c)] /\
        Py.keys (results st') = add_column (Py.keys (results st)) model_name)
    \/
    (exists e,
        train_model sk project_id X sp Xs Xt st model_name model_config w =
          (Raise e, w') /\
        stdout w' = stdout w ++ [model_update model_name (training 0)]).
Proof.
  unfold train_model.
  rewrite bind_run, log_output_run, bind_run by done.
  destruct (time_time_run (after w (fs w) [model_update model_name (training 0)]))
    as (t0 & w1 & -> & H1).
  simpl in H1.
  rewrite bind_call. destruct (Sklearn.grid_search_fit _ _ _ _ _ _ _) as [gs|e];
    [|raise_after H1].
  rewrite bind_call. destruct (Sklearn.predict _ _) as [y_pred|e];
    [|raise_after H1].
  rewrite bind_call. destruct (Sklearn.predict_proba _ _) as [proba|e];
    [|raise_after H1].
  rewrite bind_call. destruct (column1 proba) as [y_pred_proba|e];
    [|raise_after H1].
  rewrite bind_call. destruct (Sklearn.accuracy_score _ _ _) as [accuracy|e];
    [|raise_after H1].
  rewrite bind_call. destruct (Sklearn.precision_score _ _ _ _) as [precision|e];
    [|raise_after H1].
  rewrite bind_call. destruct (Sklearn.recall_score _ _ _ _) as [recall|e];
    [|raise_after H1].
  rewrite bind_call. destruct (Sklearn.f1_score _ _ _ _) as [f1|e];
    [|raise_after H1].
  rewrite bind_call. destruct (Sklearn.roc_auc_score _ _ _) as [roc_auc|e];
    [|raise_after H1].
  rewrite bind_run.
  destruct (time_time_run w1) as (t1 & w2 & -> & H2).
  rewrite bind_call. destruct (feature_importance_of _ _) as [fi|e];
    [|raise_after (eq_trans H2 H1)].
  rewrite bind_run.
  destruct (joblib_dump_cases (Sklearn.best_estimator_ gs)
              (model_path project_id model_name) w2) as [(w3 & -> & H3)|(e & ->)];
    [|raise_after (eq_trans H2 H1)].
  unfold select_best, track_best. simpl foldl.
  destruct (gtb roc_auc (best_score st)) eqn:Hg; rewrite bind_run, log_output_run by done.
  all: eexists; left; eexists _, _; split; [reflexivity|].
  all: simpl; rewrite H3, H2, H1, <- app_assoc, keys_dict_set.
  all: split_and!; [reflexivity| |done].
  all: simpl; by rewrite Hg.
Qed.

Lemma train_loop_cases (sk : Sklearn.api) (project_id : string) (X : DataFrame)
    (sp : Sklearn.Split) (Xs Xt : Sklearn.matrix)
    (ms : list (string * ModelConfig)) (st : Best) (w : world) :
  exists w',
    (exists st' cs,
        train_loop sk project_id X sp Xs Xt ms st w = (Ok st', w') /\
        length cs = length ms /\
        stdout w' = stdout w ++ concat (zip_with candidate_events ms.*1 cs) /\
        (best_model st', best_score st') =
          select_best (best_model st, best_score st) (zip ms.*1 (rocAuc <$> cs)) /\
        Py.keys (results st') = foldl add_column (Py.keys (results st)) ms.*1)
    \/
    (exists e evs,
        train_loop sk project_id X sp Xs Xt ms st w = (Raise e, w') /\
        stdout w' = stdout w ++ evs /\
        Forall (fun ev => is_model_update ev = true) evs).
Proof.
  revert st w. induction ms as [|[model_name model_config] ms IH]; intros st w.
  - exists w. left. exists st, []. simpl. by rewrite app_nil_r.
  - cbn [train_loop]. rewrite bind_run.
    destruct (train_model_cases sk project_id X sp Xs Xt st model_name
                model_config w)
      as (w1 & [(st1 & c & -> & Hout & Hbest & Hkeys)|(e & -> & Hout)]).
    2:{ exists w1. right. exists e, [model_update model_name (training 0)].
        split_and!; [done..|]. by repeat constructor. }
    destruct (IH st1 w1)
      as (w2 & [(st2 & cs & -> & Hlen & Hout2 & Hbest2 & Hkeys2)
               |(e & evs & -> & Hout2 & Hevs)]).
    + exists w2. left. exists st2, (c :: cs). split_and!; [done|..].
      * simpl. by rewrite Hlen.
      * rewrite Hout2, Hout. simpl. by rewrite <- app_assoc.
      * rewrite Hbest2, Hbest. done.
      * rewrite Hkeys2, Hkeys. done.
    + exists w2. right. exists e, (candidate_events model_name c ++ evs).
      split_and!; [done|..].
      * rewrite Hout2, Hout. by rewrite <- app_assoc.
      * apply Forall_app. split; [by repeat constructor|done].
Qed.

Lemma roc_loop_cases (sk : Sklearn.api) (rs : list (string * Result))
    (roc : list (string * RocCurve)) (w : world) :
  (exists roc',
      roc_loop sk rs roc w = (Ok roc', w) /\
      Py.keys roc' = foldl add_column (Py.keys roc) (Py.keys rs))
  \/
  (exists e, roc_loop sk rs roc w = (Raise e, w)).
Proof.
  revert roc. induction rs as [|[model_name r] rs IH]; intros roc.
  - left. by exists roc.
  - cbn [roc_loop]. rewrite bind_call.
    destruct (Sklearn.roc_curve _ _ _) as [[[fpr tpr] thresholds]|e];
      [|right; by exists e].
    destruct (IH (Py.dict_set roc model_name
                    {| fpr := fpr; tpr := tpr; auc := r_roc_auc r |}))
      as [(roc' & -> & Hkeys)|(e & ->)]; [left|right; by exists e].
    exists roc'. split; [done|]. by rewrite Hkeys, keys_dict_set.
Qed.

(** Training on a frame with a target column either goes through, printing
    the two records of each candidate in turn, then [roc_data] with the
    three candidates as keys and [best_model]; or raises after printing
    nothing but [model_update] records. *)
Lemma train_on_cases (sk : Sklearn.api) (project_id : string) (df : DataFrame)
    (target_col : string) (w : world) :
  exists w',
    (exists c1 c2 c3 roc b,
        train_on sk project_id df target_col w = (Ok tt, w') /\
        stdout w' = stdout w ++
          candidate_events "logistic_regression" c1 ++
          candidate_events "decision_tree" c2 ++
          candidate_events "random_forest" c3 ++
          [roc_data roc; Events.best_model b.1 b.2] /\
        Py.keys roc = model_names /\
        b = select_best (None, Fin 0)
              [("logistic_regression", rocAuc c1); ("decision_tree", rocAuc c2);
               ("random_forest", rocAuc c3)])
    \/
    (exists e evs,
        train_on sk project_id df target_col w = (Raise e, w') /\
        stdout w' = stdout w ++ evs /\
        Forall (fun ev => is_model_update ev = true) evs).
Proof.
  unfold train_on.
  rewrite bind_call. destruct (column df target_col) as [y|e].
  2:{ exists w. right. exists e, []. by rewrite app_nil_r. }
  rewrite bind_call. destruct (encode_columns _ _ _) as [[X les]|e].
  2:{ exists w. right. exists e, []. by rewrite app_nil_r. }
  rewrite bind_call. destruct (Sklearn.train_test_split _ _ _ _ _) as [sp|e].
  2:{ exists w. right. exists e, []. by rewrite app_nil_r. }
  rewrite bind_call. destruct (Sklearn.fit_transform _ _) as [[scaler Xs]|e].
  2:{ exists w. right. exists e, []. by rewrite app_nil_r. }
  rewrite bind_call. destruct (Sklearn.transform _ _ _) as [Xt|e].
  2:{ exists w. right. exists e, []. by rewrite app_nil_r. }
  rewrite bind_run.
  destruct (train_loop_cases sk project_id X sp Xs Xt models init w)
    as (w1 & [(st & cs & -> & Hlen & Hout & Hbest & Hkeys)
             |(e & evs & -> & Hout & Hevs)]).
  2:{ exists w1. right. by exists e, evs. }
  rewrite bind_run.
  destruct (roc_loop_cases sk (results st) [] w1) as [(roc & -> & Hroc)|(e & ->)].
  2:{ exists w1. right. exists e, (concat (zip_with candidate_events models.*1 cs)).
      split_and!; [done..|].
      apply Forall_concat, Forall_forall. intros l Hl.
      apply elem_of_lookup_zip_with in Hl as (i & n & c & -> & _ & _).
      by repeat constructor. }
  destruct cs as [|c1 [|c2 [|c3 [|c4 cs]]]]; try done.
  rewrite bind_run, !log_output_run by done. eexists. left.
  exists c1, c2, c3, roc, (best_model st, best_score st).
  split_and!; [reflexivity|..].
  - simpl. rewrite Hout. simpl. by rewrite <- !app_assoc.
  - by rewrite Hroc, Hkeys.
  - by rewrite Hbest.
Qed.

Lemma train_models_run (sk : Sklearn.api) (file_path project_id : string)
    (w : world) :
  train_models sk file_path project_id w =
  match fs w !! processed_path project_id with
  | Some (CsvFile df) => try_except (train_rest sk project_id df) train_handler w
  | Some _ => train_handler "Error tokenizing data" w
  | None =>
      match analyze_data file_path project_id w with
      | (Ok (Some df, _), w1) =>
          try_except (train_rest sk project_id df) train_handler w1
      | (Ok (None, _), w1) => (Ok tt, w1)
      | (Raise e, w1) => train_handler e w1
      end
  end.
Proof.
  unfold train_models, train_body, try_except at 1.
  rewrite bind_run. unfold path_exists, read_csv.
  destruct (fs w !! processed_path project_id) as [f|] eqn:Hf.
  - rewrite bool_decide_eq_true_2 by done.
    rewrite !bind_run, Hf. by destruct f.
  - rewrite bool_decide_eq_false_2 by (by intros [? ?]).
    rewrite !bind_run.
    by destruct (analyze_data file_path project_id w) as [[[[df|] t]|e] w1].
Qed.

(** The train stage from the point where it holds its frame: it returns
    normally; without a target column it prints the one [error] record;
    with one it prints the full sequence, or [model_update] records
    followed by one [error] record. *)
Lemma train_rest_cases (sk : Sklearn.api) (project_id : string) (df : DataFrame)
    (w : world) :
  exists w',
    try_except (train_rest sk project_id df) train_handler w = (Ok tt, w') /\
    match find_target (columns df) with
    | None =>
        stdout w' = stdout w ++ [error "No target column found for training"]
    | Some _ =>
        (exists c1 c2 c3 roc b,
            stdout w' = stdout w ++
              candidate_events "logistic_regression" c1 ++
              candidate_events "decision_tree" c2 ++
              candidate_events "random_forest" c3 ++
              [roc_data roc; Events.best_model b.1 b.2] /\
            Py.keys roc = model_names /\
            b = select_best (None, Fin 0)
                  [("logistic_regression", rocAuc c1);
                   ("decision_tree", rocAuc c2);
                   ("random_forest", rocAuc c3)])
        \/
        (exists e evs,
            stdout w' = stdout w ++ evs ++ [error ("Error training models: " +:+ e)] /\
            Forall (fun ev => is_model_update ev = true) evs)
    end.
Proof.
  unfold try_except, train_rest. rewrite find_target_truthy.
  destruct (find_target (columns df)) as [t|].
  - destruct (train_on_cases sk project_id df t w)
      as (w1 & [(c1 & c2 & c3 & roc & b & -> & Hout & Hroc & Hb)
               |(e & evs & -> & Hout & Hevs)]).
    + exists w1. split; [done|]. left. by exists c1, c2, c3, roc, b.
    + eexists. split; [reflexivity|]. right. exists e, evs.
      split; [|done]. simpl. by rewrite Hout, <- app_assoc.
  - eexists. split; [reflexivity|done].
Qed.

(** ** What a run prints *)

Lemma printed_eq (w w' : world) (evs : list Event) :
  stdout w' = stdout w ++ evs -> printed w w' = evs.
Proof. unfold printed. intros ->. by rewrite drop_app_length. Qed.

Lemma find_target_app (cols cols' : list string) :
  find_target (cols ++ cols') =
  match find_target cols with
  | Some t => Some t
  | None => find_target cols'
  end.
Proof.
  induction cols as [|c cols IH]; [done|]. cbn [find_target app].
  by destruct (Py.mem (Py.lower c) potential_targets).
Qed.

Lemma find_target_add_column (cols : list string) (c : string) :
  Py.mem (Py.lower c) potential_targets = false ->
  find_target (add_column cols c) = find_target cols.
Proof.
  intros Hc. unfold add_column. destruct (Py.mem c cols); [done|].
  rewrite find_target_app. cbn [find_target]. rewrite Hc.
  by destruct (find_target cols).
Qed.

(** The derived columns never change which column is the target. *)
Lemma find_target_engineered (df : DataFrame) :
  find_target (foldl add_column (columns df) (applicable df)) =
  find_target (columns df).
Proof.
  pose proof (applicable_sublist df) as Hsub.
  assert (Forall (fun c => Py.mem (Py.lower c) potential_targets = false)
            (applicable df)) as Hall.
  { apply Forall_forall. intros c Hc.
    apply (elem_of_sublist _ _ _ Hc) in Hsub. unfold derived_features in Hsub.
    repeat (apply elem_of_cons in Hsub as [->|Hsub]; [done|]).
    by apply elem_of_nil in Hsub. }
  revert Hall. generalize (applicable df) (columns df).
  intros l. induction l as [|c l IH]; intros cols Hall; [done|].
  inversion_clear Hall. simpl. rewrite IH by done.
  by apply find_target_add_column.
Qed.

Lemma find_target_elem (cols : list string) (t : string) :
  find_target cols = Some t -> t ∈ cols.
Proof.
  intros (pre & post & -> & _)%find_target_some.
  apply elem_of_app. right. by left.
Qed.

Lemma add_column_subseteq (cols : list string) (c : string) :
  cols ⊆ add_column cols c /\ c ∈ add_column cols c.
Proof.
  unfold add_column. destruct (Py.mem c cols) eqn:E.
  - split; [done|]. by apply mem_true.
  - split; [|apply elem_of_app; right; by left].
    intros x Hx. apply elem_of_app. by left.
Qed.

Lemma foldl_add_column (cols l : list string) :
  cols ⊆ foldl add_column cols l /\
  forall c, c ∈ l -> c ∈ foldl add_column cols l.
Proof.
  revert cols. induction l as [|c l IH]; intros cols; simpl.
  - split; [done|]. intros c Hc. by apply elem_of_nil in Hc.
  - destruct (IH (add_column cols c)) as [Hsub Hin].
    destruct (add_column_subseteq cols c) as [Hsub' Hc].
    split; [by etrans|].
    intros x [->|Hx]%elem_of_cons; [by apply Hsub|by apply Hin].
Qed.

Lemma error_not_in_fe (l : list string) :
  List.filter is_error (fe <$> l) = [] /\
  List.filter is_model_update (fe <$> l) = [].
Proof.
  induction l as [|c l [IH1 IH2]]; [done|]. rewrite fmap_cons.
  cbn [List.filter fe is_error is_model_update]. by rewrite IH1, IH2.
Qed.

Lemma no_error_in_model_updates (evs : list Event) :
  Forall (fun ev => is_model_update ev = true) evs ->
  List.filter is_error evs = [].
Proof.
  induction 1 as [|ev evs Hev _ IH]; [done|]. simpl. rewrite IH.
  by destruct ev.
Qed.

Lemma analyze_data_printed (file_path project_id : string) (w : world) :
  exists l last,
    printed w (analyze_data file_path project_id w).2 = (fe <$> l) ++ [last] /\
    l `sublist_of` derived_features /\
    ((exists d, last = dataset_summary d) \/ (exists m, last = error m)).
Proof.
  destruct (analyze_data_cases file_path project_id w)
    as [(df & dfp & rate & _ & _ & _ & ->)|(l & e & Hl & ->)].
  - exists (applicable df), summary_refused.
    cbn [snd]. rewrite printed_after_with.
    split_and!; [done|apply applicable_sublist|]. right. by eexists.
  - exists l, (error ("Error analyzing data: " +:+ e)).
    cbn [snd]. rewrite printed_after. split_and!; [done..|]. right. by eexists.
Qed.

Lemma train_models_frame (sk : Sklearn.api) (file_path project_id : string)
    (w : world) (df : DataFrame) :
  training_frame file_path project_id w = Some df ->
  train_models sk file_path project_id w =
  try_except (train_rest sk project_id df) train_handler
    (training_start file_path project_id w).
Proof.
  rewrite train_models_run. unfold training_frame, training_start.
  destruct (fs w !! processed_path project_id) as [[]|]; try done.
  - by intros [= ->].
  - destruct (analyze_data file_path project_id w) as [[[[df'|] t]|e] w1];
      try done.
    by intros [= ->].
Qed.

(** Before the train stage holds its frame, nothing but the analyze
    stage's own records was printed. *)
Lemma training_start_printed (file_path project_id : string) (w : world)
    (df : DataFrame) :
  training_frame file_path project_id w = Some df ->
  exists evs,
    stdout (training_start file_path project_id w) = stdout w ++ evs /\
    List.filter is_error evs = [] /\
    List.filter is_model_update evs = [].
Proof.
  unfold training_frame, training_start.
  destruct (fs w !! processed_path project_id) as [f|].
  { intros _. exists []. by rewrite app_nil_r. }
  by destruct (analyze_data_cases file_path project_id w)
    as [(df0 & dfp & rate & _ & _ & _ & ->)|(l & e & Hl & ->)].
Qed.

(** Without a frame the train stage prints one [error] record, no
    [model_update] record, and returns. *)
Lemma train_models_no_frame (sk : Sklearn.api) (file_path project_id : string)
    (w : world) :
  training_frame file_path project_id w = None ->
  exists w' evs m,
    train_models sk file_path project_id w = (Ok tt, w') /\
    stdout w' = stdout w ++ evs ++ [error m] /\
    List.filter is_error evs = [] /\
    List.filter is_model_update evs = [].
Proof.
  rewrite train_models_run. unfold training_frame.
  destruct (fs w !! processed_path project_id) as [[]|]; try done.
  1,2: intros _; eexists _, [], _; by split_and!.
  destruct (analyze_data_cases file_path project_id w)
    as [(df0 & dfp & rate & _ & _ & _ & ->)|(l & e & Hl & ->)].
  - intros _. eexists _, (fe <$> applicable df0), _.
    split_and!; [done|done|..]; apply error_not_in_fe.
  - intros _. eexists _, (fe <$> l), _.
    split_and!; [done|done|..]; apply error_not_in_fe.
Qed.

(** With a frame: the records of the train stage proper follow those
    printed on the way to the frame. *)
Lemma train_models_with_frame (sk : Sklearn.api) (file_path project_id : string)
    (w : world) (df : DataFrame) :
  training_frame file_path project_id w = Some df ->
  exists w' pre evs,
    train_models sk file_path project_id w = (Ok tt, w') /\
    stdout (training_start file_path project_id w) = stdout w ++ pre /\
    List.filter is_error pre = [] /\
    List.filter is_model_update pre = [] /\
    stdout w' = stdout w ++ pre ++ evs /\
    match find_target (columns df) with
    | None => evs = [error "No target column found for training"]
    | Some _ =>
        (exists c1 c2 c3 roc b,
            evs =
              candidate_events "logistic_regression" c1 ++
              candidate_events "decision_tree" c2 ++
              candidate_events "random_forest" c3 ++
              [roc_data roc; Events.best_model b.1 b.2] /\
            Py.keys roc = model_names /\
            b = select_best (None, Fin 0)
                  [("logistic_regression", rocAuc c1);
                   ("decision_tree", rocAuc c2);
                   ("random_forest", rocAuc c3)])
        \/
        (exists e ups,
            evs = ups ++ [error ("Error training models: " +:+ e)] /\
            Forall (fun ev => is_model_update ev = true) ups)
    end.
Proof.
  intros Hdf. rewrite (train_models_frame _ _ _ _ _ Hdf).
  destruct (training_start_printed _ _ _ _ Hdf) as (pre & Hpre & He & Hm).
  destruct (train_rest_cases sk project_id df
              (training_start file_path project_id w)) as (w' & -> & Hcases).
  destruct (find_target (columns df)) as [t|].
  - destruct Hcases as [(c1 & c2 & c3 & roc & b & Hout & Hroc & Hb)
                       |(e & ups & Hout & Hups)].
    + eexists w', pre, _. split_and!; [done..| |].
      * rewrite Hout, Hpre, <- app_assoc. reflexivity.
      * left. by exists c1, c2, c3, roc, b.
    + eexists w', pre, _. split_and!; [done..| |].
      * rewrite Hout, Hpre, <- app_assoc. reflexivity.
      * right. by exists e, ups.
  - eexists w', pre, _. split_and!; [done..| |done].
    by rewrite Hcases, Hpre, <- app_assoc.
Qed.

(** ** The claims *)

(** C10. In every run of the analyze stage the [feature_engineering]
    records come first, each at most once and in the order
    [debt_to_income_ratio], [credit_utilization_rate],
    [avg_payment_delays]; one record follows them, the [dataset_summary]
    or, after an exception, the [error]. *)
Theorem feature_engineering_order (file_path project_id : string) (w : world) :
  exists l last,
    printed w (analyze_data file_path project_id w).2 = (fe <$> l) ++ [last] /\
    l `sublist_of` derived_features /\
    ((exists d, last = dataset_summary d) \/ (exists m, last = error m)).
Proof. apply analyze_data_printed. Qed.

Lemma analyze_data_errors (file_path project_id : string) (w : world) :
  length (List.filter is_error (printed w (analyze_data file_path project_id w).2))
  <= 1.
Proof.
  destruct (analyze_data_printed file_path project_id w)
    as (l & last & -> & _).
  rewrite List.filter_app, (proj1 (error_not_in_fe l)). simpl.
  destruct (is_error last); simpl; lia.
Qed.

Lemma train_models_errors (sk : Sklearn.api) (file_path project_id : string)
    (w : world) :
  (train_models sk file_path project_id w).1 = Ok tt /\
  length (List.filter is_error
            (printed w (train_models sk file_path project_id w).2)) <= 1.
Proof.
  destruct (training_frame file_path project_id w) as [df|] eqn:Hdf.
  - destruct (train_models_with_frame sk _ _ _ _ Hdf)
      as (w' & pre & evs & -> & _ & He & _ & Hout & Hcases).
    split; [done|]. cbn [snd]. rewrite (printed_eq _ _ _ Hout).
    rewrite List.filter_app, He. simpl.
    destruct (find_target (columns df)).
    + destruct Hcases as [(c1 & c2 & c3 & roc & b & -> & _)|(e & ups & -> & Hups)].
      * simpl. lia.
      * rewrite List.filter_app, (no_error_in_model_updates _ Hups). simpl. lia.
    + subst evs. simpl. lia.
  - destruct (train_models_no_frame sk _ _ _ Hdf)
      as (w' & evs & m & -> & Hout & He & _).
    split; [done|]. cbn [snd]. rewrite (printed_eq _ _ _ Hout).
    rewrite List.filter_app, He. simpl. lia.
Qed.

(** C7. Neither stage lets an exception out: both return a value in every
    world; when the [try] block of a stage raises, the stage appends one
    [error] record carrying the message to what the block had printed
    (and [analyze_data] returns [(None, None)]); and no run of a stage
    prints more than one [error] record. *)
Theorem stages_never_raise (sk : Sklearn.api) (file_path project_id : string)
    (w : world) :
  (exists v, (analyze_data file_path project_id w).1 = Ok v) /\
  (train_models sk file_path project_id w).1 = Ok tt /\
  (forall e w1,
      analyze_body file_path project_id w = (Raise e, w1) ->
      analyze_data file_path project_id w =
        (Ok (None, None), emit (error ("Error analyzing data: " +:+ e)) w1)) /\
  (forall e w1,
      train_body sk file_path project_id w = (Raise e, w1) ->
      train_models sk file_path project_id w =
        (Ok tt, emit (error ("Error training models: " +:+ e)) w1)) /\
  length (List.filter is_error
            (printed w (analyze_data file_path project_id w).2)) <= 1 /\
  length (List.filter is_error
            (printed w (train_models sk file_path project_id w).2)) <= 1.
Proof.
  split_and!.
  - destruct (analyze_data_cases file_path project_id w)
      as [(df & dfp & rate & _ & _ & _ & ->)|(l & e & _ & ->)]; by eexists.
  - apply train_models_errors.
  - intros e w1 H. unfold analyze_data, try_except. by rewrite H.
  - intros e w1 H. unfold train_models, try_except. by rewrite H.
  - apply analyze_data_errors.
  - apply train_models_errors.
Qed.

Lemma stages_never_raise_witness :
  analyze_data "data.txt" "p1" (Examples.world_with "data.csv" Examples.scenario_df) =
    (Ok (None, None),
     emit (error "Error analyzing data: Unsupported file format")
       (Examples.world_with "data.csv" Examples.scenario_df)) /\
  train_models (Examples.toy Examples.auc_mixed) "data.csv" "p1"
    Examples.broken_world =
    (Ok tt,
     emit (error "Error training models: Error tokenizing data")
       Examples.broken_world).
Proof.
  split.
  - apply (stages_never_raise (Examples.toy Examples.auc_mixed)).
    vm_compute. reflexivity.
  - apply (stages_never_raise (Examples.toy Examples.auc_mixed)).
    vm_compute. reflexivity.
Defined.

Lemma not_in_fe (d : DatasetSummary) (l : list string) :
  dataset_summary d ∉ (fe <$> l).
Proof. intros (c & Hc & _)%list_elem_of_fmap. done. Qed.

Lemma train_models_extends (sk : Sklearn.api) (file_path project_id : string)
    (w : world) :
  exists evs, stdout (train_models sk file_path project_id w).2 = stdout w ++ evs.
Proof.
  destruct (training_frame file_path project_id w) as [df|] eqn:Hdf.
  - destruct (train_models_with_frame sk _ _ _ _ Hdf)
      as (w' & pre & evs & -> & _ & _ & _ & Hout & _). by eexists.
  - destruct (train_models_no_frame sk _ _ _ Hdf)
      as (w' & evs & m & -> & Hout & _). by eexists.
Qed.


Lemma Forall_no_error_app (l1 l2 : list Event) (m : string) :
  ~ Forall (fun ev => is_error ev = false) (l1 ++ error m :: l2).
Proof. intros [_ H]%Forall_app. by inversion H. Qed.

(** ** The summary and the raw frame *)

Lemma foldl_add_column_elem (acc l : list string) (x : string) :
  x ∈ foldl add_column acc l -> x ∈ acc \/ x ∈ l.
Proof.
  revert acc. induction l as [|c l IH]; intros acc; simpl; [by left|].
  intros [Hx|Hx]%IH; [|right; by right].
  unfold add_column in Hx. destruct (Py.mem c acc); [by left|].
  apply elem_of_app in Hx as [Hx|Hx]; [by left|].
  apply list_elem_of_singleton in Hx as ->. right. by left.
Qed.

Lemma keys_dtypes_dict (df : DataFrame) :
  (dtypes_dict df).*1 = foldl add_column [] (columns df).
Proof.
  unfold dtypes_dict, columns.
  change (@nil string) with (Py.keys (@nil (string * string))) at 1.
  unfold Py.keys at 1.
  generalize (@nil (string * string)).
  induction (series df) as [|s l IH]; intros d; [done|].
  simpl. rewrite IH. f_equal. apply keys_dict_set.
Qed.

Lemma elem_of_filtered_names (f : Series -> bool) (l : list Series) (x : string) :
  x ∈ name <$> List.filter f l -> x ∈ name <$> l.
Proof.
  intros (s & -> & Hs)%list_elem_of_fmap.
  apply list_elem_of_fmap. exists s. split; [done|].
  apply list_elem_of_In. apply list_elem_of_In, List.filter_In in Hs. tauto.
Qed.

(** Every name a summary mentions is a column of the frame as loaded. *)
Lemma names_in_summary_of (df : DataFrame) (rate : float64) (n : string) :
  n ∈ names_in (summary_of df rate) -> n ∈ columns df.
Proof.
  unfold names_in, summary_of. cbn [summary Events.columns Events.dtypes
    Events.numerical_cols Events.categorical_cols target_column].
  rewrite !elem_of_app. intros [H|[H|[H|[H|H]]]].
  - done.
  - rewrite keys_dtypes_dict in H.
    apply foldl_add_column_elem in H as [H|H]; [by apply elem_of_nil in H|done].
  - by apply elem_of_filtered_names in H.
  - by apply elem_of_filtered_names in H.
  - destruct (find_target (columns df)) as [t|] eqn:Ht; simpl in H.
    + apply list_elem_of_singleton in H as ->. by apply find_target_elem.
    + by apply elem_of_nil in H.
Qed.

(** ** Completeness and the quality label *)

Lemma gtb_Fin (q c : Q) : gtb (Fin q) (Fin c) = true <-> (c < q)%Q.
Proof.
  unfold gtb. rewrite negb_true_iff.
  destruct (Qle_bool q c) eqn:E.
  - apply Qle_bool_iff in E. split; [done|]. intros H. by apply Qlt_not_le in H.
  - split; [|done]. intros _. apply Qnot_le_lt. intros H.
    apply Qle_bool_iff in H. congruence.
Qed.

Lemma gtb_Fin_false (q c : Q) : gtb (Fin q) (Fin c) = false <-> (q <= c)%Q.
Proof.
  unfold gtb. rewrite negb_false_iff. apply Qle_bool_iff.
Qed.

Lemma completeness_formula (missing_values total_records features : nat) :
  (0 < total_records * features)%nat ->
  completeness missing_values total_records features =
  Fin ((1 - inject_Z (Z.of_nat missing_values) /
            inject_Z (Z.of_nat (total_records * features))) * 100).
Proof.
  intros Hpos. unfold completeness, of_nat, div.
  assert (Qsign (inject_Z (Z.of_nat (total_records * features))) = Lt) as ->.
  { unfold Qsign, Qcompare. simpl. rewrite Z.mul_1_r.
    destruct (Z.of_nat (total_records * features)) eqn:E; [lia|done|lia]. }
  reflexivity.
Qed.

Lemma quality_thresholds :
  (forall q, (95 < q)%Q -> data_quality (Fin q) = "Excellent") /\
  (forall q, (85 < q)%Q -> (q <= 95)%Q -> data_quality (Fin q) = "Good") /\
  (forall q, (70 < q)%Q -> (q <= 85)%Q -> data_quality (Fin q) = "Fair") /\
  (forall q, (q <= 70)%Q -> data_quality (Fin q) = "Poor").
Proof.
  split_and!.
  - intros q H. unfold data_quality. by rewrite (proj2 (gtb_Fin q 95) H).
  - intros q H1 H2. unfold data_quality.
    by rewrite (proj2 (gtb_Fin_false q 95) H2), (proj2 (gtb_Fin q 85) H1).
  - intros q H1 H2. unfold data_quality.
    assert (q <= 95)%Q as H3 by (eapply Qle_trans; [exact H2|done]).
    by rewrite (proj2 (gtb_Fin_false q 95) H3), (proj2 (gtb_Fin_false q 85) H2),
         (proj2 (gtb_Fin q 70) H1).
  - intros q H1. unfold data_quality.
    assert (q <= 85)%Q as H2 by (eapply Qle_trans; [exact H1|done]).
    assert (q <= 95)%Q as H3 by (eapply Qle_trans; [exact H1|done]).
    by rewrite (proj2 (gtb_Fin_false q 95) H3), (proj2 (gtb_Fin_false q 85) H2),
         (proj2 (gtb_Fin_false q 70) H1).
Qed.

(** A dataset with exactly 95% of its cells present is [Good]. *)
Lemma exactly_95_is_good (m t f : nat) :
  (0 < t * f)%nat ->
  (100 * m = 5 * (t * f))%nat ->
  data_quality (completeness m t f) = "Good".
Proof.
  intros Hpos Heq. rewrite completeness_formula by done.
  assert (inject_Z (Z.of_nat m) / inject_Z (Z.of_nat (t * f)) == 5 # 100)%Q as Hr.
  { unfold Qeq, Qdiv, Qmult, Qinv, inject_Z. simpl.
    destruct (Z.of_nat (t * f)) as [|p|p] eqn:E; simpl; lia. }
  assert ((1 - inject_Z (Z.of_nat m) / inject_Z (Z.of_nat (t * f))) * 100 == 95)%Q
    as Hq by (rewrite Hr; reflexivity).
  destruct quality_thresholds as (_ & H3 & _).
  apply H3; rewrite Hq; [reflexivity|by intros ?].
Qed.

(** ** The best model *)

(** Whenever the train stage prints the records of three completed
    candidates, [roc_data] and [best_model], the [best_model] record is
    what the strictly-greater rule, started at [(None, 0)], selects from
    the three ROC-AUC scores. *)
Lemma best_model_is_select_best (sk : Sklearn.api) (file_path project_id : string)
    (w : world) (evs : list Event) (c1 c2 c3 : Completed)
    (roc : list (string * RocCurve)) (bm : option string) (sc : float64) :
  printed w (train_models sk file_path project_id w).2 =
    evs ++
    candidate_events "logistic_regression" c1 ++
    candidate_events "decision_tree" c2 ++
    candidate_events "random_forest" c3 ++
    [roc_data roc; Events.best_model bm sc] ->
  (bm, sc) =
  select_best (None, Fin 0)
    [("logistic_regression", rocAuc c1); ("decision_tree", rocAuc c2);
     ("random_forest", rocAuc c3)].
Proof.
  destruct (training_frame file_path project_id w) as [df|] eqn:Hdf.
  - destruct (train_models_with_frame sk _ _ _ _ Hdf)
      as (w' & pre & evs' & -> & _ & _ & _ & Hout & Hcases). cbn [snd].
    rewrite (printed_eq _ _ _ Hout).
    destruct (find_target (columns df)).
    + destruct Hcases as [(d1 & d2 & d3 & roc' & b & -> & _ & Hb)
                         |(e & ups & -> & _)].
      * intros H. apply app_inj_2 in H as [_ H]; [|done].
        injection H as <- <- <- _ Hbm Hsc.
        rewrite <- Hb, <- Hbm, <- Hsc. by destruct b.
      * intros H. apply (f_equal last) in H. revert H.
        rewrite !app_assoc, last_snoc.
        rewrite <- !app_assoc, !last_app. by simpl.
    + subst evs'. intros H. apply (f_equal last) in H. revert H.
      rewrite last_snoc, !last_app. by simpl.
  - destruct (train_models_no_frame sk _ _ _ Hdf)
      as (w' & evs' & m & -> & Hout & _). cbn [snd].
    rewrite (printed_eq _ _ _ Hout).
    intros H. apply (f_equal last) in H. revert H.
    rewrite app_assoc, last_snoc, !last_app. by simpl.
Qed.

(** With a score above 0 among finite scores, the rule selects the first
    candidate whose score is the greatest. *)
Lemma select_best_first_max (n1 n2 n3 : string) (a1 a2 a3 : Q) :
  (0 < a1 \/ 0 < a2 \/ 0 < a3)%Q ->
  exists n a,
    select_best (None, Fin 0) [(n1, Fin a1); (n2, Fin a2); (n3, Fin a3)] =
      (Some n, Fin a) /\
    (a1 <= a /\ a2 <= a /\ a3 <= a)%Q /\
    ((n = n1 /\ a = a1) \/
     (n = n2 /\ a = a2 /\ a1 < a2)%Q \/
     (n = n3 /\ a = a3 /\ a1 < a3 /\ a2 < a3)%Q).
Proof.
  intros Hpos. unfold select_best. cbn [foldl snd].
  destruct (gtb (Fin a1) (Fin 0)) eqn:E1; cbn [snd];
    [apply gtb_Fin in E1|apply gtb_Fin_false in E1].
  all: destruct (gtb (Fin a2) _) eqn:E2; cbn [snd];
    [apply gtb_Fin in E2|apply gtb_Fin_false in E2].
  all: destruct (gtb (Fin a3) _) eqn:E3; cbn [snd];
    [apply gtb_Fin in E3|apply gtb_Fin_false in E3].
  all: try (exfalso; lra).
  all: eexists _, _; split; [reflexivity|]; split; [lra|].
  all: first [ left; split; [reflexivity|reflexivity]
             | right; left; split_and!; [reflexivity|reflexivity|lra]
             | right; right; split_and!; [reflexivity|reflexivity|lra|lra] ].
Qed.

(** With no score above 0 the rule selects nobody. *)
Lemma select_best_nobody (n1 n2 n3 : string) (a1 a2 a3 : Q) :
  (a1 <= 0 /\ a2 <= 0 /\ a3 <= 0)%Q ->
  select_best (None, Fin 0) [(n1, Fin a1); (n2, Fin a2); (n3, Fin a3)] =
  (None, Fin 0).
Proof.
  intros (H1 & H2 & H3). unfold select_best. cbn [foldl snd].
  rewrite (proj2 (gtb_Fin_false a1 0) H1). cbn [snd].
  rewrite (proj2 (gtb_Fin_false a2 0) H2). cbn [snd].
  by rewrite (proj2 (gtb_Fin_false a3 0) H3).
Qed.

(** ** The label encoder *)

Lemma classes_sorted (y : list string) :
  StronglySorted String.le (Sklearn.LabelEncoder.classes_ y) /\
  NoDup (Sklearn.LabelEncoder.classes_ y) /\
  forall v, v ∈ Sklearn.LabelEncoder.classes_ y <-> v ∈ y.
Proof.
  unfold Sklearn.LabelEncoder.classes_. split_and!.
  - apply (StronglySorted_merge_sort String.le).
  - rewrite (merge_sort_Permutation String.le). apply NoDup_remove_dups.
  - intros v. rewrite (merge_sort_Permutation String.le).
    apply elem_of_remove_dups.
Qed.

Lemma position_lookup (v : string) (cls : list string) :
  v ∈ cls -> cls !! Sklearn.LabelEncoder.position v cls = Some v.
Proof.
  induction cls as [|c cls IH]; [by intros ?%elem_of_nil|].
  intros Hv. cbn [Sklearn.LabelEncoder.position].
  destruct (String.eqb c v) eqn:E.
  - apply String.eqb_eq in E. by subst.
  - apply String.eqb_neq in E. apply elem_of_cons in Hv as [->|Hv]; [done|].
    by apply IH.
Qed.

Lemma getitem_elem (l : list Series) (s : Series) :
  NoDup (name <$> l) -> s ∈ l -> getitem l (name s) = Some s.
Proof.
  induction l as [|s' l IH]; [by intros _ ?%elem_of_nil|].
  rewrite fmap_cons, NoDup_cons. intros [Hs' Hl] Hs. cbn [getitem].
  apply elem_of_cons in Hs as [->|Hs]; [by rewrite String.eqb_refl|].
  destruct (String.eqb (name s') (name s)) eqn:E; [|by apply IH].
  apply String.eqb_eq in E. exfalso. apply Hs'. rewrite E.
  apply list_elem_of_fmap. by exists s.
Qed.

Lemma fmap_fixed {A} (f : A -> A) (l : list A) :
  (forall x, x ∈ l -> f x = x) -> f <$> l = l.
Proof.
  intros H. rewrite <- (list_fmap_id l) at 2.
  apply list_fmap_ext. intros i x Hx. apply H.
  by eapply list_elem_of_lookup_2.
Qed.

Lemma setitem_series_present (l : list Series) (s : Series) (d : data) :
  NoDup (name <$> l) -> s ∈ l ->
  setitem_series l (name s) d =
  (fun s' => if String.eqb (name s') (name s)
             then {| name := name s; values := d |} else s') <$> l.
Proof.
  induction l as [|s' l IH]; [by intros _ ?%elem_of_nil|].
  rewrite fmap_cons, NoDup_cons. intros [Hs' Hl] Hs.
  cbn [setitem_series]. rewrite fmap_cons.
  destruct (String.eqb (name s') (name s)) eqn:E.
  - apply String.eqb_eq in E. f_equal. symmetry.
    apply fmap_fixed. intros x Hx.
    destruct (String.eqb (name x) (name s)) eqn:E'; [|done].
    apply String.eqb_eq in E'. exfalso. apply Hs'. rewrite E, <- E'.
    apply list_elem_of_fmap. by exists x.
  - apply elem_of_cons in Hs as [->|Hs]; [by rewrite String.eqb_refl in E|].
    f_equal. by apply IH.
Qed.

Lemma NoDup_filtered_names (f : Series -> bool) (l : list Series) :
  NoDup (name <$> l) -> NoDup (name <$> List.filter f l).
Proof.
  induction l as [|s l IH]; [done|].
  rewrite fmap_cons, NoDup_cons. intros [Hs Hl]. cbn [List.filter].
  destruct (f s); [|by apply IH].
  rewrite fmap_cons, NoDup_cons. split; [|by apply IH].
  intros H. by apply Hs, (elem_of_filtered_names f).
Qed.

(** The encoding loop over any set of text columns of a frame with
    distinct column names. *)
Lemma encode_columns_map (cols : list string) :
  forall (X : DataFrame) (les : list (string * list string)),
    NoDup (columns X) ->
    NoDup cols ->
    (forall c, c ∈ cols ->
       exists s l, s ∈ series X /\ name s = c /\ values s = Objects l) ->
    exists les',
      encode_columns X les cols =
      Ok ({| index := index X;
             series := (fun s => if bool_decide (name s ∈ cols)
                                 then encode_series s else s) <$> series X |},
          les').
Proof.
  induction cols as [|c cols IH]; intros X les HX Hcols Hobj.
  - exists les. cbn [encode_columns]. do 2 f_equal. destruct X as [n l].
    simpl. f_equal. symmetry. by apply fmap_fixed.
  - apply NoDup_cons in Hcols as [Hc Hcols].
    destruct (Hobj c) as (s & l & Hs & <- & Hl); [by left|].
    cbn [encode_columns]. unfold encode_column.
    rewrite (getitem_elem _ _ HX Hs).
    destruct s as [ns vs] eqn:Es. simpl in Hl. subst vs. rewrite <- Es in *.
    set (codes := Sklearn.LabelEncoder.fit_transform (astype_str l)).
    set (X1 := setitem X (name s) (Ints codes)).
    assert (series X1 =
            (fun s' => if String.eqb (name s') (name s)
                       then {| name := name s; values := Ints codes |}
                       else s') <$> series X) as HX1.
    { unfold X1, setitem. simpl. by apply setitem_series_present. }
    assert (columns X1 = columns X) as Hnames.
    { unfold columns. rewrite HX1, <- list_fmap_compose.
      apply list_fmap_ext. intros i x _. simpl.
      destruct (String.eqb (name x) (name s)) eqn:E; [|done].
      apply String.eqb_eq in E. by rewrite E. }
    destruct (IH X1 (Py.dict_set les (name s)
                       (Sklearn.LabelEncoder.classes_ (astype_str l))))
      as (les' & ->).
    + by rewrite Hnames.
    + done.
    + intros c' Hc'. destruct (Hobj c') as (s' & l' & Hs' & <- & Hl');
        [by right|].
      exists s', l'. split_and!; [|done..].
      rewrite HX1. apply list_elem_of_fmap. exists s'. split; [|done].
      destruct (String.eqb (name s') (name s)) eqn:E; [|done].
      apply String.eqb_eq in E. rewrite E in Hc'. done.
    + exists les'. rewrite HX1.
      assert (index X1 = index X) as -> by done.
      do 3 f_equal. rewrite <- list_fmap_compose.
      apply list_fmap_ext. intros i x Hx. simpl.
      apply list_elem_of_lookup_2 in Hx.
      destruct (String.eqb (name x) (name s)) eqn:E.
      * apply String.eqb_eq in E.
        assert (x = s) as ->.
        { pose proof (getitem_elem _ _ HX Hx) as H1.
          pose proof (getitem_elem _ _ HX Hs) as H2.
          rewrite E in H1. congruence. }
        simpl. rewrite bool_decide_eq_false_2 by done.
        rewrite bool_decide_eq_true_2 by (by left).
        unfold encode_series. rewrite Es. simpl. done.
      * apply String.eqb_neq in E.
        destruct (bool_decide (name x ∈ cols)) eqn:B.
        -- apply bool_decide_eq_true in B.
           rewrite bool_decide_eq_true_2; [done|by right].
        -- apply bool_decide_eq_false in B.
           rewrite bool_decide_eq_false_2; [done|].
           intros [?|?]%elem_of_cons; done.
Qed.

(** C3, as the code has it. On a frame with distinct column names the
    encoding loop succeeds and replaces every text column, and no other,
    by the codes of an encoder fitted on that column alone: the encoder's
    classes are the column's distinct values (missing ones as [nan]) in
    sorted order without repeats, and each cell takes the position of its
    value among the classes, so the least value gets code 0, the next one
    1, and so on. *)
Theorem label_encoder_sorted_codes (X : DataFrame) :
  NoDup (columns X) ->
  (exists les,
     encode_columns X [] (categorical_cols X) =
     Ok ({| index := index X; series := encode_series <$> series X |}, les)) /\
  forall s l,
    s ∈ series X ->
    values s = Objects l ->
    encode_column X (name s) =
      Ok (setitem X (name s)
            (Ints (Sklearn.LabelEncoder.fit_transform (astype_str l))),
          Sklearn.LabelEncoder.classes_ (astype_str l)) /\
    values (encode_series s) =
      Ints (Sklearn.LabelEncoder.fit_transform (astype_str l)) /\
    StronglySorted String.le (Sklearn.LabelEncoder.classes_ (astype_str l)) /\
    NoDup (Sklearn.LabelEncoder.classes_ (astype_str l)) /\
    (forall v,
       v ∈ Sklearn.LabelEncoder.classes_ (astype_str l) <-> v ∈ astype_str l) /\
    (forall i v,
       astype_str l !! i = Some v ->
       exists k,
         Sklearn.LabelEncoder.fit_transform (astype_str l) !! i =
           Some (Z.of_nat k) /\
         Sklearn.LabelEncoder.classes_ (astype_str l) !! k = Some v).
Proof.
  intros HX. split.
  - destruct (encode_columns_map (categorical_cols X) X [] HX) as (les & Hles).
    + by apply NoDup_filtered_names.
    + intros c (s & -> & Hs)%list_elem_of_fmap.
      apply list_elem_of_In, List.filter_In in Hs as [Hs Hobj].
      apply list_elem_of_In in Hs.
      destruct (values s) as [| |l] eqn:Ev; try done. by exists s, l.
    + exists les. rewrite Hles. do 3 f_equal.
      apply list_fmap_ext. intros i s Hs.
      destruct (bool_decide _) eqn:B; [done|].
      apply bool_decide_eq_false in B.
      unfold encode_series. destruct (values s) eqn:Ev; try done.
      exfalso. apply B, list_elem_of_fmap. exists s. split; [done|].
      apply list_elem_of_In, List.filter_In. split; [|by rewrite Ev].
      by eapply list_elem_of_In, list_elem_of_lookup_2.
  - intros s l Hs Hl.
    destruct (classes_sorted (astype_str l)) as (Hsorted & Hnodup & Hmem).
    split_and!; try done.
    + unfold encode_column. rewrite (getitem_elem _ _ HX Hs).
      destruct s as [ns vs]. simpl in *. by subst vs.
    + unfold encode_series. by rewrite Hl.
    + intros i v Hi.
      exists (Sklearn.LabelEncoder.position v
                (Sklearn.LabelEncoder.classes_ (astype_str l))).
      split.
      * unfold Sklearn.LabelEncoder.fit_transform, Sklearn.LabelEncoder.transform.
        by rewrite list_lookup_fmap, Hi.
      * apply position_lookup, Hmem. by eapply list_elem_of_lookup_2.
Qed.

Lemma label_encoder_sorted_codes_witness :
  NoDup (columns Examples.no_target_df) /\
  encode_column Examples.no_target_df "city" =
    Ok (setitem Examples.no_target_df "city" (Ints [1; 0]%Z), ["a"; "b"]).
Proof.
  assert (NoDup (columns Examples.no_target_df)) as H.
  { apply (bool_decide_unpack _). by vm_compute. }
  split; [exact H|].
  refine (proj1 (proj2 (label_encoder_sorted_codes Examples.no_target_df H)
                   {| name := "city"; values := Objects [Some "b"; Some "a"] |}
                   [Some "b"; Some "a"] _ eq_refl)).
  vm_compute. repeat constructor.
Defined.

(** C3, as it is stated, fails: in the column [b, a] the value seen first
    gets code 1, not 0. *)
Lemma encoder_codes_first_seen_fails : ~ encoder_codes_first_seen.
Proof.
  intros H.
  destruct (H Examples.no_target_df "city" "city" [Some "b"; Some "a"] eq_refl)
    as (cls & Hcls).
  vm_compute in Hcls. discriminate Hcls.
Qed.

(** An instance of the order of first occurrence, for comparison. *)
Example first_seen_codes_example :
  first_seen_codes ["b"; "a"; "b"; "c"] = [0; 1; 0; 2]%Z /\
  Sklearn.LabelEncoder.fit_transform ["b"; "a"; "b"; "c"] = [1; 0; 1; 2]%Z.
Proof. split; reflexivity. Qed.

(** ** Averaging a row together with its own mean *)

Lemma float_eqb_refl (x : float64) : Float.eqb x x = true.
Proof.
  destruct x as [|a|q]; simpl; [done|by destruct a|].
  apply Qeq_bool_iff. reflexivity.
Qed.

Lemma Qsign_of_nat_S (k : nat) : Qsign (inject_Z (Z.of_nat (S k))) = Lt.
Proof.
  unfold Qsign, Qcompare. by simpl.
Qed.

(** The mean of a row does not move when the mean itself is added to the
    row: a column that holds the mean of the others, computed by an
    earlier run from the same columns, is left as it is. *)
Lemma mean_skipna_append_mean (r : list float64) :
  Float.eqb (mean_skipna (r ++ [mean_skipna r])) (mean_skipna r) = true.
Proof.
  unfold mean_skipna at 1 3. rewrite List.filter_app.
  set (P := List.filter (fun x => negb (isnan x)) r).
  assert (mean_skipna r =
          match P with [] => NaN | _ => div (sum_floats P) (of_nat (length P)) end)
    as -> by done.
  destruct P as [|x P'] eqn:HP; [done|].
  set (n := length (x :: P')). set (s := sum_floats (x :: P')).
  assert (forall m, sum_floats ((x :: P') ++ [m]) = add s m) as Hsum.
  { intros m. unfold sum_floats, s. by rewrite foldl_app. }
  assert (forall m, length ((x :: P') ++ [m]) = S n) as Hlen.
  { intros m. rewrite length_app. simpl. unfold n. simpl. lia. }
  destruct s as [|a|q] eqn:Hs.
  - simpl. rewrite app_nil_r. fold s. by rewrite Hs.
  - assert (div (Inf a) (of_nat n) = Inf a) as ->.
    { unfold div, of_nat. assert (Qle_bool 0 (inject_Z (Z.of_nat n)) = true) as ->; [|done].
      apply Qle_bool_iff. unfold Qle. simpl. lia. }
    cbn [List.filter isnan negb].
    assert (forall m, (x :: P') ++ [m] = x :: (P' ++ [m])) as Happ by done.
    rewrite Happ, <- Happ, Hsum, Hlen. simpl. rewrite Bool.eqb_reflx.
    by destruct a.
  - assert (div (Fin q) (of_nat n) = Fin (q / inject_Z (Z.of_nat n))) as ->.
    { unfold div, of_nat, n. simpl length. by rewrite Qsign_of_nat_S. }
    cbn [List.filter isnan negb].
    assert (forall m, (x :: P') ++ [m] = x :: (P' ++ [m])) as Happ by done.
    rewrite Happ, <- Happ, Hsum, Hlen. unfold div, of_nat, add.
    rewrite Qsign_of_nat_S. simpl. apply Qeq_bool_iff.
    assert (inject_Z (Z.of_nat (S n)) == inject_Z (Z.of_nat n) + 1)%Q as ->.
    { by rewrite Nat2Z.inj_succ, <- Z.add_1_r, inject_Z_plus. }
    assert (~ inject_Z (Z.of_nat n) == 0)%Q as Hn.
    { unfold n, Qeq. simpl. lia. }
    assert (~ inject_Z (Z.of_nat n) + 1 == 0)%Q as Hn1.
    { assert (0 <= inject_Z (Z.of_nat n))%Q by (unfold Qle; simpl; lia). lra. }
    field. by split.
Qed.

(** On a dataset without the column, the second run finds the mean of the
    first run among the columns it averages and arrives at the same
    numbers. *)
Example fresh_dataset_reprocessed :
  exists once twice,
    processed_of Examples.fresh_df = Some once /\
    processed_of once = Some twice /\
    avg_payment_delays_of once = [Fin (3 # 2); Fin 4] /\
    payment_delay_cols once =
      ["payment_delay_1"; "payment_delay_2"; "avg_payment_delays"] /\
    same_floats (avg_payment_delays_of once) (avg_payment_delays_of twice) = true.
Proof.
  eexists _, _. split_and!.
  - vm_compute. reflexivity.
  - vm_compute. reflexivity.
  - reflexivity.
  - reflexivity.
  - reflexivity.
Qed.

(** * Further properties *)

(** ** The analyze stage as a function of the frame it loads *)

Lemma derive_phase_pure (df : DataFrame) (w : world) :
  derive_phase df w =
  ((apply_derivations df (derivations df)).1,
   after w (fs w) (fe <$> (apply_derivations df (derivations df)).2)).
Proof.
  unfold derive_phase, derivations.
  rewrite bind_run, derive_debt_to_income_run.
  destruct (Py.mem "debt_payments" _ && _);
    [destruct (ratio df "debt_payments" "income") as [d1|e1]|]; [|done|].
  all: rewrite bind_run, derive_credit_utilization_run.
  all: destruct (Py.mem "credit_used" _ && _);
    [destruct (ratio df "credit_used" "credit_limit") as [d2|e2]|].
  all: try rewrite derive_avg_payment_delays_run.
  all: try (destruct (payment_delay_cols df) as [|c cs] eqn:Hpd;
    [|destruct (mean_axis1 df (c :: cs)) as [d3|e3]]).
  all: rewrite ?after_after, ?fs_after; reflexivity.
Qed.

Lemma default_rate_pure (df : DataFrame) (w : world) :
  if_truthy (find_target (columns df))
    (fun target_col =>
       y ← call (column df target_col);
       m ← call (series_mean y);
       mret (mul m (Fin 100)))
    (mret (Fin 0)) w = (default_rate_of df, w).
Proof.
  unfold default_rate_of, if_truthy.
  destruct (find_target _) as [t|]; [|done].
  destruct (String.eqb t ""); [done|].
  rewrite bind_call. destruct (column df t) as [y|e]; [|done].
  rewrite bind_call. by destruct (series_mean y).
Qed.

(** The whole stage: what it returns, prints and writes is fixed by the
    outcome of loading the file, the frame loaded and whether the upload
    directory is there. *)
Lemma analyze_data_pure (file_path project_id : string) (w : world) :
  analyze_data file_path project_id w =
  match (load_dataset file_path w).1 with
  | Ok df => analyze_loaded project_id df w
  | Raise e => analyze_failed w [] e
  end.
Proof.
  unfold analyze_data, try_except, analyze_loaded, analyze_failed.
  rewrite analyze_body_phases, bind_run.
  pose proof (load_dataset_world file_path w) as Hw.
  destruct (load_dataset file_path w) as [[df|e] w0]; simpl in Hw; subst w0;
    [|done].
  cbn [fst]. rewrite bind_run, derive_phase_pure.
  destruct (apply_derivations df (derivations df)) as [[dfp|e] l]; cbn [fst snd].
  2:{ by rewrite handler_run. }
  rewrite bind_run, default_rate_pure.
  destruct (default_rate_of df) as [rate|e].
  2:{ by rewrite handler_run. }
  rewrite bind_run, to_csv_run. simpl uploads_dir.
  destruct (uploads_dir w).
  2:{ by rewrite handler_run. }
  rewrite after_after, fs_after, app_nil_r, bind_run, log_output_refused.
  unfold after. rewrite after_with_after_with, handler_run_with by done.
  unfold summary_refused. simpl. by rewrite app_nil_r, <- !app_assoc.
Qed.

Lemma load_dataset_lookup (file_path : string) (w1 w2 : world) :
  fs w1 !! file_path = fs w2 !! file_path ->
  (load_dataset file_path w1).1 = (load_dataset file_path w2).1.
Proof.
  intros H. unfold load_dataset.
  destruct (Py.endswith file_path ".csv");
    [unfold read_csv; rewrite H; by repeat case_match|].
  destruct (_ || _); [unfold read_excel; rewrite H; by repeat case_match|done].
Qed.

Lemma derivations_names (df : DataFrame) : (derivations df).*1 = applicable df.
Proof.
  unfold derivations, applicable.
  destruct (_ && _), (_ && _), (payment_delay_cols df); done.
Qed.

Lemma apply_derivations_done (ds : list (string * result data)) :
  forall dfp, (apply_derivations dfp ds).2 `prefix_of` ds.*1.
Proof.
  induction ds as [|[n [d|e]] ds IH]; intros dfp; simpl.
  - done.
  - specialize (IH (setitem dfp n d)).
    destruct (apply_derivations (setitem dfp n d) ds) as [r l]. simpl in *.
    by apply prefix_cons.
  - apply prefix_nil.
Qed.

Lemma apply_derivations_ok (ds : list (string * result data)) :
  forall dfp dfp',
    (apply_derivations dfp ds).1 = Ok dfp' ->
    (apply_derivations dfp ds).2 = ds.*1.
Proof.
  induction ds as [|[n [d|e]] ds IH]; intros dfp dfp'; simpl; [done| |done].
  specialize (IH (setitem dfp n d) dfp').
  destruct (apply_derivations (setitem dfp n d) ds) as [r l]. simpl in *.
  intros H. by rewrite IH.
Qed.

(** X1. A path that ends in none of [.csv], [.xlsx], [.xls] (the test
    is case-sensitive) is never opened: the stage prints the one [error]
    record [Unsupported file format], returns [(None, None)] and writes
    nothing. *)
Theorem unsupported_format (file_path project_id : string) (w : world) :
  Py.endswith file_path ".csv" = false ->
  Py.endswith file_path ".xlsx" = false ->
  Py.endswith file_path ".xls" = false ->
  analyze_data file_path project_id w =
  (Ok (None, None),
   after w (fs w) [error "Error analyzing data: Unsupported file format"]).
Proof.
  intros H1 H2 H3. rewrite analyze_data_pure.
  unfold load_dataset. by rewrite H1, H2, H3.
Qed.

Lemma unsupported_format_witness :
  analyze_data "DATA.CSV" "p1" (Examples.world_with "DATA.CSV" Examples.scenario_df) =
  (Ok (None, None),
   after (Examples.world_with "DATA.CSV" Examples.scenario_df)
     (fs (Examples.world_with "DATA.CSV" Examples.scenario_df))
     [error "Error analyzing data: Unsupported file format"]).
Proof. apply unsupported_format; reflexivity. Defined.

(** X2. A run of the analyze stage writes at most one file, the
    processed file of the project. When it returns a frame, that file was
    written, it holds exactly the returned frame, and the output ends
    with the [dataset_summary] record; otherwise the stage returns
    [(None, None)] and the output ends with an [error] record. *)
Theorem analyze_return_and_file (file_path project_id : string) (w : world) :
  (fs (analyze_data file_path project_id w).2 = fs w \/
   exists dfp,
     fs (analyze_data file_path project_id w).2 =
     <[processed_path project_id := CsvFile dfp]> (fs w)) /\
  (((analyze_data file_path project_id w).1 = Ok (None, None) /\
    exists m,
      last (stdout (analyze_data file_path project_id w).2) = Some (error m))
   \/
   (exists dfp t d,
      (analyze_data file_path project_id w).1 = Ok (Some dfp, t) /\
      fs (analyze_data file_path project_id w).2 =
        <[processed_path project_id := CsvFile dfp]> (fs w) /\
      last (stdout (analyze_data file_path project_id w).2) =
        Some (dataset_summary d))).
Proof.
  destruct (analyze_data_cases file_path project_id w)
    as [(df & dfp & rate & _ & _ & _ & ->)|(l & e & _ & ->)]; cbn [fst snd].
  - split; [right; by exists dfp|].
    left. split; [done|]. eexists. simpl. by rewrite app_assoc, last_snoc.
  - split; [by left|].
    left. split; [done|]. eexists. simpl. by rewrite app_assoc, last_snoc.
Qed.

(** X3. A [feature_engineering] record is printed only for a derivation
    whose source columns the loaded frame has under their exact names:
    [debt_payments] and [income], [credit_used] and [credit_limit], or
    some column whose lower-case name contains [payment_delay]. *)
Theorem feature_engineering_needs_sources (file_path project_id : string)
    (w : world) (feature status : string) :
  feature_engineering feature status ∈
    printed w (analyze_data file_path project_id w).2 ->
  exists df,
    (load_dataset file_path w).1 = Ok df /\
    status = "completed" /\
    ((feature = "debt_to_income_ratio" /\
      "debt_payments" ∈ columns df /\ "income" ∈ columns df) \/
     (feature = "credit_utilization_rate" /\
      "credit_used" ∈ columns df /\ "credit_limit" ∈ columns df) \/
     (feature = "avg_payment_delays" /\
      exists col, col ∈ columns df /\
                  Py.contains "payment_delay" (Py.lower col) = true)).
Proof.
  rewrite analyze_data_pure.
  destruct (load_dataset file_path w).1 as [df|e] eqn:Hload.
  2:{ unfold analyze_failed. cbn [snd]. rewrite printed_after. simpl.
      intros H. apply list_elem_of_singleton in H. done. }
  assert (forall done last,
            last ≠ feature_engineering feature status ->
            done `prefix_of` applicable df ->
            feature_engineering feature status ∈ (fe <$> done) ++ [last] ->
            status = "completed" /\ feature ∈ applicable df) as Hin.
  { intros done lst Hlast [k Hk] [H|H]%elem_of_app.
    - apply list_elem_of_fmap in H as (f & [= -> ->] & Hf).
      split; [done|]. rewrite Hk. apply elem_of_app. by left.
    - apply list_elem_of_singleton in H. congruence. }
  intros H. exists df. split; [done|].
  assert (status = "completed" /\ feature ∈ applicable df) as [-> Happ].
  { revert H. unfold analyze_loaded, analyze_failed.
    pose proof (apply_derivations_done (derivations df) df) as Hpre.
    rewrite derivations_names in Hpre.
    destruct (apply_derivations df (derivations df)) as [[dfp|e] l];
      cbn [snd] in Hpre.
    - destruct (default_rate_of df); [destruct (uploads_dir w)|];
        cbn [snd]; rewrite ?printed_after, ?printed_after_with; by apply Hin.
    - cbn [snd]. rewrite printed_after. by apply Hin. }
  split; [done|]. unfold applicable in Happ.
  apply elem_of_app in Happ as [Happ|Happ];
    [|apply elem_of_app in Happ as [Happ|Happ]].
  - destruct (Py.mem "debt_payments" _ && _) eqn:E;
      [|by apply elem_of_nil in Happ].
    apply list_elem_of_singleton in Happ as ->.
    apply andb_true_iff in E as [E1 E2]. left.
    by rewrite <- !mem_true.
  - destruct (Py.mem "credit_used" _ && _) eqn:E;
      [|by apply elem_of_nil in Happ].
    apply list_elem_of_singleton in Happ as ->.
    apply andb_true_iff in E as [E1 E2]. right. left.
    by rewrite <- !mem_true.
  - destruct (payment_delay_cols df) as [|c cs] eqn:E;
      [by apply elem_of_nil in Happ|].
    apply list_elem_of_singleton in Happ as ->. right. right.
    split; [done|]. exists c.
    assert (c ∈ payment_delay_cols df) as Hc by (rewrite E; by left).
    unfold payment_delay_cols in Hc.
    apply list_elem_of_In, List.filter_In in Hc as [Hc1 Hc2].
    split; [by apply list_elem_of_In|done].
Qed.

Lemma feature_engineering_needs_sources_witness :
  exists df,
    (load_dataset "data.csv"
       (Examples.world_with "data.csv" Examples.scenario_df)).1 = Ok df /\
    "debt_payments" ∈ columns df /\ "income" ∈ columns df.
Proof.
  destruct (feature_engineering_needs_sources "data.csv" "p1"
              (Examples.world_with "data.csv" Examples.scenario_df)
              "debt_to_income_ratio" "completed")
    as (df & Hload & _ & [(_ & H1 & H2)|[(H & _)|(H & _)]]).
  - vm_compute. repeat constructor.
  - by exists df.
  - discriminate H.
  - discriminate H.
Defined.

Lemma getitem_setitem_ne (l : list Series) (n c : string) (d : data) :
  c ≠ n -> getitem (setitem_series l n d) c = getitem l c.
Proof.
  intros Hne. induction l as [|s l IH]; simpl.
  - destruct (String.eqb n c) eqn:E; [|done].
    apply String.eqb_eq in E. congruence.
  - destruct (String.eqb (name s) n) eqn:E; simpl.
    + apply String.eqb_eq in E. subst n.
      destruct (String.eqb (name s) c) eqn:E2; [|done].
      apply String.eqb_eq in E2. congruence.
    + by destruct (String.eqb (name s) c).
Qed.

Lemma getitem_setitem_eq (l : list Series) (n : string) (d : data) :
  getitem (setitem_series l n d) n = Some {| name := n; values := d |}.
Proof.
  induction l as [|s l IH]; simpl.
  - by rewrite String.eqb_refl.
  - destruct (String.eqb (name s) n) eqn:E; simpl.
    + by rewrite String.eqb_refl.
    + by rewrite E.
Qed.

Lemma apply_derivations_frame (ds : list (string * result data)) :
  forall dfp dfp',
    (apply_derivations dfp ds).1 = Ok dfp' ->
    index dfp' = index dfp /\
    forall c, c ∉ ds.*1 -> getitem (series dfp') c = getitem (series dfp) c.
Proof.
  induction ds as [|[n [d|e]] ds IH]; intros dfp dfp'; simpl.
  - by intros [= ->].
  - specialize (IH (setitem dfp n d) dfp').
    destruct (apply_derivations (setitem dfp n d) ds) as [r l]. simpl in *.
    intros H. destruct (IH H) as [Hi Hc]. split; [done|].
    intros c Hn. rewrite Hc.
    + apply getitem_setitem_ne. intros ->. apply Hn. by left.
    + intros H'. apply Hn. by right.
  - done.
Qed.

Lemma NoDup_applicable (df : DataFrame) : NoDup (applicable df).
Proof.
  eapply sublist_NoDup; [|apply applicable_sublist].
  apply (bool_decide_unpack _). by vm_compute.
Qed.

Lemma ratio_ok (df : DataFrame) (a b : string) (d : data) :
  ratio df a b = Ok d ->
  exists sa sb xs ys,
    getitem (series df) a = Some sa /\ to_floats (values sa) = Some xs /\
    getitem (series df) b = Some sb /\ to_floats (values sb) = Some ys /\
    d = Floats (zip_with div xs ys).
Proof.
  unfold ratio, column, truediv.
  destruct (getitem (series df) a) as [sa|]; [|done].
  destruct (getitem (series df) b) as [sb|]; [|done].
  simpl.
  destruct (to_floats (values sa)) as [xs|] eqn:Ea; [|done].
  destruct (to_floats (values sb)) as [ys|] eqn:Eb; [|done].
  intros [= <-]. by exists sa, sb, xs, ys.
Qed.

(** ** Shapes and outcomes of the analyze stage *)

Lemma getitem_some (l : list Series) (c : string) (s : Series) :
  getitem l c = Some s -> s ∈ l /\ name s = c.
Proof.
  induction l as [|s' l IH]; [done|]. simpl.
  destruct (String.eqb (name s') c) eqn:E.
  - intros [= ->]. apply String.eqb_eq in E. split; [by left|done].
  - intros [H1 H2]%IH. split; [by right|done].
Qed.

Lemma getitem_mem (df : DataFrame) (c : string) :
  c ∈ columns df -> exists s, getitem (series df) c = Some s.
Proof.
  unfold columns. induction (series df) as [|s' l IH]; [by intros ?%elem_of_nil|].
  rewrite fmap_cons. simpl. destruct (String.eqb (name s') c) eqn:E; [by eexists|].
  apply String.eqb_neq in E. intros [?|?]%elem_of_cons; [done|by apply IH].
Qed.

Lemma to_floats_length (d : data) (xs : list float64) (n : nat) :
  to_floats d = Some xs ->
  match d with
  | Ints l => length l = n
  | Floats l => length l = n
  | Objects l => length l = n
  end ->
  length xs = n.
Proof.
  destruct d as [l|l|l]; simpl; intros [= <-]; [|done].
  by rewrite length_fmap.
Qed.

Lemma well_formed_setitem (dfp : DataFrame) (n : string) (d : data) :
  well_formed dfp ->
  match d with
  | Ints l => length l = index dfp
  | Floats l => length l = index dfp
  | Objects l => length l = index dfp
  end ->
  well_formed (setitem dfp n d).
Proof.
  unfold well_formed, setitem. simpl. intros Hwf Hd.
  induction (series dfp) as [|s l IH]; simpl.
  - by repeat constructor.
  - inversion_clear Hwf. destruct (String.eqb (name s) n).
    + by constructor.
    + constructor; [done|by apply IH].
Qed.

Lemma apply_derivations_well_formed (ds : list (string * result data)) (n : nat) :
  forall dfp dfp',
    index dfp = n ->
    (forall f d, (f, Ok d) ∈ ds ->
       match d with
       | Ints l => length l = n
       | Floats l => length l = n
       | Objects l => length l = n
       end) ->
    well_formed dfp ->
    (apply_derivations dfp ds).1 = Ok dfp' ->
    well_formed dfp'.
Proof.
  induction ds as [|[f [d|e]] ds IH]; intros dfp dfp' Hn Hds Hwf; simpl.
  - by intros [= <-].
  - specialize (IH (setitem dfp f d) dfp' Hn).
    destruct (apply_derivations (setitem dfp f d) ds) as [r l]. simpl in *.
    intros H. apply IH; [| |done].
    + intros f' d' Hin. apply (Hds f'). by right.
    + apply well_formed_setitem; [done|]. rewrite Hn. apply (Hds f). by left.
  - done.
Qed.

Lemma apply_derivations_succeeds (ds : list (string * result data)) :
  forall dfp,
    (forall f r, (f, r) ∈ ds -> exists d, r = Ok d) ->
    exists dfp', (apply_derivations dfp ds).1 = Ok dfp'.
Proof.
  induction ds as [|[f r] ds IH]; intros dfp Hds; simpl; [by eexists|].
  destruct (Hds f r) as (d & ->); [by left|].
  destruct (IH (setitem dfp f d)) as (dfp' & H).
  { intros f' r' Hin. apply (Hds f'). by right. }
  exists dfp'. by destruct (apply_derivations (setitem dfp f d) ds).
Qed.

Lemma numeric_to_floats (df : DataFrame) (s : Series) :
  all_numeric df -> s ∈ series df -> exists xs, to_floats (values s) = Some xs.
Proof.
  unfold all_numeric. rewrite Forall_forall. intros H Hs.
  specialize (H s Hs). destruct (values s) as [l|l|l]; [by eexists..|done].
Qed.

Lemma numeric_column (df : DataFrame) (c : string) :
  all_numeric df -> c ∈ columns df ->
  exists d xs, column df c = Ok d /\ to_floats d = Some xs.
Proof.
  intros Hnum (s & Hs)%getitem_mem. unfold column. rewrite Hs.
  destruct (getitem_some _ _ _ Hs) as [Hin _].
  destruct (numeric_to_floats df s Hnum Hin) as (xs & Hxs). by exists (values s), xs.
Qed.

Lemma numeric_ratio (df : DataFrame) (a b : string) :
  all_numeric df -> a ∈ columns df -> b ∈ columns df ->
  exists d, ratio df a b = Ok d.
Proof.
  intros Hnum (da & xs & Ha & Hxs)%(numeric_column df a Hnum)
              (db & ys & Hb & Hys)%(numeric_column df b Hnum).
  unfold ratio, truediv. rewrite Ha, Hb, Hxs, Hys. by eexists.
Qed.

Lemma numeric_all_floats (df : DataFrame) (l : list Series) :
  all_numeric df -> Forall (fun s => s ∈ series df) l ->
  exists cs, all_floats l = Some cs.
Proof.
  intros Hnum. induction 1 as [|s l Hs _ (cs & IH)]; simpl; [by eexists|].
  destruct (numeric_to_floats df s Hnum Hs) as (xs & ->). rewrite IH. by eexists.
Qed.

Lemma select_elems (df : DataFrame) (cols : list string) :
  Forall (fun s => s ∈ series df) (select df cols).
Proof.
  unfold select. apply Forall_forall. intros s Hs.
  apply list_elem_of_omap in Hs as (c & _ & Hc).
  by apply getitem_some in Hc as [? _].
Qed.

(** On a frame without text columns neither a derivation nor the default
    rate raises. *)
Lemma numeric_computable (df : DataFrame) : all_numeric df -> computable df.
Proof.
  intros Hnum. split.
  - intros f r. unfold derivations. rewrite !elem_of_app. intros [H|[H|H]].
    + destruct (Py.mem "debt_payments" _ && _) eqn:E;
        [|by apply elem_of_nil in H].
      apply list_elem_of_singleton in H as [= -> ->].
      apply andb_true_iff in E as [E1%mem_true E2%mem_true].
      by apply numeric_ratio.
    + destruct (Py.mem "credit_used" _ && _) eqn:E;
        [|by apply elem_of_nil in H].
      apply list_elem_of_singleton in H as [= -> ->].
      apply andb_true_iff in E as [E1%mem_true E2%mem_true].
      by apply numeric_ratio.
    + destruct (payment_delay_cols df) as [|c cs] eqn:E;
        [by apply elem_of_nil in H|].
      apply list_elem_of_singleton in H as [= -> ->].
      unfold mean_axis1.
      destruct (numeric_all_floats df (select df (c :: cs)) Hnum
                  (select_elems df (c :: cs))) as (fl & ->).
      by eexists.
  - unfold default_rate_of. rewrite find_target_truthy.
    destruct (find_target (columns df)) as [t|] eqn:Ht; [|by eexists].
    apply find_target_elem in Ht.
    destruct (numeric_column df t Hnum Ht) as (y & xs & -> & Hxs).
    unfold series_mean. rewrite Hxs. by eexists.
Qed.

Lemma apply_derivations_columns (ds : list (string * result data)) :
  forall dfp dfp',
    (apply_derivations dfp ds).1 = Ok dfp' ->
    columns dfp' = foldl add_column (columns dfp) ds.*1.
Proof.
  induction ds as [|[f [d|e]] ds IH]; intros dfp dfp'; simpl.
  - by intros [= <-].
  - specialize (IH (setitem dfp f d) dfp').
    destruct (apply_derivations (setitem dfp f d) ds) as [r l]. simpl in *.
    intros H. by rewrite (IH H), columns_setitem.
  - done.
Qed.

(** When the frame is loaded, nothing raises on it and the upload
    directory is there, the stage writes the processed frame, hands the
    summary of the loaded frame to [log_output] and, as that raises, ends
    with the [error] record. *)
Lemma analyze_data_saved (file_path project_id : string) (w : world)
    (df : DataFrame) :
  (load_dataset file_path w).1 = Ok df ->
  computable df ->
  uploads_dir w = true ->
  exists dfp rate,
    (apply_derivations df (derivations df)).1 = Ok dfp /\
    default_rate_of df = Ok rate /\
    columns dfp = foldl add_column (columns df) (applicable df) /\
    analyze_data file_path project_id w =
      (Ok (None, None),
       after_with w (<[processed_path project_id := CsvFile dfp]> (fs w))
         ((fe <$> applicable df) ++ [summary_refused])
         ((fe <$> applicable df) ++
          [dataset_summary (summary_of df rate); summary_refused])).
Proof.
  intros Hload [Hds (rate & Hrate)] Hup.
  destruct (apply_derivations_succeeds (derivations df) df Hds) as (dfp & Hdfp).
  pose proof (apply_derivations_ok (derivations df) df dfp Hdfp) as Hdone.
  pose proof (apply_derivations_columns (derivations df) df dfp Hdfp) as Hcols.
  rewrite derivations_names in Hdone, Hcols.
  exists dfp, rate. split_and!; [done..|].
  rewrite analyze_data_pure, Hload. unfold analyze_loaded.
  destruct (apply_derivations df (derivations df)) as [r l].
  cbn [fst snd] in *. subst r l. by rewrite Hrate, Hup.
Qed.

(** X7. On a frame without text columns, once the file is loaded and the
    upload directory is there, no derivation fails: zero divisors and
    missing cells give infinities and NaN, not exceptions. Every
    derivation whose source columns the frame has prints its record, the
    processed file is written, and the frame in it has the loaded columns
    followed by the derived ones that were not there before. *)
Theorem numeric_dataset_never_fails (file_path project_id : string)
    (w : world) (df : DataFrame) :
  (load_dataset file_path w).1 = Ok df ->
  all_numeric df ->
  uploads_dir w = true ->
  exists dfp final,
    printed w (analyze_data file_path project_id w).2 =
      (fe <$> applicable df) ++ [final] /\
    fs (analyze_data file_path project_id w).2 =
      <[processed_path project_id := CsvFile dfp]> (fs w) /\
    columns dfp = foldl add_column (columns df) (applicable df).
Proof.
  intros Hload Hnum Hup.
  destruct (analyze_data_saved file_path project_id w df Hload
              (numeric_computable df Hnum) Hup)
    as (dfp & rate & _ & _ & Hcols & ->).
  exists dfp, summary_refused. cbn [snd].
  by rewrite printed_after_with.
Qed.

Lemma numeric_dataset_never_fails_witness :
  exists dfp final,
    printed (Examples.world_with "data.csv" Examples.scenario_df)
      (analyze_data "data.csv" "p1"
         (Examples.world_with "data.csv" Examples.scenario_df)).2 =
      (fe <$> applicable Examples.scenario_df) ++ [final] /\
    fs (analyze_data "data.csv" "p1"
          (Examples.world_with "data.csv" Examples.scenario_df)).2 =
      <[processed_path "p1" := CsvFile dfp]>
        (fs (Examples.world_with "data.csv" Examples.scenario_df)) /\
    columns dfp =
      foldl add_column (columns Examples.scenario_df)
        (applicable Examples.scenario_df).
Proof.
  apply (numeric_dataset_never_fails "data.csv" "p1"
           (Examples.world_with "data.csv" Examples.scenario_df)
           Examples.scenario_df).
  - vm_compute. reflexivity.
  - by repeat constructor.
  - reflexivity.
Defined.

(** ** Bounds on completeness *)

Lemma isnull_sum_le (d : data) (n : nat) :
  match d with
  | Ints l => length l = n
  | Floats l => length l = n
  | Objects l => length l = n
  end ->
  (isnull_sum d <= n)%nat.
Proof.
  destruct d as [l|l|l]; simpl; intros <-; [lia|..];
    apply List.filter_length_le.
Qed.

Lemma isnull_sum_sum_le (df : DataFrame) :
  well_formed df ->
  (isnull_sum_sum df <= len df * length (columns df))%nat.
Proof.
  unfold well_formed, isnull_sum_sum, columns, len.
  generalize (index df). intros n.
  induction 1 as [|s l Hs _ IH]; simpl; [lia|].
  apply isnull_sum_le in Hs. rewrite ?length_fmap in *. nia.
Qed.

Lemma ratio_bounds (m c : nat) :
  (0 < c)%nat -> (m <= c)%nat ->
  (0 <= inject_Z (Z.of_nat m) / inject_Z (Z.of_nat c) <= 1)%Q.
Proof.
  intros Hc Hm.
  assert (0 < inject_Z (Z.of_nat c))%Q as Hpos.
  { unfold Qlt. simpl. lia. }
  split.
  - apply Qle_shift_div_l; [done|]. unfold Qle. simpl. lia.
  - apply Qle_shift_div_r; [done|]. unfold Qle. simpl. lia.
Qed.

(** X10. For a frame with one cell per row in every column and at least
    one cell, the completeness the analyze stage computes is a number
    between 0 and 100, and it is 100, hence [Excellent], when no cell is
    missing. *)
Theorem completeness_bounds (df : DataFrame) :
  well_formed df ->
  (0 < len df * length (columns df))%nat ->
  exists q,
    completeness (isnull_sum_sum df) (len df) (length (columns df)) = Fin q /\
    (0 <= q <= 100)%Q /\
    (isnull_sum_sum df = 0%nat ->
     (q == 100)%Q /\ data_quality (Fin q) = "Excellent").
Proof.
  intros Hwf Hpos. rewrite completeness_formula by done.
  eexists. split; [reflexivity|].
  pose proof (ratio_bounds _ _ Hpos (isnull_sum_sum_le df Hwf)) as [H0 H1].
  split; [split; lra|].
  intros Hz. rewrite Hz in *.
  assert (inject_Z (Z.of_nat 0) / inject_Z (Z.of_nat (len df * length (columns df)))
          == 0)%Q as Hq.
  { unfold Qdiv. simpl. apply Qmult_0_l. }
  assert ((1 - inject_Z (Z.of_nat 0) /
               inject_Z (Z.of_nat (len df * length (columns df)))) * 100 == 100)%Q
    as Hq' by (rewrite Hq; reflexivity).
  split; [done|].
  apply (proj1 quality_thresholds). rewrite Hq'. reflexivity.
Qed.

Lemma completeness_bounds_witness :
  exists q,
    completeness (isnull_sum_sum Examples.fresh_df) (len Examples.fresh_df)
      (length (columns Examples.fresh_df)) = Fin q /\
    (0 <= q <= 100)%Q.
Proof.
  destruct (completeness_bounds Examples.fresh_df) as (q & Hq & Hb & _).
  - by repeat constructor.
  - simpl. lia.
  - by exists q.
Defined.

Lemma quality_rank_mono (q1 q2 : Q) :
  (q2 <= q1)%Q ->
  (quality_rank (data_quality (Fin q2)) <= quality_rank (data_quality (Fin q1)))%nat.
Proof.
  intros Hle. unfold data_quality.
  destruct (gtb (Fin q1) (Fin 95)) eqn:A1;
    [apply gtb_Fin in A1|apply gtb_Fin_false in A1].
  all: destruct (gtb (Fin q1) (Fin 85)) eqn:A2;
    [apply gtb_Fin in A2|apply gtb_Fin_false in A2].
  all: destruct (gtb (Fin q1) (Fin 70)) eqn:A3;
    [apply gtb_Fin in A3|apply gtb_Fin_false in A3].
  all: destruct (gtb (Fin q2) (Fin 95)) eqn:B1;
    [apply gtb_Fin in B1|apply gtb_Fin_false in B1].
  all: destruct (gtb (Fin q2) (Fin 85)) eqn:B2;
    [apply gtb_Fin in B2|apply gtb_Fin_false in B2].
  all: destruct (gtb (Fin q2) (Fin 70)) eqn:B3;
    [apply gtb_Fin in B3|apply gtb_Fin_false in B3].
  all: try (exfalso; lra).
  all: vm_compute; lia.
Qed.

(** X11. With the number of cells fixed, more missing cells never give a
    better quality label. *)
Theorem more_missing_never_better (m1 m2 t f : nat) :
  (0 < t * f)%nat ->
  (m1 <= m2)%nat ->
  (quality_rank (data_quality (completeness m2 t f)) <=
   quality_rank (data_quality (completeness m1 t f)))%nat.
Proof.
  intros Hpos Hle. rewrite !completeness_formula by done.
  apply quality_rank_mono.
  assert (0 < inject_Z (Z.of_nat (t * f)))%Q as Hc.
  { unfold Qlt. simpl. lia. }
  assert (inject_Z (Z.of_nat m1) / inject_Z (Z.of_nat (t * f)) <=
          inject_Z (Z.of_nat m2) / inject_Z (Z.of_nat (t * f)))%Q as Hdiv.
  { unfold Qdiv. apply Qmult_le_compat_r.
    - unfold Qle. simpl. lia.
    - apply Qlt_le_weak, Qinv_lt_0_compat, Hc. }
  lra.
Qed.

Lemma more_missing_never_better_witness :
  (quality_rank (data_quality (completeness 20 10 10)) <=
   quality_rank (data_quality (completeness 4 10 10)))%nat.
Proof. apply more_missing_never_better; simpl; lia. Defined.

(** ** The command line *)

(** X14. [main] returns normally for every argument vector. With fewer
    than three arguments after the script name it prints the usage line,
    and with a command other than [analyze] and [train] (the comparison is
    exact) it prints the unknown-command line; in both cases no record is
    printed and nothing else changes. Otherwise it prints no plain line
    and runs the stage named, on the second and third argument; further
    arguments are ignored. No run removes a record from the stream. *)
Theorem main_outcomes (sk : Sklearn.api) (argv : list string) (w : world) :
  exists lines w',
    Cli.main sk argv w = (Ok lines, w') /\
    stdout w `prefix_of` stdout w' /\
    ((length argv < 4 /\ lines = [Cli.usage] /\ w' = w) \/
     (4 <= length argv /\ nth 1 argv "" = "analyze" /\ lines = [] /\
      w' = (analyze_data (nth 2 argv "") (nth 3 argv "") w).2) \/
     (4 <= length argv /\ nth 1 argv "" = "train" /\ lines = [] /\
      w' = (train_models sk (nth 2 argv "") (nth 3 argv "") w).2) \/
     (4 <= length argv /\ nth 1 argv "" ≠ "analyze" /\ nth 1 argv "" ≠ "train" /\
      lines = ["Unknown command: " +:+ nth 1 argv ""] /\ w' = w)).
Proof.
  unfold Cli.main.
  destruct (length argv <? 4)%nat eqn:Hlen.
  { apply Nat.ltb_lt in Hlen. exists [Cli.usage], w. split_and!; [done..|].
    left. by split_and!. }
  apply Nat.ltb_ge in Hlen.
  destruct (String.eqb (nth 1 argv "") "analyze") eqn:Ea.
  { apply String.eqb_eq in Ea. rewrite bind_run.
    destruct (analyze_data_cases (nth 2 argv "") (nth 3 argv "") w)
      as [(df & dfp & rate & _ & _ & _ & Heq)|(l & e & _ & Heq)]; rewrite Heq.
    - eexists _, _. split_and!; [done|by eexists|]. right. left. by split_and!.
    - eexists _, _. split_and!; [done|by eexists|]. right. left. by split_and!. }
  apply String.eqb_neq in Ea.
  destruct (String.eqb (nth 1 argv "") "train") eqn:Et.
  { apply String.eqb_eq in Et. rewrite bind_run.
    pose proof (train_models_errors sk (nth 2 argv "") (nth 3 argv "") w) as [Hr _].
    destruct (train_models_extends sk (nth 2 argv "") (nth 3 argv "") w)
      as (evs & Hevs).
    destruct (train_models sk (nth 2 argv "") (nth 3 argv "") w) as [r w'].
    simpl in Hr, Hevs. subst r.
    eexists _, _. split_and!; [done|by eexists|]. right. right. left.
    by split_and!. }
  apply String.eqb_neq in Et.
  eexists _, _. split_and!; [done..|]. right. right. right. by split_and!.
Qed.

Lemma main_outcomes_witness :
  Cli.main (Examples.toy Examples.auc_mixed) ["credit_scoring.py"; "Analyze"; "data.csv"; "p1"]
    (Examples.world_with "data.csv" Examples.scenario_df) =
  (Ok ["Unknown command: Analyze"],
   Examples.world_with "data.csv" Examples.scenario_df).
Proof.
  destruct (main_outcomes (Examples.toy Examples.auc_mixed)
              ["credit_scoring.py"; "Analyze"; "data.csv"; "p1"]
              (Examples.world_with "data.csv" Examples.scenario_df))
    as (lines & w' & Heq & _ & [(H & _)|[(_ & H & _)|[(_ & H & _)|(_ & _ & _ & -> & ->)]]]).
  - simpl in H. lia.
  - discriminate H.
  - discriminate H.
  - exact Heq.
Defined.

(** ** The train stage in detail *)

Lemma time_time_world (w : world) :
  exists t w',
    time_time w = (Ok t, w') /\ stdout w' = stdout w /\ fs w' = fs w /\
    uploads_dir w' = uploads_dir w.
Proof. unfold time_time. destruct (clock w); by eexists _, _. Qed.

Lemma joblib_dump_detail (m : Sklearn.Fitted) (path : string) (w : world) :
  (exists w',
      joblib_dump m path w = (Ok tt, w') /\ stdout w' = stdout w /\
      fs w' = <[path := JoblibFile m]> (fs w)) \/
  (exists e, joblib_dump m path w = (Raise e, w)).
Proof.
  unfold joblib_dump, write. destruct (uploads_dir w); [left|right]; by eexists.
Qed.

Lemma feature_importance_columns (X : DataFrame) (best : Sklearn.Fitted)
    (fi : option FeatureImportance) :
  feature_importance_of X best = Ok fi ->
  forall f, fi = Some f -> fi_features f = columns X.
Proof.
  unfold feature_importance_of. intros H f ->.
  destruct (Sklearn.feature_importances_ best); [by injection H as <-|].
  destruct (Sklearn.coef_ best) as [coef|]; [|done].
  destruct (abs_coef0 coef); [by injection H as <-|done].
Qed.

Ltac raise_before Hs Hf :=
  eexists; right; eexists; split; [reflexivity | by rewrite Hs, Hf].

(** One turn of the loop: the candidate completes, its model is in its
    file, its scores are in [results] and its records are printed; or the
    turn raises after the [training] record, having written nothing. *)
Lemma train_model_detail (sk : Sklearn.api) (project_id : string) (X : DataFrame)
    (sp : Sklearn.Split) (Xs Xt : Sklearn.matrix) (st : Best)
    (model_name : string) (model_config : ModelConfig) (w : world) :
  exists w',
    (exists st' c r fitted,
        train_model sk project_id X sp Xs Xt st model_name model_config w =
          (Ok st', w') /\
        stdout w' = stdout w ++ candidate_events model_name c /\
        fs w' = <[model_path project_id model_name := JoblibFile fitted]> (fs w) /\
        results st' = Py.dict_set (results st) model_name r /\
        r_roc_auc r = rocAuc c /\
        names_features (columns X) c /\
        (best_model st', best_score st') =
          select_best (best_model st, best_score st) [(model_name, rocAuc c)])
    \/
    (exists e,
        train_model sk project_id X sp Xs Xt st model_name model_config w =
          (Raise e, w') /\
        stdout w' = stdout w ++ [model_update model_name (training 0)] /\
        fs w' = fs w).
Proof.
  unfold train_model.
  rewrite bind_run, log_output_run, bind_run by done.
  destruct (time_time_world (after w (fs w) [model_update model_name (training 0)]))
    as (t0 & w1 & -> & H1 & F1 & _).
  simpl in H1, F1.
  rewrite bind_call. destruct (Sklearn.grid_search_fit _ _ _ _ _ _ _) as [gs|e];
    [|raise_before H1 F1].
  rewrite bind_call. destruct (Sklearn.predict _ _) as [y_pred|e];
    [|raise_before H1 F1].
  rewrite bind_call. destruct (Sklearn.predict_proba _ _) as [proba|e];
    [|raise_before H1 F1].
  rewrite bind_call. destruct (column1 proba) as [y_pred_proba|e];
    [|raise_before H1 F1].
  rewrite bind_call. destruct (Sklearn.accuracy_score _ _ _) as [accuracy|e];
    [|raise_before H1 F1].
  rewrite bind_call. destruct (Sklearn.precision_score _ _ _ _) as [precision|e];
    [|raise_before H1 F1].
  rewrite bind_call. destruct (Sklearn.recall_score _ _ _ _) as [recall|e];
    [|raise_before H1 F1].
  rewrite bind_call. destruct (Sklearn.f1_score _ _ _ _) as [f1|e];
    [|raise_before H1 F1].
  rewrite bind_call. destruct (Sklearn.roc_auc_score _ _ _) as [roc_auc|e];
    [|raise_before H1 F1].
  rewrite bind_run.
  destruct (time_time_world w1) as (t1 & w2 & -> & H2 & F2 & _).
  rewrite bind_call.
  destruct (feature_importance_of _ _) as [fi|e] eqn:Hfi;
    [|raise_before (eq_trans H2 H1) (eq_trans F2 F1)].
  rewrite bind_run.
  destruct (joblib_dump_detail (Sklearn.best_estimator_ gs)
              (model_path project_id model_name) w2)
    as [(w3 & -> & H3 & F3)|(e & ->)];
    [|raise_before (eq_trans H2 H1) (eq_trans F2 F1)].
  unfold select_best, track_best. simpl foldl.
  destruct (gtb roc_auc (best_score st)) eqn:Hg; rewrite bind_run, log_output_run by done.
  all: eexists; left; eexists _, _, _, _; split; [reflexivity|].
  all: simpl; rewrite H3, H2, H1, F3, F2, F1, <- app_assoc.
  all: split_and!; [reflexivity..| |].
  all: try (simpl; by rewrite Hg).
  all: exact (feature_importance_columns _ _ _ Hfi).
Qed.

Lemma train_loop_detail (sk : Sklearn.api) (project_id : string) (X : DataFrame)
    (sp : Sklearn.Split) (Xs Xt : Sklearn.matrix)
    (ms : list (string * ModelConfig)) (st : Best) (w : world) :
  exists w',
    (exists st' cs rs fitted,
        train_loop sk project_id X sp Xs Xt ms st w = (Ok st', w') /\
        length cs = length ms /\ length rs = length ms /\
        length fitted = length ms /\
        stdout w' = stdout w ++ progress ms.*1 cs /\
        fs w' = written project_id (fs w) ms.*1 fitted /\
        results st' = dict_fill (results st) (zip ms.*1 rs) /\
        r_roc_auc <$> rs = rocAuc <$> cs /\
        Forall (names_features (columns X)) cs /\
        (best_model st', best_score st') =
          select_best (best_model st, best_score st) (zip ms.*1 (rocAuc <$> cs)))
    \/
    (exists e cs fitted n,
        train_loop sk project_id X sp Xs Xt ms st w = (Raise e, w') /\
        length fitted = length cs /\
        ms.*1 !! length cs = Some n /\
        stdout w' = stdout w ++ progress ms.*1 cs ++
                    [model_update n (training 0)] /\
        fs w' = written project_id (fs w) ms.*1 fitted /\
        Forall (names_features (columns X)) cs).
Proof.
  revert st w. induction ms as [|[model_name model_config] ms IH]; intros st w.
  - exists w. left. exists st, [], [], []. simpl.
    unfold progress. simpl. by rewrite app_nil_r.
  - cbn [train_loop]. rewrite bind_run.
    destruct (train_model_detail sk project_id X sp Xs Xt st model_name
                model_config w)
      as (w1 & [(st1 & c & r & b & -> & Hout & Hfs & Hres & Hauc & Hfi & Hbest)
               |(e & -> & Hout & Hfs)]).
    2:{ exists w1. right. exists e, [], [], model_name.
        split_and!; [done..| |done|done]. done. }
    destruct (IH st1 w1)
      as (w2 & [(st2 & cs & rs & bs & -> & Hlc & Hlr & Hlb & Hout2 & Hfs2 & Hres2
                 & Hauc2 & Hfi2 & Hbest2)
               |(e & cs & bs & n & -> & Hlb & Hn & Hout2 & Hfs2 & Hfi2)]).
    + exists w2. left. exists st2, (c :: cs), (r :: rs), (b :: bs).
      split_and!; [done|simpl; by f_equal..| | | | | |].
      * rewrite Hout2, Hout. unfold progress. simpl. by rewrite <- !app_assoc.
      * rewrite Hfs2, Hfs. done.
      * rewrite Hres2, Hres. done.
      * by rewrite !fmap_cons, Hauc, Hauc2.
      * by constructor.
      * rewrite Hbest2, Hbest. done.
    + exists w2. right. exists e, (c :: cs), (b :: bs), n.
      split_and!; [done|simpl; by f_equal|done| | |by constructor].
      * rewrite Hout2, Hout. unfold progress. simpl. by rewrite <- !app_assoc.
      * rewrite Hfs2, Hfs. done.
Qed.

Lemma roc_loop_detail (sk : Sklearn.api) (rs : list (string * Result))
    (roc : list (string * RocCurve)) (w : world) :
  (exists curves,
      roc_loop sk rs roc w = (Ok (dict_fill roc (zip rs.*1 curves)), w) /\
      length curves = length rs /\
      auc <$> curves = r_roc_auc <$> rs.*2)
  \/
  (exists e, roc_loop sk rs roc w = (Raise e, w)).
Proof.
  revert roc. induction rs as [|[model_name r] rs IH]; intros roc.
  - left. by exists [].
  - cbn [roc_loop]. rewrite bind_call.
    destruct (Sklearn.roc_curve _ _ _) as [[[fpr tpr] thresholds]|e];
      [|right; by exists e].
    destruct (IH (Py.dict_set roc model_name
                    {| fpr := fpr; tpr := tpr; auc := r_roc_auc r |}))
      as [(curves & -> & Hlen & Hauc)|(e & ->)]; [left|right; by exists e].
    exists ({| fpr := fpr; tpr := tpr; auc := r_roc_auc r |} :: curves).
    split_and!; [done|simpl; by f_equal|]. by rewrite !fmap_cons, Hauc.
Qed.

(** A successful pass of the encoding loop leaves the column names, their
    order and the number of rows as they were. *)
Lemma encode_columns_shape (cols : list string) :
  forall (X : DataFrame) (les : list (string * list string))
         (X' : DataFrame) (les' : list (string * list string)),
    encode_columns X les cols = Ok (X', les') ->
    columns X' = columns X /\ index X' = index X.
Proof.
  induction cols as [|c cols IH]; intros X les X' les'.
  - cbn [encode_columns]. by intros [= -> _].
  - cbn [encode_columns]. unfold encode_column.
    destruct (getitem (series X) c) as [[n [l|l|l]]|] eqn:Hg; try done.
    intros [H1 H2]%IH. rewrite H1, H2. split; [|done].
    rewrite columns_setitem. unfold add_column.
    apply getitem_some in Hg as [Hs Hn]. simpl in Hn. subst n.
    assert (Py.mem c (columns X) = true) as ->; [|done].
    apply mem_true, list_elem_of_fmap. eexists. split; [|exact Hs]. done.
Qed.

Lemma columns_drop (df : DataFrame) (col : string) :
  columns (drop df col) =
  List.filter (fun c => negb (String.eqb c col)) (columns df).
Proof.
  unfold columns, drop. simpl.
  induction (series df) as [|s l IH]; [done|].
  rewrite fmap_cons. cbn [List.filter].
  destruct (String.eqb (name s) col); cbn [negb]; by rewrite ?fmap_cons, IH.
Qed.

Lemma models_names : models.*1 = model_names.
Proof. reflexivity. Qed.

(** Training on a frame with a target column, in detail. *)
Lemma train_on_detail (sk : Sklearn.api) (project_id : string) (df : DataFrame)
    (target_col : string) (w : world) :
  exists w',
    (exists c1 c2 c3 f1 f2 f3 k1 k2 k3 b,
        train_on sk project_id df target_col w = (Ok tt, w') /\
        stdout w' = stdout w ++ progress model_names [c1; c2; c3] ++
          [roc_data [("logistic_regression", k1); ("decision_tree", k2);
                     ("random_forest", k3)];
           Events.best_model b.1 b.2] /\
        fs w' = written project_id (fs w) model_names [f1; f2; f3] /\
        (auc k1 = rocAuc c1 /\ auc k2 = rocAuc c2 /\ auc k3 = rocAuc c3) /\
        Forall (names_features (columns (drop df target_col))) [c1; c2; c3] /\
        b = select_best (None, Fin 0)
              [("logistic_regression", rocAuc c1); ("decision_tree", rocAuc c2);
               ("random_forest", rocAuc c3)])
    \/
    (exists e cs fitted tail,
        train_on sk project_id df target_col w = (Raise e, w') /\
        length fitted = length cs /\
        stdout w' = stdout w ++ progress model_names cs ++ tail /\
        fs w' = written project_id (fs w) model_names fitted /\
        ((tail = [] /\ (cs = [] \/ length cs = 3)) \/
         (exists n, model_names !! length cs = Some n /\
                    tail = [model_update n (training 0)])) /\
        Forall (names_features (columns (drop df target_col))) cs).
Proof.
  assert (forall e,
            exists cs fitted tail,
              (Raise e : result unit, w) = (Raise e, w) /\
              length fitted = length cs /\
              stdout w = stdout w ++ progress model_names cs ++ tail /\
              fs w = written project_id (fs w) model_names fitted /\
              ((tail = [] /\ (cs = [] \/ length cs = 3)) \/
               (exists n, model_names !! length cs = Some n /\
                          tail = [model_update n (training 0)])) /\
              Forall (names_features (columns (drop df target_col))) cs) as Hearly.
  { intros e. exists [], [], []. split_and!; try done.
    - unfold progress. simpl. by rewrite app_nil_r.
    - left. split; [done|by left]. }
  unfold train_on.
  rewrite bind_call. destruct (column df target_col) as [y|e].
  2:{ exists w. right. exists e. apply Hearly. }
  rewrite bind_call. destruct (encode_columns _ _ _) as [[X les]|e] eqn:Henc.
  2:{ exists w. right. exists e. apply Hearly. }
  apply encode_columns_shape in Henc as [Hcols _].
  rewrite bind_call. destruct (Sklearn.train_test_split _ _ _ _ _) as [sp|e].
  2:{ exists w. right. exists e. apply Hearly. }
  rewrite bind_call. destruct (Sklearn.fit_transform _ _) as [[scaler Xs]|e].
  2:{ exists w. right. exists e. apply Hearly. }
  rewrite bind_call. destruct (Sklearn.transform _ _ _) as [Xt|e].
  2:{ exists w. right. exists e. apply Hearly. }
  clear Hearly. rewrite bind_run.
  destruct (train_loop_detail sk project_id X sp Xs Xt models init w)
    as (w1 & [(st & cs & rs & fitted & -> & Hlc & Hlr & Hlf & Hout & Hfs & Hres
               & Hauc & Hfi & Hbest)
             |(e & cs & fitted & n & -> & Hlf & Hn & Hout & Hfs & Hfi)]);
    rewrite models_names, Hcols in *.
  2:{ exists w1. right. exists e, cs, fitted, [model_update n (training 0)].
      split_and!; [done..| |done]. right. by exists n. }
  destruct cs as [|c1 [|c2 [|c3 [|c4 cs]]]]; try done.
  destruct rs as [|r1 [|r2 [|r3 [|r4 rs]]]]; try done.
  destruct fitted as [|f1 [|f2 [|f3 [|f4 fitted]]]]; try done.
  injection Hauc as Ha1 Ha2 Ha3.
  rewrite bind_run.
  destruct (roc_loop_detail sk (results st) [] w1)
    as [(curves & -> & Hlk & Hk)|(e & ->)].
  2:{ exists w1. right. exists e, [c1; c2; c3], [f1; f2; f3], [].
      split_and!; [done|done| |done| |done].
      - by rewrite app_nil_r.
      - left. split; [done|by right]. }
  rewrite Hres in Hlk, Hk |- *.
  destruct curves as [|k1 [|k2 [|k3 [|k4 curves]]]]; try done.
  injection Hk as Hk1 Hk2 Hk3.
  rewrite bind_run, !log_output_run by done. eexists. left.
  exists c1, c2, c3, f1, f2, f3, k1, k2, k3, (best_model st, best_score st).
  split_and!; [reflexivity|..].
  - simpl. rewrite Hout, <- !app_assoc. reflexivity.
  - simpl. by rewrite Hfs.
  - congruence.
  - congruence.
  - congruence.
  - done.
  - by rewrite Hbest.
Qed.

(** The train stage from the point where it holds its frame, in detail. *)
Lemma train_rest_detail (sk : Sklearn.api) (project_id : string) (df : DataFrame)
    (w : world) :
  exists w',
    try_except (train_rest sk project_id df) train_handler w = (Ok tt, w') /\
    match find_target (columns df) with
    | None =>
        stdout w' = stdout w ++ [error "No target column found for training"] /\
        fs w' = fs w
    | Some t =>
        (exists c1 c2 c3 f1 f2 f3 k1 k2 k3 b,
            stdout w' = stdout w ++ progress model_names [c1; c2; c3] ++
              [roc_data [("logistic_regression", k1); ("decision_tree", k2);
                         ("random_forest", k3)];
               Events.best_model b.1 b.2] /\
            fs w' = written project_id (fs w) model_names [f1; f2; f3] /\
            (auc k1 = rocAuc c1 /\ auc k2 = rocAuc c2 /\ auc k3 = rocAuc c3) /\
            Forall (names_features (columns (drop df t))) [c1; c2; c3] /\
            b = select_best (None, Fin 0)
                  [("logistic_regression", rocAuc c1);
                   ("decision_tree", rocAuc c2);
                   ("random_forest", rocAuc c3)])
        \/
        (exists e cs fitted tail,
            length fitted = length cs /\
            stdout w' = stdout w ++ progress model_names cs ++ tail ++
                        [error ("Error training models: " +:+ e)] /\
            fs w' = written project_id (fs w) model_names fitted /\
            ((tail = [] /\ (cs = [] \/ length cs = 3)) \/
             (exists n, model_names !! length cs = Some n /\
                        tail = [model_update n (training 0)])) /\
            Forall (names_features (columns (drop df t))) cs)
    end.
Proof.
  unfold try_except, train_rest. rewrite find_target_truthy.
  destruct (find_target (columns df)) as [t|].
  - destruct (train_on_detail sk project_id df t w)
      as (w1 & [(c1 & c2 & c3 & f1 & f2 & f3 & k1 & k2 & k3 & b & -> & H)
               |(e & cs & fitted & tail & -> & Hlen & Hout & Hfs & Htail & Hfi)]).
    + exists w1. split; [done|]. left.
      by exists c1, c2, c3, f1, f2, f3, k1, k2, k3, b.
    + eexists. split; [reflexivity|]. right. exists e, cs, fitted, tail.
      split_and!; [done| |done..].
      simpl. by rewrite Hout, <- !app_assoc.
  - eexists. split; [reflexivity|done].
Qed.

(** ** The paths of a project's files *)

Lemma list_ascii_app (s t : string) :
  list_ascii_of_string (s +:+ t) =
  list_ascii_of_string s ++ list_ascii_of_string t.
Proof. induction s as [|c s IH]; [done|]. simpl. by rewrite IH. Qed.

Lemma list_ascii_length (s : string) :
  length (list_ascii_of_string s) = String.length s.
Proof. induction s as [|c s IH]; [done|]. simpl. by rewrite IH. Qed.

Lemma list_ascii_inj (s t : string) :
  list_ascii_of_string s = list_ascii_of_string t -> s = t.
Proof.
  intros H. rewrite <- (string_of_list_ascii_of_string s),
    <- (string_of_list_ascii_of_string t). by rewrite H.
Qed.

(** Two concatenations with tails of the same length agree part by part. *)
Lemma string_app_inj_2 (s1 t1 s2 t2 : string) :
  String.length t1 = String.length t2 ->
  s1 +:+ t1 = s2 +:+ t2 -> s1 = s2 /\ t1 = t2.
Proof.
  intros Hlen H. apply (f_equal list_ascii_of_string) in H.
  rewrite !list_ascii_app in H.
  apply app_inj_2 in H as [H1 H2]; [|by rewrite !list_ascii_length].
  split; by apply list_ascii_inj.
Qed.

Lemma string_app_assoc (s t u : string) : (s +:+ t) +:+ u = s +:+ t +:+ u.
Proof.
  induction s as [|c s IH]; [done|].
  change (String c ((s +:+ t) +:+ u) = String c (s +:+ t +:+ u)).
  by rewrite IH.
Qed.

Lemma processed_path_inj (p1 p2 : string) :
  processed_path p1 = processed_path p2 -> p1 = p2.
Proof.
  unfold processed_path. intros H. apply (inj (String.app _)) in H.
  by apply string_app_inj_2 in H as [H _].
Qed.

Lemma model_path_not_processed (p1 n p2 : string) :
  model_path p1 n ≠ processed_path p2.
Proof. unfold model_path, processed_path. simpl. intros H. discriminate H. Qed.

Lemma model_path_inj (p1 n1 p2 n2 : string) :
  n1 ∈ model_names -> n2 ∈ model_names ->
  model_path p1 n1 = model_path p2 n2 -> p1 = p2 /\ n1 = n2.
Proof.
  unfold model_path, model_names. intros H1 H2 H.
  apply (inj (String.app _)) in H.
  assert (forall p : string,
            p +:+ "_" +:+ "logistic_regression" +:+ ".joblib" =
            (p +:+ "_logis") +:+ "tic_regression.joblib") as Hlr.
  { intros p. by rewrite string_app_assoc. }
  repeat (apply elem_of_cons in H1 as [->|H1]);
    [| | |by apply elem_of_nil in H1].
  all: repeat (apply elem_of_cons in H2 as [->|H2]);
    [| | |by apply elem_of_nil in H2].
  all: rewrite ?Hlr in H.
  all: apply string_app_inj_2 in H as [H Ht]; [|reflexivity].
  all: try discriminate Ht.
  all: try (split; [exact H|reflexivity]).
  all: apply string_app_inj_2 in H as [H Ht']; [|reflexivity]; by split.
Qed.

Lemma written_other (project_id : string) (names : list string) (p : string) :
  forall (m : gmap string file) (fitted : list Sklearn.Fitted),
    (forall n, n ∈ names -> p ≠ model_path project_id n) ->
    written project_id m names fitted !! p = m !! p.
Proof.
  unfold written.
  induction names as [|n names IH]; intros m fitted Hp; [done|].
  destruct fitted as [|f fitted]; [done|]. cbn [zip zip_with foldl fst snd].
  rewrite IH by (intros n' Hn'; apply Hp; by right).
  apply lookup_insert_ne. intros Heq. by apply (Hp n); [left|].
Qed.

Lemma written_grows (project_id : string) (names : list string) (p : string) :
  forall (m : gmap string file) (fitted : list Sklearn.Fitted),
    is_Some (m !! p) -> is_Some (written project_id m names fitted !! p).
Proof.
  unfold written.
  induction names as [|n names IH]; intros m fitted Hp; [done|].
  destruct fitted as [|f fitted]; [done|]. cbn [zip zip_with foldl fst snd].
  apply IH. apply lookup_insert_is_Some.
  destruct (decide (model_path project_id n = p)); [by left|by right].
Qed.

Lemma written_three (project_id : string) (m : gmap string file)
    (f1 f2 f3 : Sklearn.Fitted) (n : string) :
  n ∈ model_names ->
  exists f,
    written project_id m model_names [f1; f2; f3] !! model_path project_id n =
    Some (JoblibFile f).
Proof.
  assert (forall n1 n2, n1 ∈ model_names -> n2 ∈ model_names -> n1 ≠ n2 ->
            model_path project_id n1 ≠ model_path project_id n2) as Hne.
  { intros n1 n2 H1 H2 Hn Heq. by apply model_path_inj in Heq as [_ ?]. }
  unfold written, model_names in *. cbn [zip zip_with foldl fst snd].
  intros Hn.
  repeat (apply elem_of_cons in Hn as [->|Hn]); [| | |by apply elem_of_nil in Hn].
  - exists f1.
    rewrite lookup_insert_ne by (apply Hne; [set_solver|set_solver|done]).
    rewrite lookup_insert_ne by (apply Hne; [set_solver|set_solver|done]).
    by rewrite lookup_insert_eq.
  - exists f2.
    rewrite lookup_insert_ne by (apply Hne; [set_solver|set_solver|done]).
    by rewrite lookup_insert_eq.
  - exists f3. by rewrite lookup_insert_eq.
Qed.

(** ** From the frame to the end of the train stage *)

Lemma progress_model_updates (names : list string) (cs : list Completed) :
  Forall (fun ev => is_model_update ev = true) (progress names cs).
Proof.
  unfold progress. apply Forall_concat, Forall_forall. intros l Hl.
  apply elem_of_lookup_zip_with in Hl as (i & n & c & -> & _ & _).
  by repeat constructor.
Qed.

Lemma progress_completed (names : list string) (cs : list Completed)
    (n : string) (c : Completed) :
  model_update n (completed c) ∈ progress names cs -> c ∈ cs.
Proof.
  unfold progress. intros H.
  apply list_elem_of_In, in_concat in H as (l & Hin & Hl).
  apply list_elem_of_In in Hin, Hl.
  apply elem_of_lookup_zip_with in Hin as (i & n' & c' & -> & _ & Hc).
  unfold candidate_events in Hl.
  apply elem_of_cons in Hl as [Hl|Hl]; [done|].
  apply list_elem_of_singleton in Hl. injection Hl as _ ->.
  by eapply list_elem_of_lookup_2.
Qed.

(** How the train stage gets to the point where it holds its frame, or
    learns that it has none: on a project without processed file the
    analyze stage runs, ends with its [error] record and returns no
    frame. *)
Lemma training_start_detail (file_path project_id : string) (w : world) :
  (is_Some (fs w !! processed_path project_id) /\
   training_start file_path project_id w = w)
  \/
  (fs w !! processed_path project_id = None /\
   training_frame file_path project_id w = None /\
   (analyze_data file_path project_id w).1 = Ok (None, None) /\
   (fs (training_start file_path project_id w) = fs w \/
    exists dfp,
      fs (training_start file_path project_id w) =
      <[processed_path project_id := CsvFile dfp]> (fs w)) /\
   exists l m,
     stdout (training_start file_path project_id w) =
       stdout w ++ (fe <$> l) ++ [error m]).
Proof.
  unfold training_start, training_frame.
  destruct (fs w !! processed_path project_id) as [f|]; [left; by eauto|].
  right. split; [done|].
  destruct (analyze_data_cases file_path project_id w)
    as [(df & dfp & rate & _ & _ & _ & ->)|(l & e & _ & ->)]; cbn [fst snd].
  - split_and!; [done|done|right; by eexists|]. by eexists _, _.
  - split_and!; [done|done|by left|]. by eexists _, _.
Qed.

(** Without a frame the train stage writes nothing itself and prints at
    most one record of its own, an [error]. *)
Lemma train_models_without_frame (sk : Sklearn.api) (file_path project_id : string)
    (w : world) :
  training_frame file_path project_id w = None ->
  exists w',
    train_models sk file_path project_id w = (Ok tt, w') /\
    (fs w' = fs w \/
     exists dfp, fs w' = <[processed_path project_id := CsvFile dfp]> (fs w)) /\
    (is_Some (fs w !! processed_path project_id) -> fs w' = fs w) /\
    exists l m,
      stdout w' = stdout w ++ (fe <$> l) ++ [error m] /\
      (is_Some (fs w !! processed_path project_id) -> l = []).
Proof.
  rewrite train_models_run. unfold training_frame.
  destruct (fs w !! processed_path project_id) as [[]|]; try done.
  1,2: intros _; eexists; split_and!; [done|by left|done|]; by eexists [], _.
  destruct (analyze_data_cases file_path project_id w)
    as [(df0 & dfp & rate & _ & _ & _ & ->)|(l & e & Hl & ->)].
  - intros _. eexists. split_and!; [done|right; by eexists|by intros [? ?]|].
    eexists _, _. split; [done|]. by intros [? ?].
  - intros _. eexists. split_and!; [done|by left|by intros [? ?]|].
    eexists l, _. split; [done|]. by intros [? ?].
Qed.

Lemma fe_analyze_records (l : list string) :
  Forall (fun ev => is_analyze_record ev = true) (fe <$> l).
Proof. apply Forall_fmap, Forall_forall. by intros. Qed.

(** Every run of the train stage, in detail: what it prints on the way to
    its frame ([pre]), what the files are when it holds it ([base]), and
    then either the full sequence with the three model files written, or
    the records of the candidates that completed, at most one [training]
    record without its [completed] record, and one [error] record. *)
Lemma train_models_detail (sk : Sklearn.api) (file_path project_id : string)
    (w : world) :
  exists w' pre base,
    train_models sk file_path project_id w = (Ok tt, w') /\
    Forall (fun ev => is_analyze_record ev = true) pre /\
    (is_Some (fs w !! processed_path project_id) -> pre = [] /\ base = fs w) /\
    (base = fs w \/
     exists dfp, base = <[processed_path project_id := CsvFile dfp]> (fs w)) /\
    ((exists df t c1 c2 c3 f1 f2 f3 k1 k2 k3 b,
         training_frame file_path project_id w = Some df /\
         find_target (columns df) = Some t /\
         stdout w' = stdout w ++ pre ++ progress model_names [c1; c2; c3] ++
           [roc_data [("logistic_regression", k1); ("decision_tree", k2);
                      ("random_forest", k3)];
            Events.best_model b.1 b.2] /\
         fs w' = written project_id base model_names [f1; f2; f3] /\
         (auc k1 = rocAuc c1 /\ auc k2 = rocAuc c2 /\ auc k3 = rocAuc c3) /\
         Forall (names_features (columns (drop df t))) [c1; c2; c3] /\
         b = select_best (None, Fin 0)
               [("logistic_regression", rocAuc c1);
                ("decision_tree", rocAuc c2);
                ("random_forest", rocAuc c3)])
     \/
     (exists m cs fitted tail,
         stdout w' = stdout w ++ pre ++ progress model_names cs ++ tail ++
                     [error m] /\
         length fitted = length cs /\
         fs w' = written project_id base model_names fitted /\
         ((tail = [] /\ (cs = [] \/ length cs = 3)) \/
          (exists n, model_names !! length cs = Some n /\
                     tail = [model_update n (training 0)])) /\
         (forall df t,
            training_frame file_path project_id w = Some df ->
            find_target (columns df) = Some t ->
            Forall (names_features (columns (drop df t))) cs))).
Proof.
  destruct (training_frame file_path project_id w) as [df|] eqn:Hdf.
  2:{ destruct (train_models_without_frame sk _ _ _ Hdf)
        as (w' & -> & Hfs & Hfs' & l & m & Hout & Hl).
      exists w', (fe <$> l), (fs w'). split_and!; [done| | |done|].
      - apply fe_analyze_records.
      - intros H. by rewrite (Hl H), (Hfs' H).
      - right. exists m, [], [], []. split_and!; try done.
        left. split; [done|by left]. }
  rewrite (train_models_frame _ _ _ _ _ Hdf).
  assert (exists pre base,
            stdout (training_start file_path project_id w) = stdout w ++ pre /\
            fs (training_start file_path project_id w) = base /\
            Forall (fun ev => is_analyze_record ev = true) pre /\
            (is_Some (fs w !! processed_path project_id) ->
             pre = [] /\ base = fs w) /\
            (base = fs w \/
             exists dfp,
               base = <[processed_path project_id := CsvFile dfp]> (fs w)))
    as (pre & base & Hpre & Hbase & Hrec & Hnil & Hb).
  { destruct (training_start_detail file_path project_id w)
      as [[_ ->]|(_ & Hno & _)]; [|congruence].
    exists [], (fs w). rewrite app_nil_r. split_and!; try done. by left. }
  destruct (train_rest_detail sk project_id df
              (training_start file_path project_id w)) as (w' & -> & Hcases).
  exists w', pre, base. split_and!; [done..|].
  rewrite Hpre, Hbase in Hcases.
  destruct (find_target (columns df)) as [t|] eqn:Ht.
  - destruct Hcases
      as [(c1 & c2 & c3 & f1 & f2 & f3 & k1 & k2 & k3 & b & Hout & Hfs
           & (Ha1 & Ha2 & Ha3) & Hfi & Hbest)
         |(e & cs & fitted & tail & Hlen & Hout & Hfs & Htail & Hfi)].
    + left. exists df, t, c1, c2, c3, f1, f2, f3, k1, k2, k3, b.
      split_and!; try done. by rewrite Hout, <- !app_assoc.
    + right. eexists _, cs, fitted, tail. split_and!; try done.
      * by rewrite Hout, <- !app_assoc.
      * intros df' t' [= <-]. rewrite Ht. by intros [= <-].
  - destruct Hcases as [Hout Hfs].
    right. eexists _, [], [], []. split_and!; try done.
    + by rewrite Hout, <- !app_assoc.
    + left. split; [done|by left].
Qed.

Lemma model_update_not_analyze (evs : list Event) :
  Forall (fun ev => is_model_update ev = true) evs ->
  Forall (fun ev => is_analyze_record ev = false) evs.
Proof. intros H. eapply Forall_impl; [exact H|]. by intros []. Qed.

Lemma analyze_not_error (evs : list Event) :
  Forall (fun ev => is_analyze_record ev = true) evs -> no_error evs.
Proof. intros H. eapply Forall_impl; [exact H|]. by intros []. Qed.

(** A run of the train stage that prints no [error] record went through. *)
Lemma train_models_clean (sk : Sklearn.api) (file_path project_id : string)
    (w : world) :
  no_error (printed w (train_models sk file_path project_id w).2) ->
  exists pre base df t c1 c2 c3 f1 f2 f3 k1 k2 k3 b,
    Forall (fun ev => is_analyze_record ev = true) pre /\
    (base = fs w \/
     exists dfp, base = <[processed_path project_id := CsvFile dfp]> (fs w)) /\
    training_frame file_path project_id w = Some df /\
    find_target (columns df) = Some t /\
    printed w (train_models sk file_path project_id w).2 =
      pre ++ progress model_names [c1; c2; c3] ++
      [roc_data [("logistic_regression", k1); ("decision_tree", k2);
                 ("random_forest", k3)];
       Events.best_model b.1 b.2] /\
    fs (train_models sk file_path project_id w).2 =
      written project_id base model_names [f1; f2; f3] /\
    (auc k1 = rocAuc c1 /\ auc k2 = rocAuc c2 /\ auc k3 = rocAuc c3) /\
    Forall (names_features (columns (drop df t))) [c1; c2; c3] /\
    b = select_best (None, Fin 0)
          [("logistic_regression", rocAuc c1); ("decision_tree", rocAuc c2);
           ("random_forest", rocAuc c3)].
Proof.
  destruct (train_models_detail sk file_path project_id w)
    as (w' & pre & base & -> & Hpre & _ & Hbase &
        [(df & t & c1 & c2 & c3 & f1 & f2 & f3 & k1 & k2 & k3 & b & Hdf & Ht
          & Hout & Hfs & (Ha1 & Ha2 & Ha3) & Hfi & Hb)
        |(m & cs & fitted & tail & Hout & _)]); cbn [snd].
  - intros _. exists pre, base, df, t, c1, c2, c3, f1, f2, f3, k1, k2, k3, b.
    split_and!; try done. by apply printed_eq.
  - rewrite (printed_eq _ _ _ Hout). unfold no_error. intros H. exfalso.
    rewrite !app_assoc in H. apply Forall_app in H as [_ H].
    inversion H as [|? ? He _]. discriminate He.
Qed.

(** ** Properties of the train stage *)

(** X15. When the project's processed file exists, the train stage works
    from it alone: the [file_path] argument has no influence on the run,
    no record of the analyze stage is printed, and the processed file is
    left as it was. *)
Theorem processed_file_takes_precedence (sk : Sklearn.api)
    (file_path file_path' project_id : string) (w : world) :
  is_Some (fs w !! processed_path project_id) ->
  train_models sk file_path project_id w =
    train_models sk file_path' project_id w /\
  Forall (fun ev => is_analyze_record ev = false)
    (printed w (train_models sk file_path project_id w).2) /\
  fs (train_models sk file_path project_id w).2 !! processed_path project_id =
    fs w !! processed_path project_id.
Proof.
  intros Hsome. split.
  { rewrite !train_models_run. by destruct Hsome as [f ->]. }
  destruct (train_models_detail sk file_path project_id w)
    as (w' & pre & base & -> & _ & Hnil & _ & Hcases). cbn [snd].
  destruct (Hnil Hsome) as [-> ->].
  assert (forall fitted,
            written project_id (fs w) model_names fitted
              !! processed_path project_id =
            fs w !! processed_path project_id) as Hkeep.
  { intros fitted. apply written_other. intros n _ Heq.
    by apply (model_path_not_processed project_id n project_id). }
  destruct Hcases
    as [(df & t & c1 & c2 & c3 & f1 & f2 & f3 & k1 & k2 & k3 & b & _ & _
         & Hout & -> & _)
       |(m & cs & fitted & tail & Hout & _ & -> & Htail & _)];
    rewrite (printed_eq _ _ _ Hout), Hkeep; (split; [|done]).
  - cbn [app]. apply Forall_app. split.
    + apply model_update_not_analyze, progress_model_updates.
    + by repeat constructor.
  - cbn [app]. apply Forall_app. split.
    + apply model_update_not_analyze, progress_model_updates.
    + destruct Htail as [[-> _]|(n & _ & ->)]; by repeat constructor.
Qed.

Lemma processed_file_takes_precedence_witness :
  train_models (Examples.toy Examples.auc_mixed) "data.csv" "p1"
    (Examples.world_with (processed_path "p1") Examples.scenario_df) =
  train_models (Examples.toy Examples.auc_mixed) "missing.txt" "p1"
    (Examples.world_with (processed_path "p1") Examples.scenario_df).
Proof.
  refine (proj1 (processed_file_takes_precedence (Examples.toy Examples.auc_mixed)
                   "data.csv" "missing.txt" "p1"
                   (Examples.world_with (processed_path "p1") Examples.scenario_df)
                   _)).
  eexists. vm_compute. reflexivity.
Defined.

(** X16. What a run of the train stage prints always has this shape:
    records of the analyze stage (none when the processed file exists);
    then, for the first candidates in the order logistic regression,
    decision tree, random forest, a [training] record directly followed by
    the candidate's [completed] record; then either, after all three
    candidates, [roc_data] and [best_model], or at most one [training]
    record of the next candidate that has no [completed] record, and one
    [error] record, which is the last record. *)
Theorem train_output_shape (sk : Sklearn.api) (file_path project_id : string)
    (w : world) :
  exists pre cs tail last,
    printed w (train_models sk file_path project_id w).2 =
      pre ++ progress model_names cs ++ tail ++ last /\
    Forall (fun ev => is_analyze_record ev = true) pre /\
    (is_Some (fs w !! processed_path project_id) -> pre = []) /\
    ((length cs = 3 /\ tail = [] /\
      exists roc bm sc, last = [roc_data roc; Events.best_model bm sc])
     \/
     (exists m,
        last = [error m] /\
        ((tail = [] /\ (cs = [] \/ length cs = 3)) \/
         (exists n, model_names !! length cs = Some n /\
                    tail = [model_update n (training 0)])))).
Proof.
  destruct (train_models_detail sk file_path project_id w)
    as (w' & pre & base & -> & Hpre & Hnil & _ &
        [(df & t & c1 & c2 & c3 & f1 & f2 & f3 & k1 & k2 & k3 & b & _ & _
          & Hout & _)
        |(m & cs & fitted & tail & Hout & _ & _ & Htail & _)]); cbn [snd];
    rewrite (printed_eq _ _ _ Hout).
  - eexists pre, [c1; c2; c3], [], _. split_and!; [reflexivity|done| |].
    + intros H. by destruct (Hnil H).
    + left. split_and!; [done..|]. by eexists _, _, _.
  - exists pre, cs, tail, [error m]. split_and!; [done|done| |].
    + intros H. by destruct (Hnil H).
    + right. by exists m.
Qed.

(** X17. In a run of the train stage that prints no [error] record, the
    [roc_data] record has exactly the three candidates as keys, in the
    order of the loop, and the [auc] of each curve is the [rocAuc] of the
    candidate's [completed] record. *)
Theorem roc_data_matches_candidates (sk : Sklearn.api)
    (file_path project_id : string) (w : world) :
  no_error (printed w (train_models sk file_path project_id w).2) ->
  exists pre c1 c2 c3 k1 k2 k3 bm sc,
    printed w (train_models sk file_path project_id w).2 =
      pre ++
      candidate_events "logistic_regression" c1 ++
      candidate_events "decision_tree" c2 ++
      candidate_events "random_forest" c3 ++
      [roc_data [("logistic_regression", k1); ("decision_tree", k2);
                 ("random_forest", k3)];
       Events.best_model bm sc] /\
    auc k1 = rocAuc c1 /\ auc k2 = rocAuc c2 /\ auc k3 = rocAuc c3.
Proof.
  intros H.
  destruct (train_models_clean sk file_path project_id w H)
    as (pre & base & df & t & c1 & c2 & c3 & f1 & f2 & f3 & k1 & k2 & k3 & b
        & _ & _ & _ & _ & Hout & _ & (H1 & H2 & H3) & _).
  exists pre, c1, c2, c3, k1, k2, k3, b.1, b.2. by rewrite Hout.
Qed.

Lemma roc_data_matches_candidates_witness :
  exists pre c1 c2 c3 k1 k2 k3 bm sc,
    printed (Examples.world_with (processed_path "p1") Examples.scenario_df)
      (train_models (Examples.toy Examples.auc_mixed) "data.csv" "p1"
         (Examples.world_with (processed_path "p1") Examples.scenario_df)).2 =
      pre ++
      candidate_events "logistic_regression" c1 ++
      candidate_events "decision_tree" c2 ++
      candidate_events "random_forest" c3 ++
      [roc_data [("logistic_regression", k1); ("decision_tree", k2);
                 ("random_forest", k3)];
       Events.best_model bm sc] /\
    auc k1 = rocAuc c1 /\ auc k2 = rocAuc c2 /\ auc k3 = rocAuc c3.
Proof.
  apply (roc_data_matches_candidates (Examples.toy Examples.auc_mixed)
           "data.csv" "p1" (Examples.world_with (processed_path "p1") Examples.scenario_df)).
  unfold no_error. vm_compute. repeat constructor.
Defined.

(** X18. In a run of the train stage that prints no [error] record, with
    finite ROC-AUC scores: when some score is above 0, the [best_model]
    record names the first candidate, in the order of the loop, whose
    score is the greatest, with that score; a later candidate replaces an
    earlier one only with a strictly greater score. When no score is above
    0, the record names no candidate and carries the score 0. *)
Theorem best_model_first_maximum (sk : Sklearn.api)
    (file_path project_id : string) (w : world) :
  no_error (printed w (train_models sk file_path project_id w).2) ->
  exists pre c1 c2 c3 roc bm sc,
    printed w (train_models sk file_path project_id w).2 =
      pre ++
      candidate_events "logistic_regression" c1 ++
      candidate_events "decision_tree" c2 ++
      candidate_events "random_forest" c3 ++
      [roc_data roc; Events.best_model bm sc] /\
    forall a1 a2 a3,
      rocAuc c1 = Fin a1 -> rocAuc c2 = Fin a2 -> rocAuc c3 = Fin a3 ->
      ((0 < a1 \/ 0 < a2 \/ 0 < a3)%Q ->
       exists n a,
         bm = Some n /\ sc = Fin a /\
         (a1 <= a /\ a2 <= a /\ a3 <= a)%Q /\
         ((n = "logistic_regression" /\ a = a1) \/
          (n = "decision_tree" /\ a = a2 /\ a1 < a2)%Q \/
          (n = "random_forest" /\ a = a3 /\ a1 < a3 /\ a2 < a3)%Q)) /\
      ((a1 <= 0 /\ a2 <= 0 /\ a3 <= 0)%Q -> bm = None /\ sc = Fin 0).
Proof.
  intros H.
  destruct (train_models_clean sk file_path project_id w H)
    as (pre & base & df & t & c1 & c2 & c3 & f1 & f2 & f3 & k1 & k2 & k3 & b
        & _ & _ & _ & _ & Hout & _ & _ & _ & Hb).
  eexists pre, c1, c2, c3, _, b.1, b.2. split; [by rewrite Hout|].
  intros a1 a2 a3 E1 E2 E3. rewrite E1, E2, E3 in Hb. split.
  - intros Hpos.
    destruct (select_best_first_max "logistic_regression" "decision_tree"
                "random_forest" a1 a2 a3 Hpos) as (n & a & Hsel & Hmax & Hwho).
    rewrite Hsel in Hb. subst b. by exists n, a.
  - intros Hle.
    rewrite (select_best_nobody _ _ _ _ _ _ Hle) in Hb. by subst b.
Qed.

Lemma best_model_first_maximum_witness :
  exists pre c1 c2 c3 roc bm sc,
    printed (Examples.world_with (processed_path "p1") Examples.scenario_df)
      (train_models (Examples.toy Examples.auc_mixed) "data.csv" "p1"
         (Examples.world_with (processed_path "p1") Examples.scenario_df)).2 =
      pre ++
      candidate_events "logistic_regression" c1 ++
      candidate_events "decision_tree" c2 ++
      candidate_events "random_forest" c3 ++
      [roc_data roc; Events.best_model bm sc] /\
    forall a1 a2 a3,
      rocAuc c1 = Fin a1 -> rocAuc c2 = Fin a2 -> rocAuc c3 = Fin a3 ->
      ((0 < a1 \/ 0 < a2 \/ 0 < a3)%Q ->
       exists n a,
         bm = Some n /\ sc = Fin a /\
         (a1 <= a /\ a2 <= a /\ a3 <= a)%Q /\
         ((n = "logistic_regression" /\ a = a1) \/
          (n = "decision_tree" /\ a = a2 /\ a1 < a2)%Q \/
          (n = "random_forest" /\ a = a3 /\ a1 < a3 /\ a2 < a3)%Q)) /\
      ((a1 <= 0 /\ a2 <= 0 /\ a3 <= 0)%Q -> bm = None /\ sc = Fin 0).
Proof.
  apply (best_model_first_maximum (Examples.toy Examples.auc_mixed)
           "data.csv" "p1" (Examples.world_with (processed_path "p1") Examples.scenario_df)).
  unfold no_error. vm_compute. repeat constructor.
Defined.

(** X19. After a run of the train stage that prints no [error] record,
    each of the three model files of the project exists and holds a
    dumped model. *)
Theorem model_files_after_training (sk : Sklearn.api)
    (file_path project_id : string) (w : world) (n : string) :
  no_error (printed w (train_models sk file_path project_id w).2) ->
  n ∈ model_names ->
  exists fitted,
    fs (train_models sk file_path project_id w).2 !! model_path project_id n =
    Some (JoblibFile fitted).
Proof.
  intros H Hn.
  destruct (train_models_clean sk file_path project_id w H)
    as (pre & base & df & t & c1 & c2 & c3 & f1 & f2 & f3 & k1 & k2 & k3 & b
        & _ & _ & _ & _ & _ & -> & _).
  by apply written_three.
Qed.

Lemma model_files_after_training_witness :
  exists fitted,
    fs (train_models (Examples.toy Examples.auc_mixed) "data.csv" "p1"
          (Examples.world_with (processed_path "p1") Examples.scenario_df)).2
      !! model_path "p1" "decision_tree" =
    Some (JoblibFile fitted).
Proof.
  apply (model_files_after_training (Examples.toy Examples.auc_mixed)
           "data.csv" "p1" (Examples.world_with (processed_path "p1") Examples.scenario_df)).
  - unfold no_error. vm_compute. repeat constructor.
  - unfold model_names. set_solver.
Defined.

(** The files after a run of either stage. *)
Lemma analyze_files (file_path project_id : string) (w : world) :
  fs (analyze_data file_path project_id w).2 = fs w \/
  exists dfp,
    fs (analyze_data file_path project_id w).2 =
    <[processed_path project_id := CsvFile dfp]> (fs w).
Proof.
  destruct (analyze_data_cases file_path project_id w)
    as [(df & dfp & rate & _ & _ & _ & ->)|(l & e & _ & ->)]; cbn [snd];
    [right; by eexists|by left].
Qed.

Lemma train_files (sk : Sklearn.api) (file_path project_id : string) (w : world) :
  exists base fitted,
    (base = fs w \/
     exists dfp, base = <[processed_path project_id := CsvFile dfp]> (fs w)) /\
    fs (train_models sk file_path project_id w).2 =
      written project_id base model_names fitted.
Proof.
  destruct (train_models_detail sk file_path project_id w)
    as (w' & pre & base & -> & _ & _ & Hbase &
        [(df & t & c1 & c2 & c3 & f1 & f2 & f3 & k1 & k2 & k3 & b & _ & _
          & _ & Hfs & _)
        |(m & cs & fitted & tail & _ & _ & Hfs & _)]); cbn [snd];
    by eexists base, _.
Qed.

Lemma stages_keep (sk : Sklearn.api) (file_path project_id : string) (w : world)
    (p : string) :
  p ≠ processed_path project_id ->
  (forall n, n ∈ model_names -> p ≠ model_path project_id n) ->
  fs (analyze_data file_path project_id w).2 !! p = fs w !! p /\
  fs (train_models sk file_path project_id w).2 !! p = fs w !! p.
Proof.
  intros H1 H2. split.
  - destruct (analyze_files file_path project_id w) as [->|(dfp & ->)]; [done|].
    by apply lookup_insert_ne.
  - destruct (train_files sk file_path project_id w)
      as (base & fitted & Hbase & ->).
    rewrite written_other by done.
    destruct Hbase as [->|(dfp & ->)]; [done|]. by apply lookup_insert_ne.
Qed.

(** X21. Two projects with different ids share no file: the processed
    file and the three model files of the one are all different from
    those of the other, and the four files of one project are pairwise
    different. So a run of either stage for one project leaves the files
    of every other project as they were. *)
Theorem projects_share_no_file (sk : Sklearn.api)
    (file_path p1 p2 : string) (w : world) (p : string) :
  p1 ≠ p2 ->
  p ∈ project_files p2 ->
  (p ∉ project_files p1) /\
  NoDup (project_files p2) /\
  fs (analyze_data file_path p1 w).2 !! p = fs w !! p /\
  fs (train_models sk file_path p1 w).2 !! p = fs w !! p.
Proof.
  intros Hne Hp.
  assert (p ≠ processed_path p1 /\
          forall n, n ∈ model_names -> p ≠ model_path p1 n) as [H1 H2].
  { unfold project_files in Hp.
    apply elem_of_cons in Hp as [->|(n & -> & Hn)%list_elem_of_fmap].
    - split; [by intros ?%processed_path_inj|].
      intros n _ Heq. by apply (model_path_not_processed p1 n p2).
    - split; [apply model_path_not_processed|].
      intros n' Hn' Heq. by apply model_path_inj in Heq as [? _]. }
  split_and!.
  - unfold project_files. apply not_elem_of_cons. split; [done|].
    intros (n & -> & Hn)%list_elem_of_fmap. by apply (H2 n).
  - unfold project_files. apply NoDup_cons. split.
    + intros (n & Heq & Hn)%list_elem_of_fmap.
      by apply (model_path_not_processed p2 n p2).
    + apply NoDup_fmap_2_strong; [|by apply (bool_decide_unpack _)].
      intros n1 n2 Hn1 Hn2 Heq. by apply model_path_inj in Heq as [_ ?].
  - by apply stages_keep.
  - by apply (stages_keep sk).
Qed.

Lemma projects_share_no_file_witness :
  model_path "p" "decision_tree" ∉ project_files "p_decision".
Proof.
  refine (proj1 (projects_share_no_file (Examples.toy Examples.auc_mixed)
                   "data.csv" "p_decision" "p"
                   (Examples.world_with "data.csv" Examples.scenario_df)
                   (model_path "p" "decision_tree") _ _)).
  - discriminate.
  - unfold project_files, model_names. set_solver.
Defined.

Lemma progress_features (cols names : list string) (cs : list Completed) :
  Forall (names_features cols) cs ->
  Forall (record_features cols) (progress names cs).
Proof.
  intros H. unfold progress. apply Forall_concat, Forall_forall. intros l Hl.
  apply elem_of_lookup_zip_with in Hl as (i & n & c & -> & _ & Hc).
  repeat constructor. simpl. by eapply Forall_lookup_1.
Qed.

Lemma analyze_record_features (cols : list string) (evs : list Event) :
  Forall (fun ev => is_analyze_record ev = true) evs ->
  Forall (record_features cols) evs.
Proof. intros H. eapply Forall_impl; [exact H|]. by intros []. Qed.

(** X22. In every run of the train stage on a frame with a target column,
    the feature names a [completed] record carries in [featureImportance]
    are the columns of the frame without the target column, in the
    frame's order: encoding the text columns changes no name. *)
Theorem feature_names_exclude_target (sk : Sklearn.api)
    (file_path project_id : string) (w : world) (df : DataFrame) (t : string) :
  training_frame file_path project_id w = Some df ->
  find_target (columns df) = Some t ->
  Forall (record_features
            (List.filter (fun col => negb (String.eqb col t)) (columns df)))
    (printed w (train_models sk file_path project_id w).2).
Proof.
  intros Hdf Ht. rewrite <- columns_drop.
  destruct (train_models_detail sk file_path project_id w)
    as (w' & pre & base & -> & Hpre & _ & _ &
        [(df' & t' & c1 & c2 & c3 & f1 & f2 & f3 & k1 & k2 & k3 & b & Hdf' & Ht'
          & Hout & _ & _ & Hfi & _)
        |(m & cs & fitted & tail & Hout & _ & _ & Htail & Hfi)]); cbn [snd];
    rewrite (printed_eq _ _ _ Hout).
  - rewrite Hdf in Hdf'. injection Hdf' as <-.
    rewrite Ht in Ht'. injection Ht' as <-.
    apply Forall_app. split; [by apply analyze_record_features|].
    apply Forall_app. split; [by apply progress_features|].
    by repeat constructor.
  - apply Forall_app. split; [by apply analyze_record_features|].
    apply Forall_app. split; [apply progress_features; by eapply Hfi|].
    destruct Htail as [[-> _]|(n & _ & ->)]; by repeat constructor.
Qed.

Lemma feature_names_exclude_target_witness :
  Forall (record_features
            ["debt_payments"; "income"; "credit_used"; "credit_limit";
             "payment_delay_1"; "payment_delay_2"])
    (printed (Examples.world_with (processed_path "p1") Examples.scenario_df)
       (train_models (Examples.toy Examples.auc_mixed) "data.csv" "p1"
          (Examples.world_with (processed_path "p1") Examples.scenario_df)).2).
Proof.
  apply (feature_names_exclude_target (Examples.toy Examples.auc_mixed)
           "data.csv" "p1"
           (Examples.world_with (processed_path "p1") Examples.scenario_df)
           Examples.scenario_df "default").
  - vm_compute. reflexivity.
  - reflexivity.
Defined.

(** ** The codes of a text column *)

Lemma position_order (cls : list string) (a b : string) :
  StronglySorted String.le cls ->
  a ∈ cls -> b ∈ cls ->
  (Sklearn.LabelEncoder.position a cls <= Sklearn.LabelEncoder.position b cls
   <-> String.le a b).
Proof.
  induction cls as [|c cls IH]; [by intros _ ?%elem_of_nil|].
  intros Hs Ha Hb.
  apply StronglySorted_inv in Hs as [Hs Hc].
  cbn [Sklearn.LabelEncoder.position].
  destruct (String.eqb c a) eqn:Ea.
  - apply String.eqb_eq in Ea. subst c. split; [intros _|lia].
    apply elem_of_cons in Hb as [->|Hb]; [done|].
    by apply (proj1 (Forall_forall _ _) Hc).
  - apply String.eqb_neq in Ea.
    apply elem_of_cons in Ha as [->|Ha]; [done|].
    destruct (String.eqb c b) eqn:Eb.
    + apply String.eqb_eq in Eb. subst c. split; [lia|].
      intros Hab. exfalso. apply Ea.
      apply (anti_symm String.le); [|done].
      by apply (proj1 (Forall_forall _ _) Hc).
    + apply String.eqb_neq in Eb.
      apply elem_of_cons in Hb as [->|Hb]; [done|].
      rewrite <- (IH Hs Ha Hb). lia.
Qed.

Lemma position_lt (cls : list string) (a : string) :
  a ∈ cls -> Sklearn.LabelEncoder.position a cls < length cls.
Proof.
  induction cls as [|c cls IH]; [by intros ?%elem_of_nil|].
  cbn [Sklearn.LabelEncoder.position length].
  destruct (String.eqb c a) eqn:Ea; [lia|].
  apply String.eqb_neq in Ea.
  intros [->|Ha]%elem_of_cons; [done|]. apply IH in Ha. lia.
Qed.

(** The shape with a [training] record that has no [completed] record
    occurs: when fitting the second candidate raises, the run prints the
    pair of the first candidate, the [training] record of the second and
    the [error] record. *)
Example training_record_without_completed :
  exists c1,
    printed (Examples.world_with (processed_path "p1") Examples.scenario_df)
      (train_models Examples.toy_failing "data.csv" "p1"
         (Examples.world_with (processed_path "p1") Examples.scenario_df)).2 =
    candidate_events "logistic_regression" c1 ++
    [model_update "decision_tree" (training 0);
     error "Error training models: Input contains NaN"].
Proof. eexists. vm_compute. reflexivity. Qed.

(** ** The strictly-greater rule over any scores *)

Lemma gtb_not_nan (a b : float64) : gtb a b = true -> isnan a = false.
Proof. by destruct a. Qed.

Lemma gtb_trans (a b c : float64) :
  gtb a b = true -> gtb b c = true -> gtb a c = true.
Proof.
  destruct a as [|[]|a], b as [|[]|b], c as [|[]|c]; try done.
  intros H1%gtb_Fin H2%gtb_Fin. apply gtb_Fin. lra.
Qed.

Lemma gtb_false_trans (a b c : float64) :
  isnan b = false ->
  gtb a b = false -> gtb b c = false -> gtb a c = false.
Proof.
  destruct a as [|[]|a], b as [|[]|b], c as [|[]|c]; try done.
  intros _ H1%gtb_Fin_false H2%gtb_Fin_false. apply gtb_Fin_false. lra.
Qed.

(** Whatever the scores, NaN and infinities included: the score kept is
    not NaN, no score seen is greater than it, and it is either the
    starting one or the score of the candidate kept, which is greater
    than the starting one. *)
Lemma select_best_invariant (scores : list (string * float64)) :
  forall b : option string * float64,
    isnan b.2 = false ->
    isnan (select_best b scores).2 = false /\
    gtb b.2 (select_best b scores).2 = false /\
    Forall (fun na => gtb na.2 (select_best b scores).2 = false) scores /\
    (select_best b scores = b \/
     exists n,
       (select_best b scores).1 = Some n /\
       (n, (select_best b scores).2) ∈ scores /\
       gtb (select_best b scores).2 b.2 = true).
Proof.
  unfold select_best.
  induction scores as [|[n a] scores IH]; intros b Hb.
  - simpl. split_and!; [done| |done|by left].
    destruct b as [bm [|[]|q]]; try done. simpl.
    apply gtb_Fin_false. lra.
  - cbn [foldl].
    destruct (gtb a b.2) eqn:Hg.
    + destruct (IH (Some n, a)) as (H1 & H2 & H3 & H4);
        [by apply gtb_not_nan in Hg|].
      cbn [fst snd] in *.
      set (r := foldl _ (Some n, a) scores) in *.
      split_and!; [done| |by constructor|].
      * destruct (gtb b.2 r.2) eqn:Hbr; [|done].
        by rewrite (gtb_trans _ _ _ Hg Hbr) in H2.
      * right. destruct H4 as [Hr|(n' & Hn' & Hin & Hgt)].
        -- exists n. rewrite Hr. cbn [fst snd]. split_and!; [done|by left|done].
        -- exists n'. split_and!; [done|by right|].
           by apply (gtb_trans _ a).
    + destruct (IH b Hb) as (H1 & H2 & H3 & H4).
      set (r := foldl _ b scores) in *.
      split_and!; [done|done| |].
      * constructor; [|done]. cbn [snd]. by apply (gtb_false_trans _ b.2).
      * destruct H4 as [Hr|(n' & Hn' & Hin & Hgt)]; [by left|].
        right. exists n'. split_and!; [done|by right|done].
Qed.

(** X24. In a run of the train stage that prints no [error] record,
    whatever the three ROC-AUC scores are, NaN and infinities included:
    the score of the [best_model] record is not NaN and no candidate's
    score is greater than it; when the record names a candidate, its
    score is that candidate's and is greater than 0; when it names none,
    its score is 0. So a candidate whose score is NaN is never named. *)
Theorem best_model_never_beaten (sk : Sklearn.api)
    (file_path project_id : string) (w : world) :
  no_error (printed w (train_models sk file_path project_id w).2) ->
  exists pre c1 c2 c3 roc bm sc,
    printed w (train_models sk file_path project_id w).2 =
      pre ++
      candidate_events "logistic_regression" c1 ++
      candidate_events "decision_tree" c2 ++
      candidate_events "random_forest" c3 ++
      [roc_data roc; Events.best_model bm sc] /\
    isnan sc = false /\
    Forall (fun c => gtb (rocAuc c) sc = false) [c1; c2; c3] /\
    match bm with
    | Some n =>
        gtb sc (Fin 0) = true /\
        (n, sc) ∈ [("logistic_regression", rocAuc c1);
                   ("decision_tree", rocAuc c2);
                   ("random_forest", rocAuc c3)]
    | None => sc = Fin 0
    end.
Proof.
  intros H.
  destruct (train_models_clean sk file_path project_id w H)
    as (pre & base & df & t & c1 & c2 & c3 & f1 & f2 & f3 & k1 & k2 & k3 & b
        & _ & _ & _ & _ & Hout & _ & _ & _ & Hb).
  eexists pre, c1, c2, c3, _, b.1, b.2. split; [by rewrite Hout|].
  destruct (select_best_invariant
              [("logistic_regression", rocAuc c1); ("decision_tree", rocAuc c2);
               ("random_forest", rocAuc c3)] (None, Fin 0) eq_refl)
    as (H1 & _ & H3 & H4).
  rewrite <- Hb in *. split_and!; [done| |].
  - inversion H3 as [|? ? G1 H3']. inversion H3' as [|? ? G2 H3''].
    inversion H3'' as [|? ? G3 _]. by repeat constructor.
  - destruct H4 as [->|(n & -> & Hin & Hgt)]; [done|]. done.
Qed.

Lemma best_model_never_beaten_witness :
  exists pre c1 c2 c3 roc bm sc,
    printed (Examples.world_with (processed_path "p1") Examples.scenario_df)
      (train_models (Examples.toy Examples.auc_mixed) "data.csv" "p1"
         (Examples.world_with (processed_path "p1") Examples.scenario_df)).2 =
      pre ++
      candidate_events "logistic_regression" c1 ++
      candidate_events "decision_tree" c2 ++
      candidate_events "random_forest" c3 ++
      [roc_data roc; Events.best_model bm sc] /\
    isnan sc = false /\
    Forall (fun c => gtb (rocAuc c) sc = false) [c1; c2; c3] /\
    match bm with
    | Some n =>
        gtb sc (Fin 0) = true /\
        (n, sc) ∈ [("logistic_regression", rocAuc c1);
                   ("decision_tree", rocAuc c2);
                   ("random_forest", rocAuc c3)]
    | None => sc = Fin 0
    end.
Proof.
  apply (best_model_never_beaten (Examples.toy Examples.auc_mixed)
           "data.csv" "p1" (Examples.world_with (processed_path "p1") Examples.scenario_df)).
  unfold no_error. vm_compute. repeat constructor.
Defined.

(** ** The summary record and the claims that rest on it *)

Lemma computable_no_derivation (df : DataFrame) :
  derivations df = [] ->
  find_target (columns df) = None ->
  computable df.
Proof.
  intros Hd Ht. split.
  - intros f r. rewrite Hd. by intros ?%elem_of_nil.
  - exists (Fin 0). unfold default_rate_of. by rewrite Ht.
Qed.

(** What the analyze stage hands to [log_output] once nothing raises
    before the summary: the records of the derivations, the summary of
    the frame as loaded, and the [error] record of the handler. *)
Lemma analyze_data_handed (file_path project_id : string) (w : world)
    (df : DataFrame) :
  (load_dataset file_path w).1 = Ok df ->
  computable df ->
  uploads_dir w = true ->
  exists rate,
    default_rate_of df = Ok rate /\
    handed_over w (analyze_data file_path project_id w).2 =
      (fe <$> applicable df) ++
      [dataset_summary (summary_of df rate); summary_refused] /\
    printed w (analyze_data file_path project_id w).2 =
      (fe <$> applicable df) ++ [summary_refused].
Proof.
  intros Hload Hc Hup.
  destruct (analyze_data_saved file_path project_id w df Hload Hc Hup)
    as (dfp & rate & _ & Hrate & _ & ->).
  exists rate. cbn [snd].
  by rewrite handed_after_with, printed_after_with.
Qed.

Lemma load_dataset_fst (file_path : string) (w : world) (df : DataFrame) :
  load_dataset file_path w = (Ok df, w) -> (load_dataset file_path w).1 = Ok df.
Proof. by intros ->. Qed.

(** C6, as the code has it. When the processed file of the project holds
    a frame with none of the five target names, the train stage returns
    after printing one record, the [error] record with the message
    [No target column found for training]; so it prints exactly one
    [error] record and no [model_update] record. *)
Theorem train_without_target (sk : Sklearn.api) (file_path project_id : string)
    (w : world) (df : DataFrame) :
  fs w !! processed_path project_id = Some (CsvFile df) ->
  find_target (columns df) = None ->
  (train_models sk file_path project_id w).1 = Ok tt /\
  printed w (train_models sk file_path project_id w).2 =
    [error "No target column found for training"] /\
  List.filter is_error (printed w (train_models sk file_path project_id w).2) =
    [error "No target column found for training"] /\
  List.filter is_model_update
    (printed w (train_models sk file_path project_id w).2) = [].
Proof.
  intros Hfs Hnone. rewrite train_models_run, Hfs.
  unfold try_except, train_rest. rewrite find_target_truthy, Hnone.
  rewrite log_output_run by done. cbn [fst snd]. by rewrite printed_after.
Qed.

Lemma train_without_target_witness :
  printed (Examples.world_with (processed_path "p1") Examples.no_target_df)
    (train_models (Examples.toy Examples.auc_mixed) "data.csv" "p1"
       (Examples.world_with (processed_path "p1") Examples.no_target_df)).2 =
  [error "No target column found for training"].
Proof.
  refine (proj1 (proj2 (train_without_target (Examples.toy Examples.auc_mixed)
                          "data.csv" "p1"
                          (Examples.world_with (processed_path "p1")
                             Examples.no_target_df)
                          Examples.no_target_df _ _))).
  - vm_compute. reflexivity.
  - reflexivity.
Defined.

(** C6, as it is stated, fails: for a project without processed file the
    train stage runs the analyze stage first, and when that stage ends
    with its own [error] record the train stage returns at once. On a
    dataset without target name whose payment-delay column holds text,
    averaging the delays raises, and the one [error] record is that of
    the analyze stage, not the one of the target check. *)
Lemma train_without_target_as_described_fails :
  ~ train_without_target_as_described.
Proof.
  intros H.
  destruct (H (Examples.toy Examples.auc_mixed) "data.csv" "p1"
              (Examples.world_with "data.csv" Examples.text_delay_df)
              Examples.text_delay_df) as [He _].
  - vm_compute. reflexivity.
  - reflexivity.
  - vm_compute in He. discriminate He.
Qed.

(** C5. The target column is the first column, left to right, whose
    lower-case name is one of [default], [target], [bad_loan],
    [delinquent], [class] (and none when no column matches). The analyze
    stage, when nothing raises before its summary, builds the summary
    with that column of the frame it loaded as [target_column]; the train
    stage trains on that column of the frame in the processed file, or
    stops with the [error] record when there is none. *)
Theorem target_rule (sk : Sklearn.api) (file_path project_id : string)
    (w : world) (df : DataFrame) :
  (forall t, find_target (columns df) = Some t <-> first_match (columns df) t) /\
  (find_target (columns df) = None <->
   forall x, x ∈ columns df -> Py.lower x ∉ potential_targets) /\
  (load_dataset file_path w = (Ok df, w) ->
   computable df ->
   uploads_dir w = true ->
   exists d,
     dataset_summary d ∈ handed_over w (analyze_data file_path project_id w).2 /\
     (forall d',
        dataset_summary d' ∈
          handed_over w (analyze_data file_path project_id w).2 -> d' = d) /\
     target_column (summary d) = find_target (columns df)) /\
  (fs w !! processed_path project_id = Some (CsvFile df) ->
   train_models sk file_path project_id w =
   match find_target (columns df) with
   | Some t => try_except (train_on sk project_id df t) train_handler w
   | None => (Ok tt, emit (error "No target column found for training") w)
   end).
Proof.
  split_and!.
  - intros t. apply find_target_some.
  - apply find_target_none.
  - intros Hload Hc Hup.
    destruct (analyze_data_handed file_path project_id w df
                (load_dataset_fst _ _ _ Hload) Hc Hup) as (rate & _ & -> & _).
    exists (summary_of df rate). split_and!; [|  |done].
    + apply elem_of_app. right. by left.
    + intros d' [Hd|Hd]%elem_of_app; [by apply not_in_fe in Hd|].
      apply elem_of_cons in Hd as [[= ->]|Hd]; [done|].
      by apply list_elem_of_singleton in Hd.
  - intros Hfs. rewrite train_models_run, Hfs.
    unfold try_except, train_rest. rewrite find_target_truthy.
    by destruct (find_target (columns df)).
Qed.

Lemma target_rule_witness :
  find_target ["ID"; "Target"; "DEFAULT"] = Some "Target" /\
  exists d,
    dataset_summary d ∈
      handed_over (Examples.world_with "data.csv" Examples.scenario_df)
        (analyze_data "data.csv" "p1"
           (Examples.world_with "data.csv" Examples.scenario_df)).2 /\
    target_column (summary d) = Some "default".
Proof.
  split; [reflexivity|].
  destruct (proj1 (proj2 (proj2 (target_rule (Examples.toy Examples.auc_mixed)
              "data.csv" "p1" (Examples.world_with "data.csv" Examples.scenario_df)
              Examples.scenario_df))))
    as (d & Hd & _ & Ht).
  - vm_compute. reflexivity.
  - apply numeric_computable. by repeat constructor.
  - reflexivity.
  - by exists d.
Defined.

(** C4. Completeness is [(1 - missing / (records * features)) * 100], and
    the label follows it with exclusive lower bounds: above 95
    [Excellent], above 85 [Good], above 70 [Fair], else [Poor] (also for
    NaN, the completeness of a dataset without cells); exactly 95 is
    [Good], and so is every dataset with exactly 95% of its cells
    present. The analyze stage, when nothing raises before its summary,
    builds the summary with the numbers of rows, columns and missing
    cells of the frame as loaded and with the label of their
    completeness. *)
Theorem completeness_quality :
  (forall m t f : nat,
     (0 < t * f)%nat ->
     completeness m t f =
     Fin ((1 - inject_Z (Z.of_nat m) / inject_Z (Z.of_nat (t * f))) * 100)) /\
  (forall q, (95 < q)%Q -> data_quality (Fin q) = "Excellent") /\
  (forall q, (85 < q)%Q -> (q <= 95)%Q -> data_quality (Fin q) = "Good") /\
  (forall q, (70 < q)%Q -> (q <= 85)%Q -> data_quality (Fin q) = "Fair") /\
  (forall q, (q <= 70)%Q -> data_quality (Fin q) = "Poor") /\
  data_quality (Fin 95) = "Good" /\
  data_quality NaN = "Poor" /\
  (forall m t f : nat,
     (0 < t * f)%nat -> (100 * m = 5 * (t * f))%nat ->
     data_quality (completeness m t f) = "Good") /\
  (forall (file_path project_id : string) (w : world) (df : DataFrame),
     load_dataset file_path w = (Ok df, w) ->
     computable df ->
     uploads_dir w = true ->
     exists d,
       dataset_summary d ∈
         handed_over w (analyze_data file_path project_id w).2 /\
       totalRecords d = len df /\
       features d = length (columns df) /\
       missingValues d = isnull_sum_sum df /\
       dataQuality d =
       data_quality
         (completeness (missingValues d) (totalRecords d) (features d))).
Proof.
  destruct quality_thresholds as (H2 & H3 & H4 & H5).
  split_and!; try done.
  - apply completeness_formula.
  - apply exactly_95_is_good.
  - intros file_path project_id w df Hload Hc Hup.
    destruct (analyze_data_handed file_path project_id w df
                (load_dataset_fst _ _ _ Hload) Hc Hup) as (rate & _ & -> & _).
    exists (summary_of df rate). split_and!; try done.
    apply elem_of_app. right. by left.
Qed.

Lemma completeness_quality_witness :
  exists d,
    dataset_summary d ∈
      handed_over (Examples.world_with "data.csv" Examples.boundary_df)
        (analyze_data "data.csv" "p1"
           (Examples.world_with "data.csv" Examples.boundary_df)).2 /\
    totalRecords d = 20 /\ features d = 1 /\ missingValues d = 1 /\
    dataQuality d = "Good".
Proof.
  destruct completeness_quality as (_ & _ & _ & _ & _ & _ & _ & H95 & Hrun).
  destruct (Hrun "data.csv" "p1"
              (Examples.world_with "data.csv" Examples.boundary_df)
              Examples.boundary_df)
    as (d & Hd & Ht & Hf & Hm & Hq).
  - vm_compute. reflexivity.
  - apply numeric_computable. by repeat constructor.
  - reflexivity.
  - exists d. split_and!; [done..|].
    rewrite Hq, Hm, Ht, Hf. apply H95; vm_compute; lia.
Defined.

(** C8, as the code has it. Every field of the summary record the analyze
    stage builds is computed from the frame as loaded: the record is
    [summary_of] that frame, so a name occurs in a field only if the raw
    frame has a column of that name (a derived name included); the
    processed file holds every raw column and every column that was
    derived. *)
Theorem summary_describes_raw (file_path project_id : string) (w : world)
    (df : DataFrame) :
  load_dataset file_path w = (Ok df, w) ->
  computable df ->
  uploads_dir w = true ->
  exists d dfp rate,
    dataset_summary d ∈ handed_over w (analyze_data file_path project_id w).2 /\
    d = summary_of df rate /\
    (forall n, n ∈ names_in d -> n ∈ columns df) /\
    (forall n, n ∈ derived_features -> n ∉ columns df -> n ∉ names_in d) /\
    fs (analyze_data file_path project_id w).2 !! processed_path project_id =
      Some (CsvFile dfp) /\
    columns df ⊆ columns dfp /\
    (forall n, n ∈ applicable df -> n ∈ columns dfp).
Proof.
  intros Hload Hc Hup.
  destruct (analyze_data_saved file_path project_id w df
              (load_dataset_fst _ _ _ Hload) Hc Hup)
    as (dfp & rate & _ & _ & Hcols & ->).
  exists (summary_of df rate), dfp, rate. cbn [snd].
  rewrite handed_after_with, Hcols.
  split_and!; [|done| | | |..].
  - apply elem_of_app. right. by left.
  - intros n. apply names_in_summary_of.
  - intros n _ Hn Hin. by apply Hn, (names_in_summary_of df rate).
  - simpl. apply lookup_insert_eq.
  - apply foldl_add_column.
  - apply foldl_add_column.
Qed.

Lemma summary_describes_raw_witness :
  exists d dfp,
    dataset_summary d ∈
      handed_over (Examples.world_with "d.csv" Examples.fresh_df)
        (analyze_data "d.csv" "p"
           (Examples.world_with "d.csv" Examples.fresh_df)).2 /\
    ("avg_payment_delays" ∉ names_in d) /\
    fs (analyze_data "d.csv" "p"
          (Examples.world_with "d.csv" Examples.fresh_df)).2
      !! processed_path "p" = Some (CsvFile dfp) /\
    "avg_payment_delays" ∈ columns dfp.
Proof.
  destruct (summary_describes_raw "d.csv" "p"
              (Examples.world_with "d.csv" Examples.fresh_df) Examples.fresh_df)
    as (d & dfp & rate & H1 & _ & _ & H2 & H3 & _ & H4).
  - vm_compute. reflexivity.
  - apply numeric_computable. by repeat constructor.
  - reflexivity.
  - exists d, dfp. split_and!; [done| |done|].
    + apply H2; apply (bool_decide_unpack _); by vm_compute.
    + apply H4. apply (bool_decide_unpack _). by vm_compute.
Defined.

(** C8, as it is stated, fails: for a dataset that already has a column
    [avg_payment_delays] the summary record names it. *)
Lemma summary_never_names_derived_fails : ~ summary_never_names_derived.
Proof.
  intros H.
  apply (H "d.csv" "p" (Examples.world_with "d.csv" Examples.reprocessed_df)
           (summary_of Examples.reprocessed_df (Fin 0)) "avg_payment_delays").
  - vm_compute. repeat constructor.
  - vm_compute. repeat constructor.
  - vm_compute. repeat constructor.
Qed.

(** C9. The name [avg_payment_delays] itself contains [payment_delay]:
    on a dataset that already has such a column the analyze stage averages
    it with the others, and analysing the file it wrote once more changes
    the column again. *)
Theorem avg_payment_delays_not_idempotent :
  Py.contains "payment_delay" (Py.lower "avg_payment_delays") = true /\
  exists df once twice,
    "avg_payment_delays" ∈ columns df /\
    "avg_payment_delays" ∈ payment_delay_cols df /\
    processed_of df = Some once /\
    processed_of once = Some twice /\
    avg_payment_delays_of df = [Fin 10] /\
    avg_payment_delays_of once = [Fin (10 # 2)] /\
    avg_payment_delays_of twice = [Fin (10 # 4)] /\
    same_floats (avg_payment_delays_of once) (avg_payment_delays_of twice) = false.
Proof.
  split; [reflexivity|].
  exists Examples.reprocessed_df.
  eexists _, _. split_and!.
  - vm_compute. repeat constructor.
  - vm_compute. repeat constructor.
  - vm_compute. reflexivity.
  - vm_compute. reflexivity.
  - reflexivity.
  - reflexivity.
  - reflexivity.
  - reflexivity.
Qed.

(** C2, at the failing input. On a project whose processed file holds the
    scenario dataset, when each of the three candidates completes with
    ROC-AUC 0, the train stage prints the three pairs of records and
    [roc_data], and then a [best_model] record that names no candidate. *)
Theorem best_model_none_when_all_auc_zero :
  exists c1 c2 c3 roc,
    printed (Examples.world_with (processed_path "p1") Examples.scenario_df)
      (train_models (Examples.toy Examples.auc_zero) "data.csv" "p1"
         (Examples.world_with (processed_path "p1") Examples.scenario_df)).2 =
      candidate_events "logistic_regression" c1 ++
      candidate_events "decision_tree" c2 ++
      candidate_events "random_forest" c3 ++
      [roc_data roc; Events.best_model None (Fin 0)] /\
    rocAuc c1 = Fin 0 /\ rocAuc c2 = Fin 0 /\ rocAuc c3 = Fin 0.
Proof.
  eexists _, _, _, _. split; [vm_compute; reflexivity|]. done.
Qed.




(** ** The processed file *)

(** X4. When the frame is loaded, no derivation and no default rate
    raises and the upload directory is there, the analyze stage writes
    the processed file, and the frame in it differs from the loaded one
    at most in the three derived columns: it has as many rows, and every
    column under any other name is there with the values it had. *)
Theorem engineering_keeps_raw_columns (file_path project_id : string)
    (w : world) (df : DataFrame) :
  (load_dataset file_path w).1 = Ok df ->
  computable df ->
  uploads_dir w = true ->
  exists dfp,
    fs (analyze_data file_path project_id w).2 =
      <[processed_path project_id := CsvFile dfp]> (fs w) /\
    len dfp = len df /\
    forall col, col ∉ derived_features ->
      getitem (series dfp) col = getitem (series df) col.
Proof.
  intros Hload Hc Hup.
  destruct (analyze_data_saved file_path project_id w df Hload Hc Hup)
    as (dfp & rate & Happly & _ & _ & ->).
  exists dfp. split; [done|].
  destruct (apply_derivations_frame _ _ _ Happly) as [Hi Hcol].
  split; [done|]. intros col Hn. apply Hcol.
  rewrite derivations_names. intros H. apply Hn.
  by eapply elem_of_sublist, applicable_sublist.
Qed.

Lemma engineering_keeps_raw_columns_witness :
  exists dfp,
    fs (analyze_data "data.csv" "p1"
          (Examples.world_with "data.csv" Examples.scenario_df)).2 =
      <[processed_path "p1" := CsvFile dfp]>
        (fs (Examples.world_with "data.csv" Examples.scenario_df)) /\
    len dfp = 1000 /\
    getitem (series dfp) "income" = getitem (series Examples.scenario_df) "income".
Proof.
  destruct (engineering_keeps_raw_columns "data.csv" "p1"
              (Examples.world_with "data.csv" Examples.scenario_df)
              Examples.scenario_df)
    as (dfp & H1 & H2 & H3).
  - vm_compute. reflexivity.
  - apply numeric_computable. by repeat constructor.
  - reflexivity.
  - exists dfp. split_and!; [done..|].
    apply H3. apply (bool_decide_unpack _). by vm_compute.
Defined.

(** X6. Under the same conditions, if every column of the loaded frame
    has one cell per row, so has every column of the frame in the
    processed file, the derived ones included. *)
Theorem processed_frame_well_formed (file_path project_id : string)
    (w : world) (df : DataFrame) :
  (load_dataset file_path w).1 = Ok df ->
  computable df ->
  uploads_dir w = true ->
  well_formed df ->
  exists dfp,
    fs (analyze_data file_path project_id w).2 =
      <[processed_path project_id := CsvFile dfp]> (fs w) /\
    well_formed dfp.
Proof.
  intros Hload Hc Hup Hwf.
  destruct (analyze_data_saved file_path project_id w df Hload Hc Hup)
    as (dfp & rate & Happly & _ & _ & ->).
  exists dfp. split; [done|].
  eapply (apply_derivations_well_formed _ (index df)); [done| |done|done].
  assert (forall c s, getitem (series df) c = Some s ->
            match values s with
            | Ints l => length l = index df
            | Floats l => length l = index df
            | Objects l => length l = index df
            end) as Hcol.
  { intros c s [Hs _]%getitem_some.
    unfold well_formed in Hwf. rewrite Forall_forall in Hwf. by apply Hwf. }
  assert (forall a b d, ratio df a b = Ok d ->
            match d with
            | Ints l => length l = index df
            | Floats l => length l = index df
            | Objects l => length l = index df
            end) as Hratio.
  { intros a b d (sa & sb & xs & ys & Ha & Hxs & Hb & Hys & ->)%ratio_ok.
    rewrite length_zip_with.
    rewrite (to_floats_length _ _ (index df) Hxs) by by eapply Hcol.
    rewrite (to_floats_length _ _ (index df) Hys) by by eapply Hcol.
    lia. }
  intros f d. unfold derivations. rewrite !elem_of_app.
  intros [H|[H|H]].
  - destruct (_ && _); [|by apply elem_of_nil in H].
    apply list_elem_of_singleton in H as [= -> H']. by eapply Hratio.
  - destruct (_ && _); [|by apply elem_of_nil in H].
    apply list_elem_of_singleton in H as [= -> H']. by eapply Hratio.
  - destruct (payment_delay_cols df) as [|c cs]; [by apply elem_of_nil in H|].
    apply list_elem_of_singleton in H as [= -> H'].
    unfold mean_axis1 in H'. destruct (all_floats _); [|done].
    injection H' as ->. by rewrite length_fmap, length_seq.
Qed.

Lemma processed_frame_well_formed_witness :
  exists dfp,
    fs (analyze_data "data.csv" "p"
          (Examples.world_with "data.csv" Examples.fresh_df)).2 =
      <[processed_path "p" := CsvFile dfp]>
        (fs (Examples.world_with "data.csv" Examples.fresh_df)) /\
    well_formed dfp.
Proof.
  apply (processed_frame_well_formed "data.csv" "p"
           (Examples.world_with "data.csv" Examples.fresh_df)
           Examples.fresh_df).
  - vm_compute. reflexivity.
  - apply numeric_computable. by repeat constructor.
  - reflexivity.
  - by repeat constructor.
Defined.

(** X8. A target column with a text cell makes the analyze stage fail at
    the default rate, whatever the other columns are: the stage returns
    [(None, None)], writes no file and builds no summary. *)
Theorem text_target_fails (file_path project_id : string) (w : world)
    (df : DataFrame) (t : string) (l : list (option string)) (cell : string) :
  (load_dataset file_path w).1 = Ok df ->
  find_target (columns df) = Some t ->
  values_of df t = Some (Objects l) ->
  Some cell ∈ l ->
  (analyze_data file_path project_id w).1 = Ok (None, None) /\
  fs (analyze_data file_path project_id w).2 = fs w /\
  forall d,
    dataset_summary d ∉ handed_over w (analyze_data file_path project_id w).2.
Proof.
  intros Hload Ht Hv Hcell. rewrite analyze_data_pure, Hload.
  assert (exists e, default_rate_of df = Raise e) as (e & Hrate).
  { unfold default_rate_of. rewrite find_target_truthy, Ht.
    unfold column. unfold values_of in Hv.
    destruct (getitem (series df) t) as [s|]; [|done].
    injection Hv as ->. unfold series_mean. simpl.
    destruct l as [|o l]; [by apply elem_of_nil in Hcell|]. by eexists. }
  assert (forall done e' d,
            dataset_summary d ∉ handed_over w (analyze_failed w done e').2) as Hno.
  { intros done e' d. unfold analyze_failed. cbn [snd]. rewrite handed_after.
    intros [H|H]%elem_of_app; [by apply not_in_fe in H|].
    by apply list_elem_of_singleton in H. }
  unfold analyze_loaded.
  destruct (apply_derivations df (derivations df)) as [[dfp|e'] done].
  - rewrite Hrate. split_and!; [done..|]. apply Hno.
  - split_and!; [done..|]. apply Hno.
Qed.

Lemma text_target_fails_witness :
  fs (analyze_data "data.csv" "p1"
        (Examples.world_with "data.csv" Examples.text_target_df)).2 =
  fs (Examples.world_with "data.csv" Examples.text_target_df).
Proof.
  refine (proj1 (proj2 (text_target_fails "data.csv" "p1"
                   (Examples.world_with "data.csv" Examples.text_target_df)
                   Examples.text_target_df "Default" [Some "yes"; Some "no"]
                   "yes" _ _ _ _))).
  - vm_compute. reflexivity.
  - reflexivity.
  - reflexivity.
  - by left.
Defined.

(** X9. When the loaded frame has none of the five target names, no
    derivation raises and the upload directory is there, the summary the
    analyze stage builds reports no target column and a default rate
    of 0. *)
Theorem summary_without_target (file_path project_id : string) (w : world)
    (df : DataFrame) :
  (load_dataset file_path w).1 = Ok df ->
  find_target (columns df) = None ->
  computable df ->
  uploads_dir w = true ->
  exists d,
    dataset_summary d ∈ handed_over w (analyze_data file_path project_id w).2 /\
    target_column (summary d) = None /\
    defaultRate d = Fin 0.
Proof.
  intros Hload Ht Hc Hup.
  destruct (analyze_data_handed file_path project_id w df Hload Hc Hup)
    as (rate & Hrate & -> & _).
  assert (rate = Fin 0) as ->.
  { unfold default_rate_of in Hrate. rewrite find_target_truthy, Ht in Hrate.
    by injection Hrate as <-. }
  exists (summary_of df (Fin 0)). split_and!; [|simpl; by rewrite Ht|done].
  apply elem_of_app. right. by left.
Qed.

Lemma summary_without_target_witness :
  exists d,
    dataset_summary d ∈
      handed_over (Examples.world_with "data.csv" Examples.no_target_df)
        (analyze_data "data.csv" "p1"
           (Examples.world_with "data.csv" Examples.no_target_df)).2 /\
    target_column (summary d) = None /\
    defaultRate d = Fin 0.
Proof.
  apply (summary_without_target "data.csv" "p1"
           (Examples.world_with "data.csv" Examples.no_target_df)
           Examples.no_target_df).
  - vm_compute. reflexivity.
  - reflexivity.
  - by apply computable_no_derivation.
  - reflexivity.
Defined.

(** ** Running the stages again *)

Lemma substring_all (s : string) : String.substring 0 (String.length s) s = s.
Proof. induction s as [|c s IH]; [done|]. simpl. by rewrite IH. Qed.

Lemma substring_app_suffix (s t : string) :
  String.substring (String.length s) (String.length t) (s +:+ t) = t.
Proof.
  induction s as [|c s IH]; [apply substring_all|].
  change (String c s +:+ t) with (String c (s +:+ t)). simpl. apply IH.
Qed.

Lemma length_string_app (s t : string) :
  String.length (s +:+ t) = String.length s + String.length t.
Proof.
  induction s as [|c s IH]; [done|].
  change (String c s +:+ t) with (String c (s +:+ t)). simpl. by rewrite IH.
Qed.

Lemma endswith_app (s t : string) : Py.endswith (s +:+ t) t = true.
Proof.
  unfold Py.endswith. rewrite length_string_app.
  replace (String.length s + String.length t - String.length t)
    with (String.length s) by lia.
  rewrite substring_app_suffix, String.eqb_refl.
  rewrite andb_true_r. apply Nat.leb_le. lia.
Qed.

Lemma processed_path_csv (project_id : string) :
  Py.endswith (processed_path project_id) ".csv" = true.
Proof.
  unfold processed_path. rewrite <- string_app_assoc. apply endswith_app.
Qed.

(** X12. Analysing a file whose name does not end in [.csv] can be
    repeated: a second run on the world the first one left returns the
    same value, prints the same records again and leaves the files as
    the first run left them. *)
Theorem analyze_repeatable (file_path project_id : string) (w : world) :
  Py.endswith file_path ".csv" = false ->
  (analyze_data file_path project_id (analyze_data file_path project_id w).2).1 =
    (analyze_data file_path project_id w).1 /\
  fs (analyze_data file_path project_id (analyze_data file_path project_id w).2).2 =
    fs (analyze_data file_path project_id w).2 /\
  printed (analyze_data file_path project_id w).2
    (analyze_data file_path project_id (analyze_data file_path project_id w).2).2 =
    printed w (analyze_data file_path project_id w).2.
Proof.
  intros Hcsv.
  assert (file_path ≠ processed_path project_id) as Hne.
  { intros ->. by rewrite processed_path_csv in Hcsv. }
  assert (forall fs' evs hs,
            (fs' = fs w \/
             exists dfp, fs' = <[processed_path project_id := CsvFile dfp]> (fs w)) ->
            (load_dataset file_path (after_with w fs' evs hs)).1 =
            (load_dataset file_path w).1)
    as Hload.
  { intros fs' evs hs Hfs. apply load_dataset_lookup. simpl.
    destruct Hfs as [->|(dfp & ->)]; [done|]. by rewrite lookup_insert_ne. }
  rewrite (analyze_data_pure file_path project_id w).
  destruct (load_dataset file_path w).1 as [df|e] eqn:Hl.
  - unfold analyze_loaded, analyze_failed, after.
    destruct (apply_derivations df (derivations df)) as [[dfp|e] done] eqn:Ha;
      [destruct (default_rate_of df) as [rate|e] eqn:Hr;
       [destruct (uploads_dir w) eqn:Hu|]|]; cbn [fst snd].
    all: rewrite analyze_data_pure, Hload by eauto.
    all: unfold analyze_loaded, analyze_failed, after; rewrite Ha, ?Hr.
    all: simpl uploads_dir; rewrite ?Hu; cbn [fst snd].
    all: rewrite !printed_after_with; simpl fs.
    all: split_and!; try done.
    by rewrite insert_insert_eq.
  - unfold analyze_failed, after. cbn [fst snd].
    rewrite analyze_data_pure, Hload by eauto.
    unfold analyze_failed, after. cbn [fst snd]. by rewrite !printed_after_with.
Qed.

Lemma analyze_repeatable_witness :
  (analyze_data "data.xlsx" "p1"
     (analyze_data "data.xlsx" "p1"
        (Examples.excel_world "data.xlsx" Examples.fresh_df)).2).1 =
    (analyze_data "data.xlsx" "p1"
       (Examples.excel_world "data.xlsx" Examples.fresh_df)).1 /\
  fs (analyze_data "data.xlsx" "p1"
        (analyze_data "data.xlsx" "p1"
           (Examples.excel_world "data.xlsx" Examples.fresh_df)).2).2 =
    fs (analyze_data "data.xlsx" "p1"
          (Examples.excel_world "data.xlsx" Examples.fresh_df)).2 /\
  printed (analyze_data "data.xlsx" "p1"
             (Examples.excel_world "data.xlsx" Examples.fresh_df)).2
    (analyze_data "data.xlsx" "p1"
       (analyze_data "data.xlsx" "p1"
          (Examples.excel_world "data.xlsx" Examples.fresh_df)).2).2 =
    printed (Examples.excel_world "data.xlsx" Examples.fresh_df)
      (analyze_data "data.xlsx" "p1"
         (Examples.excel_world "data.xlsx" Examples.fresh_df)).2.
Proof.
  apply (analyze_repeatable "data.xlsx" "p1"
           (Examples.excel_world "data.xlsx" Examples.fresh_df)).
  reflexivity.
Defined.

(** X13. After a run of the analyze stage that wrote the processed file,
    the train stage of the same project, whatever file path it is given,
    works on the frame in that file without running the analysis again,
    and the target column it finds there is the one of the frame the
    analyze stage loaded. *)
Theorem train_takes_over (file_path file_path' project_id : string)
    (w : world) (df : DataFrame) :
  (load_dataset file_path w).1 = Ok df ->
  computable df ->
  uploads_dir w = true ->
  exists dfp,
    fs (analyze_data file_path project_id w).2 !! processed_path project_id =
      Some (CsvFile dfp) /\
    training_frame file_path' project_id (analyze_data file_path project_id w).2 =
      Some dfp /\
    training_start file_path' project_id (analyze_data file_path project_id w).2 =
      (analyze_data file_path project_id w).2 /\
    find_target (columns dfp) = find_target (columns df).
Proof.
  intros Hload Hc Hup.
  destruct (analyze_data_saved file_path project_id w df Hload Hc Hup)
    as (dfp & rate & _ & _ & Hcols & ->).
  exists dfp. cbn [snd]. unfold training_frame, training_start. simpl fs.
  rewrite lookup_insert_eq.
  split_and!; [done..|]. by rewrite Hcols, find_target_engineered.
Qed.

Lemma train_takes_over_witness :
  exists dfp,
    fs (analyze_data "data.csv" "p1"
          (Examples.world_with "data.csv" Examples.fresh_df)).2
      !! processed_path "p1" = Some (CsvFile dfp) /\
    training_frame "other.csv" "p1"
      (analyze_data "data.csv" "p1"
         (Examples.world_with "data.csv" Examples.fresh_df)).2 = Some dfp /\
    training_start "other.csv" "p1"
      (analyze_data "data.csv" "p1"
         (Examples.world_with "data.csv" Examples.fresh_df)).2 =
      (analyze_data "data.csv" "p1"
         (Examples.world_with "data.csv" Examples.fresh_df)).2 /\
    find_target (columns dfp) = find_target (columns Examples.fresh_df).
Proof.
  apply (train_takes_over "data.csv" "other.csv" "p1"
           (Examples.world_with "data.csv" Examples.fresh_df)
           Examples.fresh_df).
  - vm_compute. reflexivity.
  - apply numeric_computable. by repeat constructor.
  - reflexivity.
Defined.

(** ** The writes of the stages *)

Lemma write_all_app (m : gmap string file) (l1 l2 : list (string * file)) :
  write_all m (l1 ++ l2) = write_all (write_all m l1) l2.
Proof. unfold write_all. by rewrite foldl_app. Qed.

Lemma written_write_all (project_id : string) (names : list string) :
  forall (m : gmap string file) (fitted : list Sklearn.Fitted),
    written project_id m names fitted =
    write_all m
      ((fun nb => (model_path project_id nb.1, JoblibFile nb.2)) <$>
       zip names fitted).
Proof.
  unfold written, write_all.
  induction names as [|n names IH]; intros m fitted; [done|].
  destruct fitted as [|f fitted]; [done|].
  cbn [zip zip_with fmap list_fmap foldl fst snd]. apply IH.
Qed.

Lemma model_writes_own (project_id : string) (names : list string) :
  forall fitted : list Sklearn.Fitted,
    names ⊆ model_names ->
    Forall (fun pf : string * file => pf.1 ∈ project_files project_id)
      ((fun nb => (model_path project_id nb.1, JoblibFile nb.2)) <$>
       zip names fitted).
Proof.
  induction names as [|n names IH]; intros fitted Hsub; [by constructor|].
  destruct fitted as [|f fitted]; [by constructor|].
  cbn [zip zip_with fmap list_fmap]. constructor.
  - cbn [fst]. unfold project_files. right. apply list_elem_of_fmap.
    exists n. split; [done|]. apply Hsub. by left.
  - apply IH. intros x Hx. apply Hsub. by right.
Qed.

(** X20. Every file either stage writes is written under one of the four
    paths the code spells for the project, its processed file and its
    three model files: the files after a run are the files before it with
    such writes made one after the other. And neither stage removes a
    file: a path that held a file before a run holds one after it. *)
Theorem stages_write_own_files_only (sk : Sklearn.api)
    (file_path project_id : string) (w : world) :
  (exists writes,
      Forall (fun pf : string * file => pf.1 ∈ project_files project_id) writes /\
      fs (analyze_data file_path project_id w).2 = write_all (fs w) writes) /\
  (exists writes,
      Forall (fun pf : string * file => pf.1 ∈ project_files project_id) writes /\
      fs (train_models sk file_path project_id w).2 = write_all (fs w) writes) /\
  (forall p,
      is_Some (fs w !! p) ->
      is_Some (fs (analyze_data file_path project_id w).2 !! p) /\
      is_Some (fs (train_models sk file_path project_id w).2 !! p)).
Proof.
  assert (forall base,
            (base = fs w \/
             exists dfp,
               base = <[processed_path project_id := CsvFile dfp]> (fs w)) ->
            exists writes,
              Forall (fun pf : string * file => pf.1 ∈ project_files project_id)
                writes /\
              base = write_all (fs w) writes) as Hbase.
  { intros base [->|(dfp & ->)].
    - by exists [].
    - exists [(processed_path project_id, CsvFile dfp)]. split; [|done].
      constructor; [|by constructor]. by left. }
  assert (forall base p,
            (base = fs w \/
             exists dfp,
               base = <[processed_path project_id := CsvFile dfp]> (fs w)) ->
            is_Some (fs w !! p) -> is_Some (base !! p)) as Hkeep.
  { intros base p [->|(dfp & ->)] Hp; [done|].
    apply lookup_insert_is_Some.
    destruct (decide (processed_path project_id = p)); [by left|by right]. }
  split_and!.
  - apply Hbase, analyze_files.
  - destruct (train_files sk file_path project_id w)
      as (base & fitted & Hb & ->).
    destruct (Hbase base Hb) as (writes & Hw & ->).
    eexists (writes ++ _). split.
    + apply Forall_app. split; [done|]. by apply model_writes_own.
    + by rewrite written_write_all, write_all_app.
  - intros p Hp. split.
    + by apply Hkeep; [apply analyze_files|].
    + destruct (train_files sk file_path project_id w)
        as (base & fitted & Hb & ->).
      by apply written_grows, Hkeep.
Qed.

Lemma stages_write_own_files_only_witness :
  is_Some
    (fs (train_models (Examples.toy Examples.auc_mixed) "data.csv" "p1"
           (Examples.world_with "data.csv" Examples.scenario_df)).2 !! "data.csv").
Proof.
  refine (proj2 (proj2 (proj2 (stages_write_own_files_only
                          (Examples.toy Examples.auc_mixed) "data.csv" "p1"
                          (Examples.world_with "data.csv" Examples.scenario_df)))
                   "data.csv" _)).
  by eexists.
Defined.

(** ** The order of the codes *)

(** X23. The codes the encoding loop gives the cells of a text column
    none of whose cells is missing follow the order of the cells' texts:
    of two cells, the one with the smaller text has the smaller code,
    equal texts have equal codes and different texts different codes; and
    every code is at least 0 and below the number of classes. *)
Theorem encoded_cells_order (X : DataFrame) (s : Series)
    (y : list string) (i j : nat) (a b : string) :
  NoDup (columns X) ->
  s ∈ series X ->
  values s = Objects (Some <$> y) ->
  y !! i = Some a ->
  y !! j = Some b ->
  exists codes cls ci cj,
    encode_column X (name s) = Ok (setitem X (name s) (Ints codes), cls) /\
    codes !! i = Some ci /\ codes !! j = Some cj /\
    ((ci <= cj)%Z <-> String.le a b) /\
    (ci = cj <-> a = b) /\
    (0 <= ci < Z.of_nat (length cls))%Z.
Proof.
  intros HX Hs Hl Hi Hj.
  assert (astype_str (Some <$> y) = y) as Hy.
  { unfold astype_str. rewrite <- list_fmap_compose. apply list_fmap_id. }
  destruct (classes_sorted y) as (Hsorted & _ & Hmem).
  set (cls := Sklearn.LabelEncoder.classes_ y) in *.
  assert (a ∈ cls) as Hci by (apply Hmem; by eapply list_elem_of_lookup_2).
  assert (b ∈ cls) as Hcj by (apply Hmem; by eapply list_elem_of_lookup_2).
  exists (Sklearn.LabelEncoder.fit_transform y), cls,
    (Z.of_nat (Sklearn.LabelEncoder.position a cls)),
    (Z.of_nat (Sklearn.LabelEncoder.position b cls)).
  pose proof (position_order cls _ _ Hsorted Hci Hcj) as Hij.
  pose proof (position_order cls _ _ Hsorted Hcj Hci) as Hji.
  pose proof (position_lt cls _ Hci) as Hlt.
  split_and!.
  - unfold encode_column. rewrite (getitem_elem _ _ HX Hs).
    destruct s as [ns vs]. simpl in *. subst vs. by rewrite Hy.
  - unfold Sklearn.LabelEncoder.fit_transform, Sklearn.LabelEncoder.transform.
    by rewrite list_lookup_fmap, Hi.
  - unfold Sklearn.LabelEncoder.fit_transform, Sklearn.LabelEncoder.transform.
    by rewrite list_lookup_fmap, Hj.
  - rewrite <- Hij. lia.
  - split.
    + intros Heq. apply (anti_symm String.le).
      * apply Hij. lia.
      * apply Hji. lia.
    + by intros ->.
  - lia.
  - lia.
Qed.

Lemma encoded_cells_order_witness :
  exists codes cls ci cj,
    encode_column Examples.no_target_df "city" =
      Ok (setitem Examples.no_target_df "city" (Ints codes), cls) /\
    codes !! 0 = Some ci /\ codes !! 1 = Some cj /\
    ((ci <= cj)%Z <-> String.le "b" "a") /\
    (ci = cj <-> "b" = "a") /\
    (0 <= ci < Z.of_nat (length cls))%Z.
Proof.
  assert (NoDup (columns Examples.no_target_df)) as H.
  { apply (bool_decide_unpack _). by vm_compute. }
  refine (encoded_cells_order Examples.no_target_df
            {| name := "city"; values := Objects [Some "b"; Some "a"] |}
            ["b"; "a"] 0 1 "b" "a" H _ eq_refl eq_refl eq_refl).
  vm_compute. repeat constructor.
Defined.
